(** * Verification of the HR performance-management front end

    A shallow embedding of the business rules of the React client:
    the weekly-evaluation form (PerformanceMetrics), the master-data
    context (MasterDataContext), the route table, the application index
    route (AppContent) and the generic master-data page (MasterModule),
    then the components around them (the search box and the loading of
    an evaluation, the dialogs of the master pages, the guarded routes of
    App, the sidebar, the dashboard and the breadcrumb), followed by the
    properties proved of them.

    Modelling conventions.
    - A JavaScript string is a [string]: a sequence of code units in the
      range U+0000..U+00FF.  Case mapping and white space are the ones
      ECMAScript prescribes for that range.
    - A JavaScript number is [jsnum]: NaN, the two infinities, or an exact
      decimal [dmant * 10 ^ dexp] kept in normal form.  Literals are read
      and numbers are added, multiplied, compared and printed exactly: the
      rounding of binary64 (which sets in beyond 15 to 17 significant
      digits, or past 1e308) and the sign of zero are not represented.
    - A JavaScript value is [jsval].  An object lists its own enumerable
      properties in the order [Object.keys] reports them, each key once.
      What an object inherits from [Object.prototype] ([constructor],
      [toString], ...) is not represented: reading a key the object does
      not own gives undefined.
    - The upper case of a string can leave the range of [string], so
      [toUpperCase] gives the list of its code units.
    - An array that may have holes (the [scores] state) is a list of
      [option jsval], [None] being a hole.
    - React state setters are modelled by state passing: a handler maps the
      state of the render it closes over to the state it commits.
    - What a handler reads from its surroundings ([localStorage], the
      server, [Date.now()]) is an argument; [JSON.parse] and [atob] are
      parameters that return [None] when they throw. *)

From Stdlib Require Import ZArith QArith Lqa String Ascii List Bool Lia Sorted.
From stdpp Require Import base option list gmap strings.

Open Scope string_scope.

(** ** ECMAScript strings *)

Module JS.

Definition code (c : ascii) : nat := nat_of_ascii c.

Definition is_digit (c : ascii) : bool :=
  (48 <=? code c)%nat && (code c <=? 57)%nat.

Definition digit_val (c : ascii) : Z := Z.of_nat (code c) - 48.

(** [String.prototype.toLowerCase] on one code unit: A-Z and the Latin-1
    capitals U+00C0..U+00DE (U+00D7, the multiplication sign, apart). *)
Definition lower_char (c : ascii) : ascii :=
  let n := code c in
  if ((65 <=? n) && (n <=? 90))%nat then ascii_of_nat (n + 32)
  else if ((192 <=? n) && (n <=? 222) && negb (n =? 215))%nat
       then ascii_of_nat (n + 32)
       else c.

Fixpoint toLowerCase (s : string) : string :=
  match s with
  | EmptyString => EmptyString
  | String c s' => String (lower_char c) (toLowerCase s')
  end.

(** [s.startsWith(q)] *)
Fixpoint startsWith (s q : string) {struct q} : bool :=
  match q, s with
  | EmptyString, _ => true
  | String _ _, EmptyString => false
  | String a q', String b s' => Ascii.eqb a b && startsWith s' q'
  end.

(** [s.includes(q)] *)
Fixpoint includes (s q : string) : bool :=
  startsWith s q ||
  match s with
  | EmptyString => false
  | String _ s' => includes s' q
  end.

Fixpoint rev_string (acc s : string) : string :=
  match s with
  | EmptyString => acc
  | String c s' => rev_string (String c acc) s'
  end.

(** [s.split(sep)] for a non-empty separator: [skip] counts the code units
    of a matched separator still to be passed over, [cur] is the current
    piece, reversed. *)
Fixpoint split_from (sep : string) (skip : nat) (cur : string) (s : string)
  : list string :=
  match s with
  | EmptyString => [rev_string "" cur]
  | String c s' =>
      match skip with
      | S k => split_from sep k cur s'
      | O =>
          if startsWith s sep
          then rev_string "" cur :: split_from sep (String.length sep - 1) "" s'
          else split_from sep 0 (String c cur) s'
      end
  end.

Definition split (s sep : string) : list string := split_from sep 0 "" s.

Fixpoint repeat_char (c : ascii) (n : nat) : string :=
  match n with
  | O => EmptyString
  | S k => String c (repeat_char c k)
  end.

(** [s.padStart(n, "0")] *)
Definition padStart0 (s : string) (n : nat) : string :=
  repeat_char "0" (n - String.length s) ++ s.

(** [s.replace(/^0+/, "")] *)
Fixpoint strip_leading_zeros (s : string) : string :=
  match s with
  | String "0" s' => strip_leading_zeros s'
  | _ => s
  end.

(** White space of [StrWhiteSpaceChar] below U+0100: TAB, LF, VT, FF, CR,
    SP and NBSP. *)
Definition is_ws (c : ascii) : bool :=
  let n := code c in
  ((9 <=? n) && (n <=? 13) || (n =? 32) || (n =? 160))%nat.

Fixpoint trim_start (l : list ascii) : list ascii :=
  match l with
  | c :: l' => if is_ws c then trim_start l' else l
  | [] => []
  end.

Definition trim_list (l : list ascii) : list ascii :=
  rev (trim_start (rev (trim_start l))).

(** [s.trim()] *)
Definition trim (s : string) : string :=
  string_of_list_ascii (trim_list (list_ascii_of_string s)).

(** ** ECMAScript numbers *)

(** A finite number: [dmant * 10 ^ dexp]. *)
Record dec := Dec { dmant : Z; dexp : Z }.

Inductive jsnum :=
| NaN
| Inf (neg : bool)
| Fin (d : dec).

#[global] Instance dec_eq_dec : EqDecision dec.
Proof. solve_decision. Defined.

#[global] Instance jsnum_eq_dec : EqDecision jsnum.
Proof. solve_decision. Defined.

Fixpoint strip10 (fuel : nat) (m e : Z) : dec :=
  match fuel with
  | O => Dec m e
  | S f => if (m mod 10 =? 0)%Z then strip10 f (m / 10)%Z (e + 1)%Z else Dec m e
  end.

(** Normal form: no trailing decimal zero in the mantissa; zero is [0e0]. *)
Definition norm (m e : Z) : dec :=
  if (m =? 0)%Z then Dec 0 0
  else strip10 (S (Z.to_nat (Z.log2 (Z.abs m)))) m e.

Definition of_Z (z : Z) : jsnum := Fin (norm z 0).
Definition of_N (n : N) : jsnum := of_Z (Z.of_N n).
Definition of_nat (n : nat) : jsnum := of_Z (Z.of_nat n).

(** The rational a finite number denotes. *)
Definition to_Q (d : dec) : Q :=
  if (0 <=? dexp d)%Z then inject_Z (dmant d * 10 ^ dexp d)
  else Qmake (dmant d) (Z.to_pos (10 ^ (- dexp d))).

Definition Qlt_bool (x y : Q) : bool := negb (Qle_bool y x).

(** [a < b] on numbers; a comparison with NaN is false. *)
Definition ltb (a b : jsnum) : bool :=
  match a, b with
  | NaN, _ | _, NaN => false
  | Inf true, Inf true => false
  | Inf true, _ => true
  | _, Inf true => false
  | Inf false, _ => false
  | Fin _, Inf false => true
  | Fin x, Fin y => Qlt_bool (to_Q x) (to_Q y)
  end.

(** [a > b] *)
Definition gtb (a b : jsnum) : bool := ltb b a.

(** [a >= b]: the negation of [a < b] unless an operand is NaN. *)
Definition geb (a b : jsnum) : bool :=
  match a, b with
  | NaN, _ | _, NaN => false
  | _, _ => negb (ltb a b)
  end.

Definition is_nan (a : jsnum) : bool :=
  match a with NaN => true | _ => false end.

Definition is_zero (a : jsnum) : bool :=
  match a with Fin d => (dmant d =? 0)%Z | _ => false end.

(** [a + b] *)
Definition add (a b : jsnum) : jsnum :=
  match a, b with
  | NaN, _ | _, NaN => NaN
  | Inf s, Inf t => if Bool.eqb s t then Inf s else NaN
  | Inf s, Fin _ | Fin _, Inf s => Inf s
  | Fin x, Fin y =>
      let k := Z.min (dexp x) (dexp y) in
      Fin (norm (dmant x * 10 ^ (dexp x - k) + dmant y * 10 ^ (dexp y - k)) k)
  end.

Definition is_neg (a : jsnum) : bool :=
  match a with
  | NaN => false
  | Inf s => s
  | Fin d => (dmant d <? 0)%Z
  end.

(** [a * b] *)
Definition mul (a b : jsnum) : jsnum :=
  match a, b with
  | NaN, _ | _, NaN => NaN
  | Fin x, Fin y => Fin (norm (dmant x * dmant y) (dexp x + dexp y))
  | _, _ =>
      if is_zero a || is_zero b then NaN
      else Inf (xorb (is_neg a) (is_neg b))
  end.

(** *** Numeric literals: [StringToNumber] *)

Fixpoint span_digits (l : list ascii) : list ascii * list ascii :=
  match l with
  | c :: l' =>
      if is_digit c
      then let (ds, r) := span_digits l' in (c :: ds, r)
      else ([], l)
  | [] => ([], [])
  end.

Definition digits_val (ds : list ascii) : Z :=
  fold_left (fun a c => 10 * a + digit_val c)%Z ds 0%Z.

(** The value of a digit in radix 16, 8 or 2, when it is one. *)
Definition radix_digit (radix : Z) (c : ascii) : option Z :=
  let n := Z.of_nat (code c) in
  let v := if ((48 <=? n) && (n <=? 57))%Z then Some (n - 48)%Z
           else if ((97 <=? n) && (n <=? 102))%Z then Some (n - 87)%Z
           else if ((65 <=? n) && (n <=? 70))%Z then Some (n - 55)%Z
           else None in
  match v with
  | Some d => if (d <? radix)%Z then Some d else None
  | None => None
  end.

Fixpoint radix_val (radix : Z) (acc : Z) (l : list ascii) : option Z :=
  match l with
  | [] => Some acc
  | c :: l' =>
      match radix_digit radix c with
      | Some d => radix_val radix (radix * acc + d)%Z l'
      | None => None
      end
  end.

(** [NonDecimalIntegerLiteral]: 0x, 0o or 0b and at least one digit. *)
Definition parse_nondecimal (l : list ascii) : option jsnum :=
  match l with
  | "0"%char :: p :: (_ :: _) as ds =>
      let radix :=
        if (Ascii.eqb p "x" || Ascii.eqb p "X")%char then Some 16%Z
        else if (Ascii.eqb p "o" || Ascii.eqb p "O")%char then Some 8%Z
        else if (Ascii.eqb p "b" || Ascii.eqb p "B")%char then Some 2%Z
        else None in
      match radix with
      | Some r => of_Z <$> radix_val r 0 ds
      | None => None
      end
  | _ => None
  end.

(** [ExponentPart], or nothing, up to the end of the literal. *)
Definition parse_exponent (l : list ascii) : option Z :=
  match l with
  | [] => Some 0%Z
  | c :: r =>
      if (Ascii.eqb c "e" || Ascii.eqb c "E")%char then
        let '(neg, r') :=
          match r with
          | "+"%char :: t => (false, t)
          | "-"%char :: t => (true, t)
          | _ => (false, r)
          end in
        match span_digits r' with
        | ((_ :: _) as ds, []) => Some (if neg then - digits_val ds else digits_val ds)%Z
        | _ => None
        end
      else None
  end.

Definition Infinity_lit : list ascii := list_ascii_of_string "Infinity".

(** [StrUnsignedDecimalLiteral] *)
Definition parse_unsigned (l : list ascii) : option jsnum :=
  if decide (l = Infinity_lit) then Some (Inf false)
  else
    let (ip, r1) := span_digits l in
    let '(fp, r2, ok) :=
      match r1 with
      | "."%char :: r =>
          let (fp, r2) := span_digits r in
          (fp, r2, negb (bool_decide (ip = []) && bool_decide (fp = [])))
      | _ => ([], r1, negb (bool_decide (ip = [])))
      end in
    if ok then
      match parse_exponent r2 with
      | Some ex =>
          Some (Fin (norm (digits_val (ip ++ fp)) (ex - Z.of_nat (length fp))))
      | None => None
      end
    else None.

Definition neg_num (a : jsnum) : jsnum :=
  match a with
  | NaN => NaN
  | Inf s => Inf (negb s)
  | Fin d => Fin (Dec (- dmant d) (dexp d))
  end.

(** [StrDecimalLiteral]: an optional sign and an unsigned literal. *)
Definition parse_decimal (l : list ascii) : option jsnum :=
  match l with
  | "+"%char :: r => parse_unsigned r
  | "-"%char :: r => neg_num <$> parse_unsigned r
  | _ => parse_unsigned l
  end.

(** [Number(s)] for a string [s]: surrounding white space is ignored,
    the empty string is 0, anything that is no literal is NaN. *)
Definition StringToNumber (s : string) : jsnum :=
  match trim_list (list_ascii_of_string s) with
  | [] => of_Z 0
  | l =>
      match parse_nondecimal l with
      | Some n => n
      | None => default NaN (parse_decimal l)
      end
  end.

(** *** [Number::toString] *)

Definition digit_char (d : N) : ascii := ascii_of_N (48 + d).

Fixpoint digits_fuel (fuel : nat) (n : N) (acc : list ascii) : list ascii :=
  match fuel with
  | O => acc
  | S f =>
      let acc' := digit_char (n mod 10) :: acc in
      if (n / 10 =? 0)%N then acc' else digits_fuel f (n / 10)%N acc'
  end.

Definition digits_of_N (n : N) : list ascii :=
  digits_fuel (S (N.to_nat (N.log2 n))) n [].

Definition exponent_suffix (e : Z) : list ascii :=
  "e"%char :: (if (e <? 0)%Z then "-"%char else "+"%char)
           :: digits_of_N (Z.to_N (Z.abs e)).

(** The digits of a positive number in normal form with mantissa digits
    [ds] and decimal exponent [e], as ECMAScript prints them: plain digits
    up to 21 of them, a fraction down to 1e-6, exponent notation beyond. *)
Definition positive_to_list (ds : list ascii) (e : Z) : list ascii :=
  let k := Z.of_nat (length ds) in
  let n := (k + e)%Z in
  if ((k <=? n) && (n <=? 21))%Z then
    ds ++ repeat "0"%char (Z.to_nat (n - k))
  else if ((0 <? n) && (n <=? 21))%Z then
    firstn (Z.to_nat n) ds ++ "."%char :: skipn (Z.to_nat n) ds
  else if ((-6 <? n) && (n <=? 0))%Z then
    "0"%char :: "."%char :: repeat "0"%char (Z.to_nat (- n)) ++ ds
  else
    match ds with
    | [d] => d :: exponent_suffix (n - 1)
    | d :: rest => d :: "."%char :: rest ++ exponent_suffix (n - 1)
    | [] => []
    end.

Definition NumberToString (a : jsnum) : string :=
  match a with
  | NaN => "NaN"
  | Inf false => "Infinity"
  | Inf true => "-Infinity"
  | Fin d =>
      if (dmant d =? 0)%Z then "0"
      else
        let body := positive_to_list (digits_of_N (Z.to_N (Z.abs (dmant d)))) (dexp d) in
        string_of_list_ascii
          (if (dmant d <? 0)%Z then "-"%char :: body else body)
  end.

(** ** ECMAScript values *)

#[local] Set Warnings "-register-all".

Inductive jsval :=
| JUndefined
| JNull
| JBool (b : bool)
| JNum (n : jsnum)
| JStr (s : string)
| JArr (elems : list jsval)
| JObj (props : list (string * jsval)).

#[global] Instance jsval_inhabited : Inhabited jsval := populate JUndefined.

(** [ToBoolean] *)
Definition truthy (v : jsval) : bool :=
  match v with
  | JUndefined | JNull => false
  | JBool b => b
  | JNum n => negb (is_nan n || is_zero n)
  | JStr s => negb (bool_decide (s = ""))
  | JArr _ | JObj _ => true
  end.

(** [a || b] and [a ?? b] on values already computed. *)
Definition or_else (a b : jsval) : jsval := if truthy a then a else b.

Definition is_nullish (v : jsval) : bool :=
  match v with JUndefined | JNull => true | _ => false end.

Definition coalesce (a b : jsval) : jsval := if is_nullish a then b else a.

(** [typeof v === "object"] *)
Definition typeof_object (v : jsval) : bool :=
  match v with JNull | JArr _ | JObj _ => true | _ => false end.

(** [typeof v === "string"] *)
Definition typeof_string (v : jsval) : bool :=
  match v with JStr _ => true | _ => false end.

(** [v === s] for a string literal [s]. *)
Definition is_str (v : jsval) (s : string) : bool :=
  match v with JStr x => bool_decide (x = s) | _ => false end.

(** [v === undefined] *)
Definition is_undefined (v : jsval) : bool :=
  match v with JUndefined => true | _ => false end.

(** [ToString]; an array prints as [join(",")], where null and undefined
    elements print as nothing. *)
Fixpoint ToString (v : jsval) : string :=
  match v with
  | JUndefined => "undefined"
  | JNull => "null"
  | JBool true => "true"
  | JBool false => "false"
  | JNum n => NumberToString n
  | JStr s => s
  | JArr l =>
      (fix join (l : list jsval) : string :=
         match l with
         | [] => ""
         | x :: r =>
             let sx := if is_nullish x then "" else ToString x in
             match r with
             | [] => sx
             | _ :: _ => sx ++ "," ++ join r
             end
         end) l
  | JObj _ => "[object Object]"
  end.

(** [ToNumber] *)
Definition ToNumber (v : jsval) : jsnum :=
  match v with
  | JUndefined => NaN
  | JNull => of_Z 0
  | JBool b => of_Z (if b then 1 else 0)
  | JNum n => n
  | JStr s => StringToNumber s
  | JArr _ | JObj _ => StringToNumber (ToString v)
  end.

(** An array index written canonically: "0", "1", "2", ... *)
Definition array_index (k : string) : option nat :=
  let l := list_ascii_of_string k in
  match l with
  | [] => None
  | c :: r =>
      if forallb is_digit l && (negb (Ascii.eqb c "0") || bool_decide (r = []))
      then Some (Z.to_nat (digits_val l))
      else None
  end.

Fixpoint assoc (k : string) (props : list (string * jsval)) : option jsval :=
  match props with
  | [] => None
  | (k', v) :: r => if bool_decide (k' = k) then Some v else assoc k r
  end.

Definition string_at (s : string) (i : nat) : jsval :=
  match String.get i s with
  | Some c => JStr (String c EmptyString)
  | None => JUndefined
  end.

(** [v[k]] for a base [v] that is neither null nor undefined: own
    properties of objects, elements and length of arrays and strings. *)
Definition get_prop (v : jsval) (k : string) : jsval :=
  match v with
  | JObj props => default JUndefined (assoc k props)
  | JArr l =>
      if bool_decide (k = "length") then JNum (of_nat (length l))
      else match array_index k with
           | Some i => default JUndefined (l !! i)
           | None => JUndefined
           end
  | JStr s =>
      if bool_decide (k = "length") then JNum (of_nat (String.length s))
      else match array_index k with
           | Some i => string_at s i
           | None => JUndefined
           end
  | _ => JUndefined
  end.

(** [v.k]: a TypeError ([None]) on null and undefined. *)
Definition get (v : jsval) (k : string) : option jsval :=
  if is_nullish v then None else Some (get_prop v k).

(** [v?.k] *)
Definition opt_get (v : jsval) (k : string) : jsval :=
  if is_nullish v then JUndefined else get_prop v k.

(** [Object.keys(v)] for a value that is neither null nor undefined. *)
Definition Object_keys (v : jsval) : list string :=
  match v with
  | JObj props => fst <$> props
  | JArr l => (fun i => NumberToString (of_nat i)) <$> seq 0 (length l)
  | JStr s => (fun i => NumberToString (of_nat i)) <$> seq 0 (String.length s)
  | _ => []
  end.

(** ** Arrays with holes *)

Abbreviation jsarray := (list (option jsval)).

(** [[...a]]: the iterator reads a hole as undefined. *)
Definition spread (a : jsarray) : jsarray :=
  (fun o => Some (default JUndefined o)) <$> a.

(** [a[i] = v]: beyond the end the array grows, the new slots in between
    being holes. *)
Definition array_set (a : jsarray) (i : nat) (v : jsval) : jsarray :=
  if decide (i < length a) then <[i := Some v]> a
  else a ++ replicate (i - length a) None ++ [Some v].

(** [a[i]] *)
Definition array_get (a : jsarray) (i : nat) : jsval :=
  match a !! i with
  | Some (Some v) => v
  | _ => JUndefined
  end.

(** [a.every(p)], [a.some(p)], [a.filter(p)] and [a.reduce(f, init)] visit
    the elements that are present and pass holes over. *)
Definition every (p : jsval → bool) (a : jsarray) : bool :=
  forallb (fun o => match o with Some v => p v | None => true end) a.

Definition some (p : jsval → bool) (a : jsarray) : bool :=
  existsb (fun o => match o with Some v => p v | None => false end) a.

Definition present (a : jsarray) : list jsval := omap id a.

Definition reduce {A} (f : A → jsval → A) (init : A) (a : jsarray) : A :=
  fold_left f (present a) init.

(** [Array(n).fill("")] *)
Definition blank (n : nat) : jsarray := replicate n (Some (JStr "")).

End JS.

(** ** Browser storage *)

Module Storage.

(** [localStorage]: string keys, string values. *)
Abbreviation t := (gmap string string).

(** [localStorage.getItem(k)]: the value, or null. *)
Definition getItem (ls : t) (k : string) : JS.jsval :=
  match ls !! k with
  | Some v => JS.JStr v
  | None => JS.JNull
  end.

(** [localStorage.clear()] *)
Definition clear (ls : t) : t := ∅.

End Storage.

(** ** The weekly-evaluation form: PerformanceMetrics *)

Module PerformanceMetrics.
Import JS.

(** [formatWeekValue]: [`${year}-W${String(week).padStart(2, "0")}`] *)
Definition formatWeekValue (year week : jsval) : string :=
  ToString year ++ "-W" ++ padStart0 (ToString week) 2.

Record WeekParts := { year : jsval; week : jsval }.

(** [parseWeek] *)
Definition parseWeek (weekValue : string) : WeekParts :=
  if negb (truthy (JStr weekValue)) || negb (includes weekValue "-W")
  then {| year := JNull; week := JNull |}
  else
    let parts := split weekValue "-W" in
    let year := default JUndefined (JStr <$> parts !! 0) in
    let weekStr := default JUndefined (JStr <$> parts !! 1) in
    {| year := JNum (ToNumber year); week := JNum (ToNumber weekStr) |}.

(** [extractBackendError]; [None] would be a TypeError. *)
Definition fallback_message : string :=
  "Unable to process your request. Please try again.".

Definition extractBackendError (err : jsval) : option jsval :=
  let data := opt_get (opt_get err "response") "data" in
  if truthy (opt_get data "errors") &&
     match get data "errors" with
     | Some e => typeof_object e
     | None => false
     end
  then
    errors ← get data "errors";
    let firstKey := default JUndefined (JStr <$> Object_keys errors !! 0) in
    get errors (ToString firstKey)
  else if truthy (opt_get data "detail") then get data "detail"
  else if truthy (opt_get data "message") then get data "message"
  else if typeof_string data then Some data
  else Some (JStr fallback_message).

Record ValidationModal := { show : bool; message : jsval }.

(** The state and the props the handlers below close over. *)
Record State := {
  employeeId : string;
  employeeName : string;            (* employeeData.name *)
  evaluationId : jsval;
  scores : jsarray;
  comments : jsarray;
  selectedWeek : string;
  validationModal : ValidationModal;
}.

Definition setScores (st : State) (a : jsarray) : State :=
  {| employeeId := employeeId st; employeeName := employeeName st;
     evaluationId := evaluationId st; scores := a; comments := comments st;
     selectedWeek := selectedWeek st; validationModal := validationModal st |}.

Definition setValidationModal (st : State) (m : ValidationModal) : State :=
  {| employeeId := employeeId st; employeeName := employeeName st;
     evaluationId := evaluationId st; scores := scores st;
     comments := comments st; selectedWeek := selectedWeek st;
     validationModal := m |}.

Definition warn (msg : string) : ValidationModal :=
  {| show := true; message := JStr msg |}.

(** The leading-zero rule of [handleScoreChange]:
    [value.replace(/^0+/, "") || "0"] when the value has more than one
    code unit and starts with "0". *)
Definition dezero (value : string) : string :=
  if (1 <? String.length value)%nat && bool_decide (String.get 0 value = Some "0"%char)
  then let r := strip_leading_zeros value in
       if bool_decide (r = "") then "0" else r
  else value.

(** [handleScoreChange] *)
Definition handleScoreChange (st : State) (index : nat) (value : string) : State :=
  let updatedScores := spread (scores st) in
  if bool_decide (value = "") then
    setScores st (array_set updatedScores index (JStr ""))
  else if bool_decide (value = "0") then
    setScores st (array_set updatedScores index (JStr "0"))
  else
    let value := dezero value in
    let num := StringToNumber value in
    if is_nan num || ltb num (of_Z 0) then
      setValidationModal st (warn "Please enter a valid number between 0 and 100.")
    else if gtb num (of_Z 100) then
      setValidationModal st (warn "Score cannot exceed 100.")
    else
      setScores st (array_set updatedScores index (JStr value)).

(** [totalScore], as the render computes it. *)
Definition totalScore (scores : jsarray) : jsnum :=
  fold_left (fun sum val => add sum (ToNumber val))
    (List.filter (fun s => negb (is_str s "")) (present scores)) (of_Z 0).

(** The key a measurement name gets in the metrics object:
    [name.toLowerCase().replace(/[^a-z0-9]+/g, "_").replace(/^_|_$/g, "")]. *)
Definition is_key_char (c : ascii) : bool :=
  let n := code c in
  ((97 <=? n) && (n <=? 122) || (48 <=? n) && (n <=? 57))%nat.

Fixpoint underscore_runs (in_run : bool) (s : string) : string :=
  match s with
  | EmptyString => EmptyString
  | String c s' =>
      if is_key_char c then String c (underscore_runs false s')
      else if in_run then underscore_runs true s'
           else String "_" (underscore_runs true s')
  end.

Fixpoint drop_last_underscore (s : string) : string :=
  match s with
  | EmptyString => EmptyString
  | String c EmptyString => if Ascii.eqb c "_" then EmptyString else s
  | String c s' => String c (drop_last_underscore s')
  end.

Definition trim_underscores (s : string) : string :=
  match s with
  | String "_" s' => drop_last_underscore s'
  | _ => drop_last_underscore s
  end.

Definition metric_key (name : string) : string :=
  trim_underscores (underscore_runs false (toLowerCase name)).

Section Handlers.

(** [JSON.parse]: the value, or [None] when it throws. *)
Variable JSON_parse : string → option jsval.

(** What [getUserRole] and [handleSubmit] read from around them. *)
Record Env := {
  localStorage : Storage.t;
  mode : jsval;                      (* location.state.mode *)
  measurements : list string;        (* names of the active measurements *)
  today : string;                    (* new Date().toISOString().slice(0, 10) *)
}.

(** [getUserRole]; [None] is the TypeError of [role.toLowerCase()] on a
    role that is no string. *)
Definition getUserRole (env : Env) : option string :=
  let user :=
    match JSON_parse (ToString (Storage.getItem (localStorage env) "user")) with
    | Some u => u
    | None => JNull
    end in
  let role :=
    or_else (or_else (opt_get user "role")
                     (Storage.getItem (localStorage env) "role"))
            (JStr "") in
  match role with
  | JStr r => Some (toLowerCase r)
  | _ => None
  end.

Record Payload := {
  employee : string;
  evaluation_type : string;
  p_year : jsval;
  week_number : jsval;
  review_date : string;
  remarks : string;
  metrics : gmap string jsval;
  total_score : jsnum;
}.

Inductive Request :=
| PUT (url : string) (body : Payload)
| POST (url : string) (body : Payload).

(** What one run of [handleSubmit] does before it awaits the server. *)
Inductive Submission :=
| Rejected (modal : ValidationModal)   (* setValidationModal(...); return *)
| Sent (req : Request)
| Threw.                               (* an uncaught TypeError *)

Definition build_metrics (names : list string) (scores comments : jsarray)
  : gmap string jsval :=
  fold_left
    (fun (m : gmap string jsval) '(idx, name) =>
       let key := metric_key name in
       <[key ++ "_comment" := or_else (array_get comments idx) (JStr "")]>
         (<[key := JNum (ToNumber (array_get scores idx))]> m))
    (imap (fun idx name => (idx, name)) names) ∅.

Definition payload_total (scores : jsarray) : jsnum :=
  reduce (fun sum val =>
            let n := ToNumber val in
            add sum (if truthy (JNum n) then n else of_Z 0))
         (of_Z 0) scores.

Definition allFilled (st : State) (env : Env) : bool :=
  bool_decide (length (scores st) = length (measurements env)) &&
  every (fun s => negb (is_str s "") && negb (is_undefined s)) (scores st).

Definition invalid (st : State) : bool :=
  some (fun s => is_nan (ToNumber s) || ltb (ToNumber s) (of_Z 0)
                 || gtb (ToNumber s) (of_Z 100)) (scores st).

(** [handleSubmit], up to the request it issues. *)
Definition handleSubmit (st : State) (env : Env) : Submission :=
  if negb (truthy (JStr (employeeId st))) then
    Rejected (warn "Please search and select an employee first.")
  else if negb (truthy (JStr (employeeName st))) then
    Rejected (warn "Please search and load employee details before entering performance metrics.")
  else if negb (allFilled st env) then
    Rejected (warn "Please fill all performance metrics before submitting.")
  else if invalid st then
    Rejected (warn "All scores must be valid numbers between 0 and 100.")
  else
    match getUserRole env with
    | None => Threw
    | Some role =>
        if negb (bool_decide (role = "admin") || bool_decide (role = "manager")) then
          Rejected (warn "Only Admin or Manager can submit evaluations.")
        else if negb (truthy (JStr (selectedWeek st))) then
          Rejected (warn "Please select a week for evaluation.")
        else
          let w := parseWeek (selectedWeek st) in
          let payload :=
            {| employee := trim (employeeId st);
               evaluation_type := "Manager";
               p_year := year w;
               week_number := week w;
               review_date := today env;
               remarks := "";
               metrics := build_metrics (measurements env) (scores st) (comments st);
               total_score := payload_total (scores st) |} in
          if truthy (evaluationId st) && is_str (mode env) "edit" then
            Sent (PUT ("performance/evaluations/" ++ ToString (evaluationId st) ++ "/") payload)
          else
            Sent (POST "performance/evaluations/" payload)
    end.

End Handlers.

End PerformanceMetrics.

(** ** The master-data context: MasterDataContext *)

Module MasterDataContext.
Import JS.

Record Master := { id : jsval; name : jsval; code : jsval; status : jsval }.

Record DropdownRequest := {
  url : string;
  param_type : string;
  param_status : string;
}.

(** How a request settles: a response with its [data], or a rejection. *)
Inductive Settled :=
| Fulfilled (data : jsval)
| Failed (err : jsval).

Inductive Effect :=
| SetLoading (b : bool)
| Get (req : DropdownRequest)
| SetMasters (m : gmap string (list Master))
| ConsoleError.

Record ProviderState := {
  masters : gmap string (list Master);
  loadedOnce : bool;                 (* loadedOnceRef.current *)
  loading : bool;
}.

Definition initial : ProviderState :=
  {| masters := <["MEASUREMENT" := []]> (<["PROJECT" := []]>
                 (<["DEPARTMENT" := []]> (<["ROLE" := []]> ∅)));
     loadedOnce := false; loading := false |}.

Definition types : list string := ["ROLE"; "DEPARTMENT"; "PROJECT"; "MEASUREMENT"].

Definition dropdown (type : string) : DropdownRequest :=
  {| url := "masters/dropdown/"; param_type := type; param_status := "Active" |}.

(** One item of a dropdown response; [None] is the TypeError of reading a
    property of null or undefined. *)
Definition to_master (item : jsval) : option Master :=
  value ← get item "value";
  label ← get item "label";
  code ← get item "code";
  status ← get item "status";
  Some {| id := value; name := label;
          code := coalesce code JNull;
          status := coalesce status (JStr "Active") |}.

(** [responses[idx].data?.results ?? responses[idx].data ?? []], mapped
    when it is an array. *)
Definition to_masters (data : jsval) : option (list Master) :=
  match coalesce (coalesce (opt_get data "results") data) (JArr []) with
  | JArr items => mapM to_master items
  | _ => Some []
  end.

(** [Promise.all]: every response, or [None] when a request fails. *)
Definition all_fulfilled (l : list Settled) : option (list jsval) :=
  mapM (fun s => match s with Fulfilled d => Some d | Failed _ => None end) l.

Fixpoint fill (types : list string) (responses : list jsval)
    (acc : gmap string (list Master)) : option (gmap string (list Master)) :=
  match types, responses with
  | type :: types', data :: responses' =>
      l ← to_masters data;
      fill types' responses' (<[type := l]> acc)
  | _, _ => Some acc
  end.

(** [loadMasters]: the effects in program order and the state they leave. *)
Definition loadMasters (server : DropdownRequest → Settled) (st : ProviderState)
    (force : bool) : list Effect * ProviderState :=
  if loadedOnce st && negb force then ([], st)
  else
    let requests : list DropdownRequest := dropdown <$> types in
    let issued : list Effect := SetLoading true :: (Get <$> requests) in
    let built : option (gmap string (list Master)) :=
      responses ← all_fulfilled (server <$> requests);
      fill types responses ∅ in
    match built with
    | Some newMasters =>
        ((issued ++ [SetMasters newMasters; SetLoading false])%list,
         {| masters := newMasters; loadedOnce := true; loading := false |})
    | None =>
        ((issued ++ [ConsoleError; SetLoading false])%list,
         {| masters := masters st; loadedOnce := loadedOnce st; loading := false |})
    end.

End MasterDataContext.

(** ** Routing *)

Module Routes.
Import JS.

Inductive Element :=
| View (component : string)
| Navigate (to : string).             (* <Navigate to=... replace /> *)

(** [localStorage.getItem("role")?.toLowerCase()] *)
Definition stored_role_lower (ls : Storage.t) : jsval :=
  match Storage.getItem ls "role" with
  | JStr r => JStr (toLowerCase r)
  | _ => JUndefined
  end.

(** The element of the route [/employee-lifecycle/history]. *)
Definition history_element (ls : Storage.t) : Element :=
  if is_str (stored_role_lower ls) "admin"
  then View "EmployeeLifecycleHistory"
  else Navigate "/dashboard".

End Routes.

(** ** The index route: AppContent *)

Module AppContent.
Import JS Routes.

(** [getDefaultRoute], for the role read when the component renders. *)
Definition getDefaultRoute (role : jsval) : string :=
  match role with
  | JStr r =>
      if negb (truthy role) then "/login"
      else if bool_decide (toLowerCase r = "employee") then "/employee-dashboard"
      else "/dashboard"
  | _ => "/login"
  end.

Section Index.

(** [atob] and [JSON.parse]: the result, or [None] when they throw. *)
Variable atob : string → option string.
Variable JSON_parse : string → option jsval.

(** [payload.exp * 1000] for the payload of the token; [None] is whatever
    the [try] block throws. *)
Definition token_expiry (token : string) : option jsnum :=
  let segment := default JUndefined (JStr <$> split token "." !! 1) in
  decoded ← atob (ToString segment);
  payload ← JSON_parse decoded;
  exp ← get payload "exp";
  Some (mul (ToNumber exp) (of_Z 1000)).

(** The element of the index route and the local storage it leaves;
    [now] is [Date.now()]. *)
Definition index_element (ls : Storage.t) (now : jsnum) : Element * Storage.t :=
  let role := Storage.getItem ls "role" in
  match Storage.getItem ls "access_token" with
  | JStr token =>
      if negb (truthy (JStr token)) then (Navigate "/login", ls)
      else
        match token_expiry token with
        | Some expiry =>
            if geb now expiry
            then (Navigate "/login", Storage.clear ls)
            else (Navigate (getDefaultRoute role), ls)
        | None => (Navigate "/login", Storage.clear ls)
        end
  | _ => (Navigate "/login", ls)
  end.

(** [isTokenValid] of App.js, the check the protected routes use. *)
Definition isTokenValid (ls : Storage.t) (now : jsnum) : bool :=
  match Storage.getItem ls "access_token" with
  | JStr token =>
      if negb (truthy (JStr token)) then false
      else
        let segment : jsval :=
          or_else (default JUndefined (JStr <$> split token "." !! 1)) (JStr "") in
        let expiry : option jsnum :=
          decoded ← atob (ToString segment);
          payload ← JSON_parse decoded;
          exp ← get payload "exp";
          Some (mul (ToNumber exp) (of_Z 1000)) in
        match expiry with
        | Some e => ltb now e
        | None => false
        end
  | _ => false
  end.

End Index.

End AppContent.

(** ** The generic master-data page: MasterModule *)

Module MasterModule.
Import JS.

Record Column := { key : string; label : string }.

(** A row of the table: the properties of one record of the list. *)
Abbreviation Row := (list (string * jsval)).

(** [String(r[c.key] ?? "").toLowerCase()] *)
Definition cell_text (r : Row) (c : Column) : string :=
  toLowerCase (ToString (coalesce (get_prop (JObj r) (key c)) (JStr ""))).

(** [filtered], the memo of [TablePanel]. *)
Definition filtered (data : list Row) (columns : list Column) (search : string)
  : list Row :=
  if negb (truthy (JStr search)) then data
  else
    let q := toLowerCase search in
    List.filter (fun r => existsb (fun c => includes (cell_text r c) q) columns) data.

(** *** AddNewModal *)

Abbreviation Form := (gmap string jsval).

(** What an [onChange] of the modal does: the form it commits and the
    argument it passes to [onDepartmentChange], when it calls it. *)
Record Change := { form_set : Form; department_call : option jsval }.

(** [onChange] of a select field; [has_callback] tells whether the
    [onDepartmentChange] prop is set. *)
Definition select_onChange (form : Form) (has_callback : bool)
    (fkey : string) (target_value : string) : Change :=
  let value := JNum (StringToNumber target_value) in
  let updatedForm : Form :=
    <[fkey := if bool_decide (fkey = "managers")
              then (if truthy value then JArr [value] else JArr [])
              else value]> form in
  if bool_decide (fkey = "department_id") then
    {| form_set := <["managers" := JArr []]> updatedForm;
       department_call := if has_callback then Some value else None |}
  else
    {| form_set := updatedForm; department_call := None |}.

(** [onChange] of a text input. *)
Definition input_onChange (form : Form) (fkey : string) (target_value : string)
  : Change :=
  {| form_set := <[fkey := JStr target_value]> form; department_call := None |}.

(** *** DeactivateDepartmentModal *)

(** What an identifier is bound to. *)
Inductive Binding :=
| Data (v : jsval)
| Callable.                           (* a function, component, hook or module *)

Inductive Completion (A : Type) :=
| Normal (a : A)
| ReferenceError (identifier : string).
Arguments Normal {A} a.
Arguments ReferenceError {A} identifier.

Definition bind {A B} (c : Completion A) (k : A → Completion B) : Completion B :=
  match c with
  | Normal a => k a
  | ReferenceError x => ReferenceError x
  end.

(** The top-level bindings of the module. *)
Definition module_scope : list string :=
  ["React"; "useEffect"; "useState"; "useMemo"; "useParams"; "Navigate";
   "axiosInstance"; "useMasterData"; "EmployeeLifecycleAPI";
   "MasterAPI"; "EmployeeRoleAPI"; "PageLayout"; "AlertMessage";
   "TablePanel"; "renderCell"; "AddNewModal"; "ConfirmDeleteModal";
   "DeactivateDepartmentModal"; "GenericCRUDPage"; "RolesPage";
   "DepartmentsPage"; "MeasurementsPage"; "ProjectsPage";
   "EmployeeRoleAssignmentsPage"; "formatDate"; "MasterModule"].

Record ModalProps := { department : jsval; loading : bool }.

Record ModalState := { preview : jsval; previewLoading : bool; reason : string }.

(** The bindings in scope in the body of [DeactivateDepartmentModal]:
    props, state and setters, then the module. *)
Definition scope (p : ModalProps) (s : ModalState) : list (string * Binding) :=
  [("department", Data (department p)); ("onConfirm", Callable);
   ("onCancel", Callable); ("loading", Data (JBool (loading p)));
   ("preview", Data (preview s)); ("setPreview", Callable);
   ("previewLoading", Data (JBool (previewLoading s)));
   ("setPreviewLoading", Callable);
   ("reason", Data (JStr (reason s))); ("setReason", Callable)]
  ++ ((fun x => (x, Callable)) <$> module_scope).

Fixpoint resolve (sc : list (string * Binding)) (x : string) : Completion Binding :=
  match sc with
  | [] => ReferenceError x
  | (y, b) :: sc' => if bool_decide (y = x) then Normal b else resolve sc' x
  end.

Definition binding_truthy (b : Binding) : bool :=
  match b with Data v => truthy v | Callable => true end.

(** [!reason || loading || previewLoading || !confirmed], evaluated left to
    right; the result is reduced to the boolean the attribute takes. *)
Definition disabled_attr (sc : list (string * Binding)) : Completion bool :=
  bind (resolve sc "reason") (fun r =>
  if negb (binding_truthy r) then Normal true else
  bind (resolve sc "loading") (fun l =>
  if binding_truthy l then Normal true else
  bind (resolve sc "previewLoading") (fun pl =>
  if binding_truthy pl then Normal true else
  bind (resolve sc "confirmed") (fun c =>
  Normal (negb (binding_truthy c)))))).

(** What the render leaves of the Deactivate button. *)
Record Button := { disabled : bool; onClick_arg : string }.

(** What evaluating [DeactivateDepartmentModal] gives: the button, or the
    error that aborts the render. The global object is taken to have no
    property [confirmed]. *)
Definition DeactivateDepartmentModal (p : ModalProps) (s : ModalState)
  : Completion Button :=
  bind (disabled_attr (scope p s)) (fun d =>
  Normal {| disabled := d; onClick_arg := reason s |}).

(** A click on the Deactivate button: the argument [onConfirm] is called
    with, if it is called. A disabled button dispatches no click. *)
Definition click (p : ModalProps) (s : ModalState) : option string :=
  match DeactivateDepartmentModal p s with
  | Normal b => if disabled b then None else Some (onClick_arg b)
  | ReferenceError _ => None
  end.

End MasterModule.

(** * Sample inputs *)

Module ServerSamples.
Import JS MasterDataContext.

(** A server that lists one department, paginated, and nothing else. *)
Definition one_department (req : DropdownRequest) : Settled :=
  if bool_decide (param_type req = "DEPARTMENT")
  then Fulfilled (JObj [("results",
         JArr [JObj [("value", JNum (of_Z 3)); ("label", JStr "Design")]])])
  else Fulfilled (JArr []).

(** A server whose project list is down. *)
Definition projects_down (req : DropdownRequest) : Settled :=
  if bool_decide (param_type req = "PROJECT")
  then Failed (JObj [("message", JStr "Network Error")])
  else one_department req.

Definition loaded : ProviderState :=
  {| masters := initial.(masters); loadedOnce := true; loading := false |}.

End ServerSamples.

Module TokenSamples.
Import JS.




End TokenSamples.

Module FormSamples.
Import JS PerformanceMetrics.

(** A form with three blank rows. *)
Definition blank_form : State :=
  {| employeeId := "EMP001"; employeeName := "Asha Rao"; evaluationId := JNull;
     scores := blank 3; comments := blank 3; selectedWeek := "2025-W48";
     validationModal := {| show := false; message := JStr "" |} |}.

(** The edit form of evaluation 12 when the scores were last set from an
    empty list of measurements. *)
Definition unsized : State :=
  {| employeeId := "EMP001"; employeeName := "Asha Rao";
     evaluationId := JNum (of_Z 12);
     scores := []; comments := []; selectedWeek := "2025-W48";
     validationModal := {| show := false; message := JStr "" |} |}.

(** The same form once a score is typed in the third row only. *)
Definition third_row_only : State := handleScoreChange unsized 2 "5".

Definition manager_editing : Env :=
  {| localStorage := <["role" := "Manager"]> ∅;
     mode := JStr "edit";
     measurements := ["Quality"; "Teamwork"; "Delivery"];
     today := "2025-11-28" |}.

(** A form filled in on every row. *)
Definition all_rows : State :=
  {| employeeId := "EMP001"; employeeName := "Asha Rao"; evaluationId := JNull;
     scores := [Some (JStr "80"); Some (JStr "7.5"); Some (JNum (of_Z 100))];
     comments := blank 3; selectedWeek := "2025-W48";
     validationModal := {| show := false; message := JStr "" |} |}.

(** The error of a response whose body has an empty [detail]. *)
Definition empty_detail : jsval :=
  JObj [("response",
         JObj [("status", JNum (of_Z 400));
               ("data", JObj [("detail", JStr ""); ("message", JStr "Quota exceeded")])])].

Definition manager_adding : Env :=
  {| localStorage := <["role" := "Manager"]> ∅;
     mode := JStr "add";
     measurements := ["Quality"; "Teamwork"; "Delivery"];
     today := "2025-11-28" |}.

Definition JSON_parse_null (s : string) : option jsval :=
  if bool_decide (s = "null") then Some JNull else None.

End FormSamples.

(** * Specifications *)

(** ** Notions the statements below are written with *)

Module Notions.
Import JS.

(** *** Strings *)

(** [q] occurs in [s] as a substring. *)
Definition substring_of (q s : string) : Prop :=
  ∃ pre post : string, s = pre ++ q ++ post.

(** Strings without the character [-], as the decimal digits of a natural
    number are. *)
Fixpoint dashless (s : string) : bool :=
  match s with
  | EmptyString => true
  | String c s' => negb (Ascii.eqb c "-") && dashless s'
  end.

Definition dashless_list (l : list ascii) : bool :=
  forallb (fun c => negb (Ascii.eqb c "-")) l.

(** *** Typed scores *)

(** Leading zeros removed, a lone "0" standing for a string of zeros. *)
Definition strip_zeros (v : string) : string :=
  let r := strip_leading_zeros v in
  if bool_decide (r = "") then "0" else r.

(** The number a typed score stands for. *)
Definition numeric_value (v : string) : jsnum := StringToNumber (strip_zeros v).

Definition between_0_100 (n : jsnum) : Prop :=
  match n with
  | Fin d => (0 <= to_Q d)%Q ∧ (to_Q d <= 100)%Q
  | _ => False
  end.

Definition negative (n : jsnum) : Prop :=
  match n with
  | Fin d => (to_Q d < 0)%Q
  | Inf s => s = true
  | NaN => False
  end.

Definition above_100 (n : jsnum) : Prop :=
  match n with
  | Fin d => (100 < to_Q d)%Q
  | Inf s => s = false
  | NaN => False
  end.

(** The typed values [handleScoreChange] is to take, and those it is to
    refuse. *)
Definition accepted (v : string) : Prop :=
  v = "" ∨ v = "0" ∨ between_0_100 (numeric_value v).

Definition refused (v : string) : Prop :=
  let n := numeric_value v in n = NaN ∨ negative n ∨ above_100 n.

(** What an accepted value leaves in the array. *)
Definition entry_of (v : string) : string :=
  if bool_decide (v = "") then "" else strip_zeros v.

(** *** Submitted scores *)

(** An entry of the scores is filled in. *)
Definition filled (s : jsval) : Prop := s ≠ JStr "" ∧ s ≠ JUndefined.

(** One entry per measurement: as many entries as measurements, none of
    them a hole. *)
Definition one_entry_each (st : PerformanceMetrics.State) (env : PerformanceMetrics.Env)
  : Prop :=
  length (present (PerformanceMetrics.scores st))
  = length (PerformanceMetrics.measurements env).

(** The rational a score stands for; 0 when it stands for none. *)
Definition score_value (s : jsval) : Q :=
  match ToNumber s with
  | Fin d => to_Q d
  | _ => 0%Q
  end.

Definition sum_of_scores (l : list jsval) : Q :=
  fold_right (fun s q => (score_value s + q)%Q) 0%Q l.

(** The guards of [handleSubmit], for a role already read: on the entries
    of the scores that are present. *)
Definition guards_pass (st : PerformanceMetrics.State) (env : PerformanceMetrics.Env)
    (role : string) : Prop :=
  PerformanceMetrics.employeeId st ≠ ""
  ∧ PerformanceMetrics.employeeName st ≠ ""
  ∧ length (PerformanceMetrics.scores st) = length (PerformanceMetrics.measurements env)
  ∧ (∀ s, In s (present (PerformanceMetrics.scores st)) →
          filled s ∧ between_0_100 (ToNumber s))
  ∧ (role = "admin" ∨ role = "manager")
  ∧ PerformanceMetrics.selectedWeek st ≠ "".

(** The request edits an existing evaluation. *)
Definition edits_existing (st : PerformanceMetrics.State) (env : PerformanceMetrics.Env)
  : Prop :=
  truthy (PerformanceMetrics.evaluationId st) = true
  ∧ PerformanceMetrics.mode env = JStr "edit".

Definition body_of (r : PerformanceMetrics.Request) : PerformanceMetrics.Payload :=
  match r with
  | PerformanceMetrics.PUT _ b | PerformanceMetrics.POST _ b => b
  end.

Definition is_put (r : PerformanceMetrics.Request) : Prop :=
  match r with PerformanceMetrics.PUT _ _ => True | _ => False end.

(** *** Week numbers *)

(** A week number printed on two digits reads back as itself. *)
Definition week_reads_back (w : N) : bool :=
  let p := padStart0 (NumberToString (of_N w)) 2 in
  dashless p && bool_decide (StringToNumber p = of_N w).

(** *** Error messages *)

(** The body of the response an error carries, if any. *)
Definition response_data (err : jsval) : jsval :=
  opt_get (opt_get err "response") "data".

(** The value of field [k] of a response body; undefined when the body is
    no object or has no such field. *)
Definition field (data : jsval) (k : string) : jsval :=
  match data with
  | JObj props => default JUndefined (assoc k props)
  | _ => JUndefined
  end.

Definition is_object (v : jsval) : bool :=
  match v with JObj _ | JArr _ => true | _ => false end.

(** The value of the first field of an object (the first element of an
    array); undefined when there is none. *)
Definition first_field (v : jsval) : jsval :=
  match v with
  | JObj ((_, x) :: _) => x
  | JArr (x :: _) => x
  | _ => JUndefined
  end.

(** A field counts when it is set to a value that is not empty: a truthy
    value, as the tests of the function have it. *)
Definition is_present (v : jsval) : bool := truthy v.

(** The message the error modal shows, by precedence. *)
Definition modal_message (err : jsval) : jsval :=
  let data := response_data err in
  if is_object (field data "errors") then first_field (field data "errors")
  else if is_present (field data "detail") then field data "detail"
  else if is_present (field data "message") then field data "message"
  else match data with
       | JStr _ => data
       | _ => JStr PerformanceMetrics.fallback_message
       end.

(** A field is there when the body has it, whatever its value. *)
Definition is_there (v : jsval) : bool := negb (is_undefined v).

(** The same precedence with "present" read as "there". *)
Definition message_when_there (err : jsval) : jsval :=
  let data := response_data err in
  if is_object (field data "errors") then first_field (field data "errors")
  else if is_there (field data "detail") then field data "detail"
  else if is_there (field data "message") then field data "message"
  else match data with
       | JStr _ => data
       | _ => JStr PerformanceMetrics.fallback_message
       end.

(** *** Master data *)

(** The server answers the dropdown request for [type] with a list that
    maps to [l]. *)
Definition answers (server : MasterDataContext.DropdownRequest → MasterDataContext.Settled)
    (type : string) (l : list MasterDataContext.Master) : Prop :=
  ∃ data, server (MasterDataContext.dropdown type) = MasterDataContext.Fulfilled data
          ∧ MasterDataContext.to_masters data = Some l.

(** The server rejects the dropdown request for [type]. *)
Definition fails (server : MasterDataContext.DropdownRequest → MasterDataContext.Settled)
    (type : string) : Prop :=
  ∃ err, server (MasterDataContext.dropdown type) = MasterDataContext.Failed err.

(** The requests among the effects of a run, in the order issued. *)
Definition requests_of (effects : list MasterDataContext.Effect)
  : list MasterDataContext.DropdownRequest :=
  omap (fun e => match e with MasterDataContext.Get r => Some r | _ => None end) effects.

(** The updates of the masters state among the effects of a run. *)
Definition commits_of (effects : list MasterDataContext.Effect)
  : list (gmap string (list MasterDataContext.Master)) :=
  omap (fun e => match e with MasterDataContext.SetMasters m => Some m | _ => None end) effects.

Definition four_requests : list MasterDataContext.DropdownRequest :=
  [ {| MasterDataContext.url := "masters/dropdown/";
       MasterDataContext.param_type := "ROLE";
       MasterDataContext.param_status := "Active" |};
    {| MasterDataContext.url := "masters/dropdown/";
       MasterDataContext.param_type := "DEPARTMENT";
       MasterDataContext.param_status := "Active" |};
    {| MasterDataContext.url := "masters/dropdown/";
       MasterDataContext.param_type := "PROJECT";
       MasterDataContext.param_status := "Active" |};
    {| MasterDataContext.url := "masters/dropdown/";
       MasterDataContext.param_type := "MEASUREMENT";
       MasterDataContext.param_status := "Active" |} ].

(** The four lists under their keys. *)
Definition four_lists (roles departments projects measurements : list MasterDataContext.Master)
  : gmap string (list MasterDataContext.Master) :=
  <["MEASUREMENT" := measurements]> (<["PROJECT" := projects]>
    (<["DEPARTMENT" := departments]> (<["ROLE" := roles]> ∅))).

(** How one item of a dropdown list is to be mapped. *)
Definition mapped_item (props : list (string * jsval)) : MasterDataContext.Master :=
  {| MasterDataContext.id := field (JObj props) "value";
     MasterDataContext.name := field (JObj props) "label";
     MasterDataContext.code :=
       if is_nullish (field (JObj props) "code") then JNull
       else field (JObj props) "code";
     MasterDataContext.status :=
       if is_nullish (field (JObj props) "status") then JStr "Active"
       else field (JObj props) "status" |}.

(** *** Roles *)

(** The role kept in local storage lowercases to [v]. *)
Definition role_lowercases_to (ls : Storage.t) (v : string) : Prop :=
  ∃ r : string, ls !! "role" = Some r ∧ toLowerCase r = v.

(** *** Table rows *)

(** The text of a cell, as the search sees it: the value of the column's
    key, nothing when the row has none. *)
Definition stringified (r : MasterModule.Row) (c : MasterModule.Column) : string :=
  match assoc (MasterModule.key c) r with
  | Some v => if is_nullish v then "" else ToString v
  | None => ""
  end.

(** A row matches a query when the text of some configured column contains
    it, letter case apart. *)
Definition row_matches (columns : list MasterModule.Column) (query : string)
    (r : MasterModule.Row) : Prop :=
  ∃ c, In c columns ∧ substring_of (toLowerCase query) (toLowerCase (stringified r c)).

End Notions.

(** * Further components *)

(** ** ECMAScript, continued *)

Module ES.
Import JS.

(** [a - b] *)
Definition sub (a b : jsnum) : jsnum := add a (neg_num b).

(** [a === b] on numbers: by value, NaN being equal to nothing. *)
Definition num_eq (a b : jsnum) : bool :=
  match a, b with
  | Fin x, Fin y => Qeq_bool (to_Q x) (to_Q y)
  | Inf s, Inf t => Bool.eqb s t
  | _, _ => false
  end.

(** [a === b] for values that come from different sources (two
    responses, a response and the stored state): primitives are compared
    by value; an array or an object is identical only to itself, so two
    of them from different sources never are. *)
Definition strict_eq (a b : jsval) : bool :=
  match a, b with
  | JUndefined, JUndefined | JNull, JNull => true
  | JBool x, JBool y => Bool.eqb x y
  | JNum x, JNum y => num_eq x y
  | JStr x, JStr y => bool_decide (x = y)
  | _, _ => false
  end.

(** [l.find(p)] for a predicate that may throw: [None] is the exception,
    [Some None] is undefined. *)
Fixpoint find {A} (p : A → option bool) (l : list A) : option (option A) :=
  match l with
  | [] => Some None
  | x :: r =>
      b ← p x;
      if b : bool then Some (Some x) else find p r
  end.

(** *** Sorting *)

(** [l.sort(compare)]. The sort is stable, so for a comparator that
    orders the elements consistently its result is determined, and
    insertion computes it: an element goes after those it compares
    greater than (a comparison that is NaN counts as 0). For a comparator
    that is not consistent ECMAScript leaves the order to the
    implementation. *)
Fixpoint insert_sorted {A} (after : A → A → bool) (x : A) (l : list A) : list A :=
  match l with
  | [] => [x]
  | y :: r => if after x y then y :: insert_sorted after x r else x :: l
  end.

Definition sort {A} (compare : A → A → jsnum) (l : list A) : list A :=
  fold_right (insert_sorted (fun a b => gtb (compare a b) (of_Z 0))) [] l.

(** *** Upper case *)

(** The result of [toUpperCase] can leave the range of the strings of
    the model (U+00FF becomes U+0178) and can be longer than its argument
    (U+00DF becomes SS), so it is kept as the list of its code units. *)
Abbreviation units := (list nat).

Definition units_of (s : string) : units := code <$> list_ascii_of_string s.

(** [String.prototype.toUpperCase] on one code unit below U+0100: a-z and
    the Latin-1 small letters move down by 32; the micro sign becomes the
    Greek capital mu, the sharp s becomes SS, y with diaeresis becomes
    U+0178; every other code unit stays. *)
Definition upper_units (c : ascii) : units :=
  let n := code c in
  if ((97 <=? n) && (n <=? 122))%nat then [n - 32]
  else if (n =? 181)%nat then [924]
  else if (n =? 223)%nat then [83; 83]
  else if (n =? 255)%nat then [376]
  else if ((224 <=? n) && (n <=? 254) && negb (n =? 247))%nat then [n - 32]
  else [n].

Definition toUpperCase (s : string) : units :=
  flat_map upper_units (list_ascii_of_string s).

(** [u.startsWith(q)] and [u.includes(q)] on code units. *)
Fixpoint starts_with (u q : units) {struct q} : bool :=
  match q, u with
  | [], _ => true
  | _ :: _, [] => false
  | a :: q', b :: u' => (a =? b)%nat && starts_with u' q'
  end.

Fixpoint contains (u q : units) : bool :=
  starts_with u q ||
  match u with
  | [] => false
  | _ :: u' => contains u' q
  end.

(** [/^[A-Za-z ]+$/.test(u)] *)
Definition is_name_unit (n : nat) : bool :=
  ((65 <=? n) && (n <=? 90) || (97 <=? n) && (n <=? 122) || (n =? 32))%nat.

Definition only_letters_and_spaces (u : units) : bool :=
  negb (bool_decide (u = [])) && forallb is_name_unit u.

(** [l.filter(p)] for a predicate that may throw. *)
Fixpoint filter_throwing {A} (p : A → option bool) (l : list A) : option (list A) :=
  match l with
  | [] => Some []
  | x :: r =>
      b ← p x;
      kept ← filter_throwing p r;
      Some (if b : bool then x :: kept else kept)
  end.

(** [Array.isArray(v)] *)
Definition isArray (v : jsval) : bool :=
  match v with JArr _ => true | _ => false end.

End ES.

(** ** The weekly-evaluation form, continued *)

Module EvaluationForm.
Import JS ES PerformanceMetrics.

(** [maxPossibleScore]: [measurements.length * 100] *)
Definition maxPossibleScore (env : Env) : jsnum :=
  mul (of_nat (length (measurements env))) (of_Z 100).

Definition setComments (st : State) (a : jsarray) : State :=
  {| employeeId := employeeId st; employeeName := employeeName st;
     evaluationId := evaluationId st; scores := scores st; comments := a;
     selectedWeek := selectedWeek st; validationModal := validationModal st |}.

(** [handleCancel] *)
Definition handleCancel (st : State) (env : Env) : State :=
  setComments (setScores st (blank (length (measurements env))))
              (blank (length (measurements env))).







(** [measurements]: the names of the active measurements of the masters,
    by ascending id:
    [(masters?.MEASUREMENT || []).filter(m => m.status === "Active")
       .sort((a, b) => a.id - b.id).map(m => m.name)]. *)
Definition active_sorted (masters : gmap string (list MasterDataContext.Master))
  : list MasterDataContext.Master :=
  sort (fun a b => sub (ToNumber (MasterDataContext.id a))
                       (ToNumber (MasterDataContext.id b)))
       (List.filter (fun m => is_str (MasterDataContext.status m) "Active")
                    (default [] (masters !! "MEASUREMENT"))).

Definition measurement_names (masters : gmap string (list MasterDataContext.Master))
  : list jsval :=
  MasterDataContext.name <$> active_sorted masters.

(** [isValidEmpId] *)
Definition isValidEmpId (value : string) : bool :=
  starts_with (toUpperCase value) (units_of "EMP").

(** [isValidName] *)
Definition isValidName (value : string) : bool :=
  only_letters_and_spaces (units_of (trim value)).

(** [isInvalidSearchInput] *)
Definition isInvalidSearchInput (value : string) : bool :=
  let v := trim value in
  if negb (truthy (JStr v)) then false
  else if starts_with (toUpperCase v) (units_of "EMP") then false
  else if negb (isValidName v) then true
  else false.

(** [resolveDepartment]: the name of the first department of the masters
    with the id or the name of [data]; [None] is the TypeError of reading
    a property of null. *)
Definition resolveDepartment (masters : gmap string (list MasterDataContext.Master))
    (data : jsval) : option jsval :=
  let data := if is_undefined data then JObj [] else data in
  match masters !! "DEPARTMENT" with
  | None => Some (JStr "")
  | Some l =>
      found ← find (fun d =>
                      department_id ← get data "department_id";
                      if strict_eq (MasterDataContext.id d) department_id
                      then Some true
                      else department_name ← get data "department_name";
                           Some (strict_eq (MasterDataContext.name d) department_name))
                   l;
      Some (or_else (match found with
                     | Some d => MasterDataContext.name d
                     | None => JUndefined
                     end) (JStr ""))
  end.

(** [metrics[key] ?? ""] *)
Definition metric_entry (metrics : jsval) (key : string) : jsval :=
  coalesce (get_prop metrics key) (JStr "").

(** The arrays [loadEmployeeEvaluation] builds from the metrics of an
    evaluation. *)
Definition loaded_scores (measurements : list string) (metrics : jsval) : jsarray :=
  (fun name => Some (metric_entry metrics (metric_key name))) <$> measurements.

Definition loaded_comments (measurements : list string) (metrics : jsval) : jsarray :=
  (fun name => Some (metric_entry metrics (metric_key name ++ "_comment")))
    <$> measurements.

(** What [loadEmployeeEvaluation] does, in program order. *)
Inductive FormEffect :=
| SetLoadingPage (b : bool)           (* setLoading(prev => ({...prev, page: b})) *)
| GetEvaluations (url : string)
| ConsoleError
| SetValidationModal (m : ValidationModal)
| SetScores (a : jsarray)
| SetComments (a : jsarray)
| SetEvaluationId (v : jsval)
| SetEmployeeData (d : jsval).

(** The evaluation a response carries: the first of its [results], the
    first of the list it is, or itself when it has an [id]. *)
Definition evaluation_of (data : jsval) : jsval :=
  if truthy data && truthy (opt_get data "results") && isArray (opt_get data "results")
  then get_prop (get_prop data "results") "0"
  else if isArray data then get_prop data "0"
  else if truthy data && truthy (opt_get data "id") then data
  else JNull.

(** The object passed to [setEmployeeData] for an evaluation. *)
Definition evaluation_employee (masters : gmap string (list MasterDataContext.Master))
    (evalData : jsval) : option jsval :=
  let employee := get_prop evalData "employee" in
  department ← resolveDepartment masters (or_else employee evalData);
  Some (JObj
    [("name", or_else (or_else (or_else (opt_get employee "full_name")
                                        (opt_get (opt_get employee "user") "full_name"))
                               (get_prop evalData "employee_name")) (JStr ""));
     ("department", department);
     ("manager", or_else (or_else (or_else (opt_get employee "manager_name")
                                           (get_prop evalData "manager_name"))
                                  (get_prop evalData "evaluator_name")) (JStr ""));
     ("designation", or_else (or_else (or_else (opt_get employee "designation")
                                               (opt_get employee "role_name"))
                                      (get_prop evalData "designation")) (JStr ""));
     ("rank", or_else (get_prop evalData "rank") (JStr "-"))]).

(** The [catch] block of [loadEmployeeEvaluation]. *)
Definition load_failed (measurements : list string) : list FormEffect :=
  [ConsoleError;
   SetValidationModal (warn "Failed to load evaluation data.");
   SetScores (blank (length measurements));
   SetComments (blank (length measurements))].

(** [loadEmployeeEvaluation]; [employee] and [mode] are those of
    [location.state], [server] tells how the request for a URL settles. *)
Definition loadEmployeeEvaluation
    (masters : gmap string (list MasterDataContext.Master))
    (employee mode : jsval) (selectedWeek : string) (measurements : list string)
    (server : string → MasterDataContext.Settled) : list FormEffect :=
  if negb (truthy employee) then []
  else if negb (is_str mode "edit") && negb (is_str mode "view") then []
  else if negb (truthy (JStr selectedWeek)) then []
  else
    let empId :=
      or_else (or_else (opt_get (get_prop employee "user") "emp_id")
                       (get_prop employee "emp_id"))
              (get_prop employee "employee_emp_id") in
    let w := parseWeek selectedWeek in
    SetLoadingPage true ::
    (if negb (truthy (year w)) || negb (truthy (week w)) then
       [ConsoleError; SetLoadingPage false]
     else
       let url := "/performance/evaluations/?employee_id=" ++ ToString empId
                  ++ "&week=" ++ ToString (week w)
                  ++ "&year=" ++ ToString (year w) in
       GetEvaluations url ::
       match server url with
       | MasterDataContext.Failed _ => load_failed measurements
       | MasterDataContext.Fulfilled data =>
           let evalData := evaluation_of data in
           if negb (truthy evalData) then
             [SetValidationModal
                (warn ("No evaluation found for this employee in Week "
                       ++ ToString (week w) ++ ", " ++ ToString (year w) ++ "."));
              SetScores (blank (length measurements));
              SetComments (blank (length measurements));
              SetLoadingPage false]
           else
             let metrics := or_else (get_prop evalData "metrics") (JObj []) in
             [SetEvaluationId (get_prop evalData "id");
              SetScores (loaded_scores measurements metrics);
              SetComments (loaded_comments measurements metrics)]
             ++ match evaluation_employee masters evalData with
                | Some d => [SetEmployeeData d]
                | None => load_failed measurements
                end
       end)
    ++ [SetLoadingPage false].

End EvaluationForm.

(** ** The master-data page, continued *)

Module MasterPages.
Import JS ES MasterModule.

(** *** AddNewModal *)

(** [form[key]] *)
Definition form_get (form : Form) (key : string) : jsval :=
  default JUndefined (form !! key).


(** *** GenericCRUDPage *)

Inductive PageRequest :=
| Patch (url : string) (body : Form)            (* MasterAPI.update *)
| Post (url : string) (body : Form)             (* MasterAPI.create *)
| Deactivate (url : string) (reason : string).  (* deactivateDepartment *)

(** What [saveItem] does before it awaits the server: an alert, or a
    request. *)
Inductive Saved :=
| Alerted (type message : string)
| Asked (r : PageRequest).

(** [saveItem] *)
Definition saveItem (masterType : string) (editItem : jsval) (data : Form) : Saved :=
  if bool_decide (masterType = "PROJECT")
     && negb (truthy (form_get data "department_id"))
  then Alerted "danger" "Department is required"
  else if truthy editItem
  then Asked (Patch ("/masters/" ++ ToString (get_prop editItem "id") ++ "/") data)
  else Asked (Post "/masters/"
                (<["status" := JStr "Active"]> data ∪ {["master_type" := JStr masterType]})).

(** The two targets of the status dialogs. *)
Record PageState := { deleteTarget : jsval; deptDeactivateTarget : jsval }.

Definition closed : PageState :=
  {| deleteTarget := JNull; deptDeactivateTarget := JNull |}.

(** [deleteItem]; [None] is the TypeError of [row.status] on null. *)
Definition deleteItem (masterType : string) (st : PageState) (row : jsval)
  : option PageState :=
  status ← get row "status";
  Some (if bool_decide (masterType = "DEPARTMENT") && is_str status "Active"
        then {| deleteTarget := deleteTarget st; deptDeactivateTarget := row |}
        else {| deleteTarget := row; deptDeactivateTarget := deptDeactivateTarget st |}).

(** [confirmDelete]: the request it sends, unless reading the target
    throws, and the state its [finally] block leaves. *)
Definition confirmDelete (st : PageState) : option PageRequest * PageState :=
  let newStatus :=
    if is_str (opt_get (deleteTarget st) "status") "Active"
    then "Inactive" else "Active" in
  (id ← get (deleteTarget st) "id";
   Some (Patch ("/masters/" ++ ToString id ++ "/") {["status" := JStr newStatus]}),
   {| deleteTarget := JNull; deptDeactivateTarget := deptDeactivateTarget st |}).

(** [confirmDepartmentDeactivation] *)
Definition confirmDepartmentDeactivation (st : PageState) (reason : string)
  : option PageRequest * PageState :=
  (id ← get (deptDeactivateTarget st) "id";
   Some (Deactivate ("/masters/" ++ ToString id ++ "/deactivate/") reason),
   {| deleteTarget := deleteTarget st; deptDeactivateTarget := JNull |}).

(** What can be clicked on the page: the status button of a row, and the
    buttons of the two dialogs. *)
Inductive PageEvent :=
| ClickStatus (row : jsval)              (* onDelete(row) *)
| CancelDelete
| ConfirmDelete
| CancelDeactivation
| ConfirmDeactivation (reason : string).

(** One click. A button that is not rendered is not clicked: the status
    buttons exist unless [disableStatus], [ConfirmDeleteModal] is rendered
    when [deleteTarget && !disableStatus], [DeactivateDepartmentModal] when
    [deptDeactivateTarget]. A handler that throws leaves the state. *)
Definition step (masterType : string) (disableStatus : bool) (st : PageState)
    (ev : PageEvent) : option PageRequest * PageState :=
  match ev with
  | ClickStatus row =>
      if disableStatus then (None, st)
      else (None, default st (deleteItem masterType st row))
  | CancelDelete =>
      if truthy (deleteTarget st) && negb disableStatus
      then (None, {| deleteTarget := JNull;
                     deptDeactivateTarget := deptDeactivateTarget st |})
      else (None, st)
  | ConfirmDelete =>
      if truthy (deleteTarget st) && negb disableStatus
      then confirmDelete st
      else (None, st)
  | CancelDeactivation =>
      if truthy (deptDeactivateTarget st)
      then (None, {| deleteTarget := deleteTarget st; deptDeactivateTarget := JNull |})
      else (None, st)
  | ConfirmDeactivation reason =>
      if truthy (deptDeactivateTarget st)
      then confirmDepartmentDeactivation st reason
      else (None, st)
  end.

(** The requests a sequence of clicks sends, and the state it leaves. *)
Fixpoint run (masterType : string) (disableStatus : bool) (st : PageState)
    (events : list PageEvent) : list PageRequest * PageState :=
  match events with
  | [] => ([], st)
  | ev :: events' =>
      let (r, st') := step masterType disableStatus st ev in
      let (rs, st'') := run masterType disableStatus st' events' in
      (match r with Some q => q :: rs | None => rs end, st'')
  end.

(** *** ProjectsPage *)

(** The argument [onDepartmentChange] passes to [setSelectedDepartment]:
    [deptId && !isNaN(deptId) ? Number(deptId) : null]. *)
Definition validDeptId (deptId : jsval) : jsval :=
  if truthy deptId && negb (is_nan (ToNumber deptId))
  then JNum (ToNumber deptId)
  else JNull.

(** The name of a manager in the options of the select:
    [m.full_name || `${m.user?.first_name || ""} ${m.user?.last_name || ""}`.trim()
     || "Unknown"]. *)
Definition manager_label (m : jsval) : jsval :=
  let user := get_prop m "user" in
  or_else
    (or_else (get_prop m "full_name")
             (JStr (trim (ToString (or_else (opt_get user "first_name") (JStr ""))
                          ++ " "
                          ++ ToString (or_else (opt_get user "last_name") (JStr ""))))))
    (JStr "Unknown").

(** The option made of a manager; [None] is the TypeError on null. *)
Definition manager_option (m : jsval) : option jsval :=
  id ← get m "id";
  Some (JObj [("id", id); ("name", manager_label m)]).

(** [array.map(f)] on a value that need not be an array. *)
Definition map_managers (managers : jsval) : option (list jsval) :=
  match managers with
  | JArr ms => mapM manager_option ms
  | _ => None
  end.

(** [filteredManagers], the memo of [ProjectsPage]; [None] is a
    TypeError. *)
Definition filteredManagers (masters : gmap string (list MasterDataContext.Master))
    (managers selectedDepartment : jsval) : option (list jsval) :=
  if negb (truthy selectedDepartment) then map_managers managers
  else
    let selectedDept :=
      masters !! "DEPARTMENT"
      ≫= List.find (fun d => strict_eq (MasterDataContext.id d) selectedDepartment) in
    let selectedDeptName :=
      match selectedDept with
      | Some d => MasterDataContext.name d
      | None => JUndefined
      end in
    if negb (truthy selectedDeptName) then Some []
    else
      match managers with
      | JArr ms =>
          kept ← filter_throwing
                   (fun m => department ← get m "department";
                             Some (strict_eq (opt_get department "name") selectedDeptName))
                   ms;
          mapM manager_option kept
      | _ => None
      end.

End MasterPages.

(** ** The application shell: App *)

Module App.
Import JS Routes.

(** What a guarded route renders. *)
Inductive Outlet :=
| Children
| Redirect (to : string).             (* <Navigate to=... replace /> *)

(** [localStorage.getItem("role")?.toLowerCase().trim()] *)
Definition stored_role (ls : Storage.t) : jsval :=
  match Storage.getItem ls "role" with
  | JStr r => JStr (trim (toLowerCase r))
  | _ => JUndefined
  end.

(** [allowedRoles.includes(role)] for an array of strings. *)
Definition includes_role (allowedRoles : list string) (role : jsval) : bool :=
  existsb (is_str role) allowedRoles.

Section Decoders.

Variable atob : string → option string.
Variable JSON_parse : string → option jsval.

(** [ProtectedRoute]: what it renders and the local storage it leaves;
    [allowedRoles] is [None] when the prop is not given. *)
Definition ProtectedRoute (allowedRoles : option (list string))
    (ls : Storage.t) (now : jsnum) : Outlet * Storage.t :=
  let tokenValid := AppContent.isTokenValid atob JSON_parse ls now in
  let role := stored_role ls in
  if negb tokenValid then (Redirect "/login", ls)
  else if negb (truthy role) then (Redirect "/login", Storage.clear ls)
  else if match allowedRoles with
          | Some l => negb (includes_role l role)
          | None => false
          end
       then (Redirect "/login", ls)
       else (Children, ls).

(** The element of the root route [/]. *)
Definition root_element (ls : Storage.t) (now : jsnum) : Element :=
  if AppContent.isTokenValid atob JSON_parse ls now
     && truthy (Storage.getItem ls "role")
  then Navigate "/dashboard"
  else Navigate "/login".

End Decoders.

End App.

(** ** The menus and the sidebar: _nav, AppSidebar *)

Module Nav.

(** An entry of a menu: a link, or a group of entries. *)
Inductive Entry :=
| Item (name to : string)
| Group (name : string) (items : list Entry).

Definition adminMenu : list Entry :=
  [Item "Dashboard" "/dashboard";
   Item "Employee Details" "/base/employeedetails";
   Item "Employee Performance" "/base/employeeperformance";
   Item "Employee Credentials" "/base/cards";
   Group "Reports"
     [Item "Weekly Reports" "/reports/weekly";
      Item "Monthly Reports" "/reports/monthly";
      Item "Department Reports" "/reports/department";
      Item "Manager Reports" "/reports/manager"];
   Item "Employee Lifecycle History" "/employee-lifecycle/history";
   Group "Master Modules"
     [Item "Roles" "/masters/roles";
      Item "Departments" "/masters/departments";
      Item "Measurements" "/masters/measurements";
      Item "Projects" "/masters/projects"]].

Definition employeeMenu : list Entry :=
  [Item "Employee Dashboard" "/base/collapses";
   Item "Employee Performance" "/base/carousels"].

Definition loginMenu : list Entry := [Item "Login" "/login"].

(** The targets of the links of a menu, groups opened. *)
Fixpoint links_of (e : Entry) : list string :=
  match e with
  | Item _ to => [to]
  | Group _ items => flat_map links_of items
  end.

Definition links (menu : list Entry) : list string := flat_map links_of menu.

End Nav.

Module AppSidebar.
Import JS Nav.

(** The role the sidebar keeps:
    [(localStorage.getItem("role") || "").toLowerCase()]. *)
Definition role (ls : Storage.t) : string :=
  match or_else (Storage.getItem ls "role") (JStr "") with
  | JStr r => toLowerCase r
  | _ => ""
  end.

(** [navigation], the memo of the menu by role. *)
Definition navigation (role : string) : list Entry :=
  if bool_decide (role = "admin") || bool_decide (role = "manager") then adminMenu
  else if bool_decide (role = "employee") then employeeMenu
  else loginMenu.

End AppSidebar.

(** ** The page behind /dashboard: Dashboard *)

Module Dashboard.
Import JS Routes.

(** Where the effect of [Dashboard] navigates. *)
Definition Dashboard (ls : Storage.t) : string :=
  let role := stored_role_lower ls in
  let token := Storage.getItem ls "access_token" in
  if negb (truthy token) || negb (truthy role) then "/login"
  else if is_str role "employee" then "/employee-dashboard"
  else "/admin-dashboard".

End Dashboard.

(** ** The employee search box of the evaluation form *)

Module EmployeeSearch.
Import JS ES PerformanceMetrics.

(** An entry of [filteredEmployees]: an eligible employee, or the object
    [{ type }] that stands for a message. *)
Inductive Shown :=
| Employee (emp : jsval)
| Notice (type : string).

(** [emp[key].toUpperCase()]; [None] is the TypeError of an employee that
    is null or undefined, or of a property that is no string. *)
Definition upper_of (emp : jsval) (key : string) : option units :=
  v ← get emp key;
  match v with
  | JStr s => Some (toUpperCase s)
  | _ => None
  end.

(** What typing does: the requests sent, and the list given to
    [setFilteredEmployees]; no list ([None]) when a TypeError ends the
    handler before it sets one. *)
Record Typed := {
  requested : list units;
  shown : option (list Shown);
}.

(** The URL of the request for one employee. *)
Definition employee_url (upper : units) : units :=
  (units_of "/employee/employees/" ++ upper ++ units_of "/")%list.

(** [onChange] of the search input, for the text of the input, the
    eligible employees and the way the request settles. *)
Definition search_onChange (eligibleEmployees : list jsval)
    (server : units → MasterDataContext.Settled) (text : string) : Typed :=
  let value := trim text in
  if negb (truthy (JStr value)) then {| requested := []; shown := Some [] |}
  else
    let upper := toUpperCase value in
    if starts_with upper (units_of "EMP") then
      match filter_throwing
              (fun emp => u ← upper_of emp "emp_id"; Some (starts_with u upper))
              eligibleEmployees with
      | None => {| requested := []; shown := None |}
      | Some filtered =>
          if (0 <? length filtered)%nat
          then {| requested := []; shown := Some (Employee <$> filtered) |}
          else
            {| requested := [employee_url upper];
               shown :=
                 Some [Notice match server (employee_url upper) with
                              | MasterDataContext.Fulfilled _ => "evaluated"
                              | MasterDataContext.Failed _ => "not_found"
                              end] |}
      end
    else if negb (only_letters_and_spaces upper)
    then {| requested := []; shown := Some [Notice "invalid"] |}
    else
      match filter_throwing
              (fun emp => u ← upper_of emp "full_name"; Some (contains u upper))
              eligibleEmployees with
      | None => {| requested := []; shown := None |}
      | Some filtered =>
          {| requested := [];
             shown := Some (if (0 <? length filtered)%nat
                            then Employee <$> filtered
                            else [Notice "no_match"]) |}
      end.

(** [onFocus] of the search input: the list given to
    [setFilteredEmployees], for the text [employeeId] of the state. *)
Definition search_onFocus (eligibleEmployees : list jsval) (employeeId : string)
  : option (list jsval) :=
  let value := toUpperCase (trim employeeId) in
  if bool_decide (value = []) then Some eligibleEmployees
  else if starts_with value (units_of "EMP") then
    filtered ← filter_throwing
                 (fun emp => u ← upper_of emp "emp_id"; Some (starts_with u value))
                 eligibleEmployees;
    Some (if (0 <? length filtered)%nat then filtered else eligibleEmployees)
  else
    filtered ← filter_throwing
                 (fun emp => u ← upper_of emp "full_name"; Some (contains u value))
                 eligibleEmployees;
    Some (if (0 <? length filtered)%nat then filtered else eligibleEmployees).

End EmployeeSearch.

(** ** The router of the master pages: MasterModule *)

Module MasterRouter.
Import JS Routes.

(** [MasterModule], for the [type] of the route [/masters/:type]. *)
Definition MasterModule (type : jsval) : Element :=
  if ES.strict_eq type (JStr "roles") then View "RolesPage"
  else if ES.strict_eq type (JStr "departments") then View "DepartmentsPage"
  else if ES.strict_eq type (JStr "projects") then View "ProjectsPage"
  else if ES.strict_eq type (JStr "measurements") then View "MeasurementsPage"
  else if ES.strict_eq type (JStr "employee-role-assignments")
  then View "EmployeeRoleAssignmentsPage"
  else Navigate "/404".

End MasterRouter.

(** ** The breadcrumb: AppBreadcrumb *)

Module AppBreadcrumb.
Import JS.



Section Table.

(** The table of routes the component imports: the path and the name of
    each route, undefined for a route without a name. *)
Variable routes : list (string * jsval).




End Table.

End AppBreadcrumb.

(** ** Further sample inputs *)

Module MoreSamples.
Import JS MasterDataContext.

(** A server whose department list holds a null item. *)
Definition null_department (req : DropdownRequest) : Settled :=
  if bool_decide (param_type req = "DEPARTMENT")
  then Fulfilled (JArr [JObj [("value", JNum (of_Z 3)); ("label", JStr "Design")]; JNull])
  else Fulfilled (JArr []).

(** A session whose token carries the payload with [exp] 2000000000 and
    nothing else; [exp_text] is the text of that payload. *)
Definition quote : string := String (ascii_of_nat 34) "".

Definition exp_text : string := "{" ++ quote ++ "exp" ++ quote ++ ":2000000000}".

Definition exp_session : Storage.t :=
  <["role" := " Manager "]> (<["access_token" := "h.eyJleHAiOjIwMDAwMDAwMDB9.s"]> ∅).

(** A manager whose token carries no expiry. *)
Definition manager_session : Storage.t :=
  <["role" := "Manager"]> (<["access_token" := "h.e30=.s"]> ∅).

(** Two employees still to be evaluated. *)
Definition two_eligible : list jsval :=
  [JObj [("emp_id", JStr "EMP0007"); ("full_name", JStr "Asha Rao")];
   JObj [("emp_id", JStr "EMP0012"); ("full_name", JStr "Ravi Kumar")]].

(** A server that knows no employee. *)
Definition no_employee (url : ES.units) : Settled := Failed JUndefined.

(** Decoders that know this one token. *)
Definition atob_exp (s : string) : option string :=
  if bool_decide (s = "eyJleHAiOjIwMDAwMDAwMDB9") then Some exp_text else None.

Definition JSON_parse_exp (s : string) : option jsval :=
  if bool_decide (s = exp_text) then Some (JObj [("exp", JNum (of_Z 2000000000))])
  else None.

(** Managers as the employee list returns them, and the masters with two
    departments. *)
Definition two_managers : jsval :=
  JArr [JObj [("id", JNum (of_Z 7)); ("full_name", JStr "Ravi Kumar");
              ("department", JObj [("name", JStr "Design")])];
        JObj [("id", JNum (of_Z 9));
              ("user", JObj [("first_name", JStr "Meera"); ("last_name", JStr "Nair")]);
              ("department", JObj [("name", JStr "Sales")])]].

Definition two_departments : gmap string (list Master) :=
  <["DEPARTMENT" :=
      [ {| id := JNum (of_Z 3); name := JStr "Design"; code := JNull;
           status := JStr "Active" |};
        {| id := JNum (of_Z 4); name := JStr "Sales"; code := JNull;
           status := JStr "Active" |} ]]> ∅.

(** Masters whose measurements the server lists out of order, one of
    them inactive. *)
Definition listed_measurements : gmap string (list Master) :=
  <["MEASUREMENT" :=
      [ {| id := JNum (of_Z 3); name := JStr "Delivery"; code := JNull;
           status := JStr "Active" |};
        {| id := JNum (of_Z 1); name := JStr "Quality"; code := JNull;
           status := JStr "Active" |};
        {| id := JNum (of_Z 4); name := JStr "Punctuality"; code := JNull;
           status := JStr "Inactive" |};
        {| id := JNum (of_Z 2); name := JStr "Teamwork"; code := JNull;
           status := JStr "Active" |} ]]> ∅.

(** An active row of the table. *)
Definition design_row : jsval :=
  JObj [("id", JNum (of_Z 3)); ("name", JStr "Design"); ("status", JStr "Active")].

(** A department that was deactivated before. *)
Definition closed_row : jsval :=
  JObj [("id", JNum (of_Z 5)); ("name", JStr "Legacy"); ("status", JStr "Inactive")].

(** The employee record the performance list passes to the form. *)
Definition clicked_employee : jsval :=
  JObj [("emp_id", JStr "EMP001"); ("full_name", JStr "Asha Rao");
        ("department_name", JStr "Design")].

(** A server whose evaluations are down, and one that finds none. *)
Definition evaluations_down (url : string) : Settled :=
  Failed (JObj [("message", JStr "Network Error")]).

Definition no_evaluation (url : string) : Settled :=
  Fulfilled (JObj [("count", JNum (of_Z 0)); ("results", JArr [])]).

End MoreSamples.

(** ** Notions the further statements are written with *)

Module Terms.
Import JS.

(** *** Metric keys *)

(** Lower-case letters and digits in groups joined by single underscores:
    nothing else occurs, no underscore stands first or last, no two stand
    together. *)
Definition key_shaped (s : string) : Prop :=
  (∀ c, In c (list_ascii_of_string s) →
        PerformanceMetrics.is_key_char c = true ∨ c = "_"%char)
  ∧ (∀ r, s ≠ String "_" r)
  ∧ (∀ r, s ≠ r ++ "_")
  ∧ ¬ Notions.substring_of "__" s.

(** The same, as a test that reads the string once; [after_underscore]
    tells whether the code unit before was an underscore, or the string
    starts here and may not start with one. *)
Fixpoint single_runs (after_underscore : bool) (s : string) : bool :=
  match s with
  | EmptyString => true
  | String c s' =>
      if PerformanceMetrics.is_key_char c then single_runs false s'
      else Ascii.eqb c "_" && negb after_underscore && single_runs true s'
  end.

(** *** Numbers *)

(** A number from 0 on in normal form. *)
Definition normal (d : dec) : Prop :=
  (dmant d = 0 ∧ dexp d = 0)%Z ∨ (0 < dmant d ∧ dmant d mod 10 ≠ 0)%Z.

(** *** Master data *)

(** The list a dropdown response carries: the body when it is a list, its
    [results] when they are one; no item otherwise. *)
Definition listed (data : jsval) : list jsval :=
  match data with
  | JArr items => items
  | JObj props =>
      match assoc "results" props with
      | Some (JArr items) => items
      | _ => []
      end
  | _ => []
  end.

(** *** Sessions *)

(** The payload segment of a token: what stands between its first and
    its second dot; nothing when it has no dot. *)
Definition payload_segment (token : string) : string :=
  match split token "." with
  | _ :: s :: _ => s
  | _ => ""
  end.

(** An [exp] claim, in seconds, lies after the instant [t], in
    milliseconds. *)
Definition expires_after (exp : jsnum) (t : dec) : Prop :=
  match exp with
  | Fin x => (to_Q t < to_Q x * 1000)%Q
  | Inf false => True
  | _ => False
  end.

(** The stored role reads [role] once lower-cased and trimmed. *)
Definition role_reads (ls : Storage.t) (role : string) : Prop :=
  ∃ r : string, ls !! "role" = Some r ∧ trim (toLowerCase r) = role.

(** *** Measurements *)

(** The active measurements of the masters, as the server listed them. *)
Definition active_listed (masters : gmap string (list MasterDataContext.Master))
  : list MasterDataContext.Master :=
  List.filter (fun m => is_str (MasterDataContext.status m) "Active")
              (default [] (masters !! "MEASUREMENT")).

(** The id of a measurement, as a number. *)
Definition id_number (m : MasterDataContext.Master) : jsnum :=
  ToNumber (MasterDataContext.id m).

(** The id of [a] is not greater than the id of [b]. *)
Definition id_le (a b : MasterDataContext.Master) : Prop :=
  ltb (id_number b) (id_number a) = false.

(** *** Search texts *)

(** A text starts with the letters E, M, P, in either case. *)
Definition emp_prefixed (v : string) : Prop :=
  ∃ a b c rest,
    v = String a (String b (String c rest))
    ∧ (a = "e" ∨ a = "E")%char ∧ (b = "m" ∨ b = "M")%char ∧ (c = "p" ∨ c = "P")%char.

(** An unaccented letter, or a space. *)
Definition letter_or_space (c : ascii) : Prop :=
  (65 ≤ code c ≤ 90 ∨ 97 ≤ code c ≤ 122 ∨ code c = 32)%nat.

(** No white space first or last. *)
Definition trimmed (s : string) : Prop :=
  (∀ c r, s = String c r → is_ws c = false)
  ∧ (∀ c r, s = r ++ String c "" → is_ws c = false).

(** *** The search box *)

(** The employee has a string at [key] whose upper case passes [test]
    against the upper case of the trimmed text. *)
Definition matches (test : ES.units → ES.units → bool) (key text : string)
    (emp : jsval) : Prop :=
  ∃ s, get emp key = Some (JStr s)
       ∧ test (ES.toUpperCase s) (ES.toUpperCase (trim text)) = true.

(** The employee is one the text asks for: by the start of the id for a
    text that starts with EMP, by a part of the name for another. *)
Definition asked_for (text : string) (emp : jsval) : Prop :=
  (emp_prefixed (trim text) ∧ matches ES.starts_with "emp_id" text emp)
  ∨ (¬ emp_prefixed (trim text) ∧ matches ES.contains "full_name" text emp).



(** *** Rows of the form *)

(** An array of the form has one entry for each of [n] rows, and no
    hole. *)
Definition one_per_row (a : jsarray) (n : nat) : Prop :=
  length a = n ∧ Forall is_Some a.

(** A response body carries exactly the entries of a metrics object. *)
Definition echoes (props : list (string * jsval)) (m : gmap string jsval) : Prop :=
  ∀ k, assoc k props = m !! k.

(** The keys the metrics of a list of measurements are stored under: one
    for the score and one for the comment of each. *)
Definition metric_keys (names : list string) : list string :=
  (PerformanceMetrics.metric_key <$> names)
  ++ ((fun name => PerformanceMetrics.metric_key name ++ "_comment") <$> names).

(** *** Managers *)

(** A manager record belongs to a department of the masters: the name of
    its department is the name of that one. *)
Definition belongs_to (m : jsval) (d : MasterDataContext.Master) : Prop :=
  ES.strict_eq (opt_get (get_prop m "department") "name") (MasterDataContext.name d)
  = true.

(** The requests among the effects of [loadEmployeeEvaluation]. *)
Definition evaluation_requests (effects : list EvaluationForm.FormEffect) : list string :=
  omap (fun e => match e with EvaluationForm.GetEvaluations u => Some u | _ => None end)
       effects.

(** The modals among them. *)
Definition modals_shown (effects : list EvaluationForm.FormEffect)
  : list PerformanceMetrics.ValidationModal :=
  omap (fun e => match e with EvaluationForm.SetValidationModal m => Some m | _ => None end)
       effects.

End Terms.

(** * Facts about the model of ECMAScript *)

(** ** Comparisons *)

Module NumberFacts.
Import JS.

Lemma Qlt_bool_iff x y : Qlt_bool x y = true ↔ (x < y)%Q.
Proof.
  unfold Qlt_bool. rewrite negb_true_iff, <- not_true_iff_false, Qle_bool_iff.
  split; [apply Qnot_le_lt | apply Qlt_not_le].
Qed.

Lemma Qlt_bool_false x y : Qlt_bool x y = false ↔ (y <= x)%Q.
Proof. unfold Qlt_bool. rewrite negb_false_iff. apply Qle_bool_iff. Qed.

Lemma to_Q_0 : to_Q (norm 0 0) = 0%Q.
Proof. reflexivity. Qed.

Lemma to_Q_100 : to_Q (norm 100 0) = 100%Q.
Proof. reflexivity. Qed.

Lemma below_zero n : ltb n (of_Z 0) = true ↔ Notions.negative n.
Proof.
  destruct n as [|[]|d]; try (cbn; intuition congruence).
  change (Qlt_bool (to_Q d) 0 = true ↔ (to_Q d < 0)%Q). apply Qlt_bool_iff.
Qed.

Lemma over_hundred n : gtb n (of_Z 100) = true ↔ Notions.above_100 n.
Proof.
  destruct n as [|[]|d]; try (cbn; intuition congruence).
  change (Qlt_bool 100 (to_Q d) = true ↔ (100 < to_Q d)%Q). apply Qlt_bool_iff.
Qed.

(** The three tests of the form single out the numbers from 0 to 100. *)
Lemma in_range_tests n :
  is_nan n = false ∧ ltb n (of_Z 0) = false ∧ gtb n (of_Z 100) = false
  ↔ Notions.between_0_100 n.
Proof.
  destruct n as [|[]|d]; try (cbn; intuition congruence).
  change (false = false ∧ Qlt_bool (to_Q d) 0 = false ∧ Qlt_bool 100 (to_Q d) = false
          ↔ (0 <= to_Q d)%Q ∧ (to_Q d <= 100)%Q).
  rewrite !Qlt_bool_false. tauto.
Qed.

Lemma zero_in_range : Notions.between_0_100 (of_Z 0).
Proof. vm_compute. split; intro; discriminate. Qed.

Lemma trichotomy n :
  Notions.between_0_100 n ∨ n = NaN ∨ Notions.negative n ∨ Notions.above_100 n.
Proof.
  destruct n as [|[]|d]; cbn; auto.
  destruct (Qlt_le_dec (to_Q d) 0); auto.
  destruct (Qlt_le_dec 100 (to_Q d)); auto.
Qed.

Lemma range_excludes n :
  Notions.between_0_100 n →
  ¬ (n = NaN ∨ Notions.negative n ∨ Notions.above_100 n).
Proof.
  destruct n as [|[]|d]; cbn; try tauto.
  intros [H0 H1] [?|[H|H]]; [congruence | |].
  - apply (Qlt_not_le _ _ H), H0.
  - apply (Qlt_not_le _ _ H), H1.
Qed.

End NumberFacts.

(** ** Exact arithmetic *)

Module ArithFacts.
Import JS Notions.

#[local] Open Scope Z_scope.

(** Every finite number over a common power of ten. *)
Lemma to_Q_scaled d k :
  k <= dexp d → k <= 0 →
  (to_Q d == Qmake (dmant d * 10 ^ (dexp d - k)) (Z.to_pos (10 ^ (- k))))%Q.
Proof.
  intros Hk H0. destruct d as [m e]. cbn [dmant dexp] in *.
  assert (0 < 10 ^ (- k)) as Hp by (apply Z.pow_pos_nonneg; lia).
  unfold to_Q. cbn [dmant dexp].
  destruct (Z.leb_spec 0 e) as [He|He]; unfold Qeq; cbn [Qnum Qden inject_Z].
  - rewrite Z2Pos.id by done.
    replace (e - k) with (e + - k) by lia. rewrite Z.pow_add_r by lia. lia.
  - assert (0 < 10 ^ (- e)) as Hp' by (apply Z.pow_pos_nonneg; lia).
    rewrite !Z2Pos.id by done.
    replace (- k) with ((e - k) + - e) at 1 by lia.
    rewrite Z.pow_add_r by lia. lia.
Qed.

Lemma to_Q_shift m e j :
  0 <= j → (to_Q (Dec (m * 10 ^ j) e) == to_Q (Dec m (e + j)))%Q.
Proof.
  intros Hj.
  set (k := Z.min e 0).
  rewrite (to_Q_scaled (Dec (m * 10 ^ j) e) k), (to_Q_scaled (Dec m (e + j)) k)
    by (cbn; lia).
  cbn [dmant dexp]. unfold Qeq. cbn [Qnum Qden]. f_equal.
  replace (e + j - k) with (j + (e - k)) by lia.
  rewrite Z.pow_add_r by lia. lia.
Qed.

Lemma to_Q_strip10 fuel m e : (to_Q (strip10 fuel m e) == to_Q (Dec m e))%Q.
Proof.
  revert m e. induction fuel as [|f IH]; intros m e; cbn [strip10]; [reflexivity|].
  destruct (Z.eqb_spec (m mod 10) 0) as [H0|H0]; [|reflexivity].
  rewrite IH.
  assert (m = (m / 10) * 10 ^ 1) as Hm.
  { rewrite Z.pow_1_r. pose proof (Z.div_mod m 10 ltac:(lia)). lia. }
  rewrite Hm at 2. symmetry. apply to_Q_shift. lia.
Qed.

Lemma to_Q_norm m e : (to_Q (norm m e) == to_Q (Dec m e))%Q.
Proof.
  unfold norm. destruct (Z.eqb_spec m 0) as [->|Hm]; [|apply to_Q_strip10].
  unfold to_Q. cbn [dmant dexp]. destruct (0 <=? e); reflexivity.
Qed.

(** Addition is exact. *)
Lemma to_Q_add x y s :
  add (Fin x) (Fin y) = Fin s → (to_Q s == to_Q x + to_Q y)%Q.
Proof.
  intros [= <-]. rewrite to_Q_norm.
  set (k := Z.min (dexp x) (dexp y)).
  set (c := Z.min k 0).
  rewrite (to_Q_scaled _ c), (to_Q_scaled x c), (to_Q_scaled y c) by (cbn; lia).
  cbn [dmant dexp].
  assert (0 < 10 ^ (- c)) as Hp by (apply Z.pow_pos_nonneg; lia).
  unfold Qeq, Qplus. cbn [Qnum Qden].
  rewrite Pos2Z.inj_mul, !Z2Pos.id by done.
  replace (dexp x - c) with ((dexp x - k) + (k - c)) by lia.
  replace (dexp y - c) with ((dexp y - k) + (k - c)) by lia.
  rewrite !Z.pow_add_r by lia. ring.
Qed.

(** Multiplication is exact. *)
Lemma to_Q_mul x y p :
  mul (Fin x) (Fin y) = Fin p → (to_Q p == to_Q x * to_Q y)%Q.
Proof.
  intros [= <-]. rewrite ArithFacts.to_Q_norm.
  set (kx := Z.min (dexp x) 0). set (ky := Z.min (dexp y) 0).
  rewrite (ArithFacts.to_Q_scaled x kx), (ArithFacts.to_Q_scaled y ky),
    (ArithFacts.to_Q_scaled (Dec _ _) (kx + ky)) by (cbn; lia).
  cbn [dmant dexp].
  assert (0 < 10 ^ (- kx)) as Hx by (apply Z.pow_pos_nonneg; lia).
  assert (0 < 10 ^ (- ky)) as Hy by (apply Z.pow_pos_nonneg; lia).
  assert (0 < 10 ^ (- (kx + ky))) as Hxy by (apply Z.pow_pos_nonneg; lia).
  unfold Qeq, Qmult. cbn [Qnum Qden].
  rewrite Pos2Z.inj_mul, !Z2Pos.id by done.
  replace (dexp x + dexp y - (kx + ky)) with ((dexp x - kx) + (dexp y - ky)) by lia.
  replace (- (kx + ky)) with (- kx + - ky) by lia.
  rewrite !Z.pow_add_r by lia. ring.
Qed.

Lemma to_Q_1000 : to_Q (norm 1000 0) = 1000%Q.
Proof. reflexivity. Qed.

End ArithFacts.

(** ** Strings *)

Module StringFacts.
Import JS Notions.

#[local] Arguments String.append !_ _ / : simpl nomatch.

Lemma append_assoc (a b c : string) : (a ++ b) ++ c = a ++ (b ++ c).
Proof. induction a as [|x a IH]; cbn; [done | by rewrite IH]. Qed.

Lemma append_empty_r (a : string) : a ++ "" = a.
Proof. induction a as [|x a IH]; cbn; [done | by rewrite IH]. Qed.

Lemma startsWith_spec s q : startsWith s q = true ↔ ∃ post, s = q ++ post.
Proof.
  revert s. induction q as [|c q IH]; intros s.
  - split; [by exists s | by destruct s].
  - destruct s as [|c' s]; cbn.
    + split; [done | intros [? ?]; done].
    + destruct (Ascii.eqb_spec c c') as [->|Hne]; cbn.
      * rewrite IH. split; intros [post H]; exists post; congruence.
      * split; [done | intros [post H]; congruence].
Qed.

Lemma includes_spec s q : includes s q = true ↔ substring_of q s.
Proof.
  unfold substring_of. induction s as [|c s IH]; cbn [includes].
  - rewrite orb_false_r, startsWith_spec. split.
    + intros [post H]. by exists "", post.
    + intros (pre & post & H). destruct pre; [|done]. cbn in H. eauto.
  - rewrite orb_true_iff, IH, startsWith_spec. split.
    + intros [[post H] | (pre & post & H)].
      * by exists "", post.
      * exists (String c pre), post. cbn. by rewrite H.
    + intros (pre & post & H). destruct pre as [|c' pre]; cbn in H.
      * left. eauto.
      * right. exists pre, post. congruence.
Qed.

Lemma rev_string_app acc s : rev_string acc s = rev_string "" s ++ acc.
Proof.
  revert acc. induction s as [|c s IH]; intros acc; cbn; [done|].
  rewrite (IH (String c acc)), (IH (String c "")).
  rewrite append_assoc. done.
Qed.

Lemma rev_string_push cur s :
  rev_string "" (rev_string cur s) = rev_string "" cur ++ s.
Proof.
  revert cur. induction s as [|c s IH]; intros cur; cbn.
  - by rewrite append_empty_r.
  - rewrite IH. cbn. rewrite (rev_string_app (String c "") cur).
    rewrite append_assoc. done.
Qed.

Lemma dashless_cons c s :
  dashless (String c s) = true ↔ c ≠ "-"%char ∧ dashless s = true.
Proof.
  cbn [dashless]. rewrite andb_true_iff, negb_true_iff, Ascii.eqb_neq. done.
Qed.

Lemma split_from_other c s cur :
  c ≠ "-"%char →
  split_from "-W" 0 cur (String c s) = split_from "-W" 0 (String c cur) s.
Proof.
  intros Hc. cbn [split_from startsWith].
  by rewrite (proj2 (Ascii.eqb_neq "-" c)) by congruence.
Qed.

Lemma split_dashless s cur :
  dashless s = true → split_from "-W" 0 cur s = [rev_string "" cur ++ s].
Proof.
  revert cur. induction s as [|c s IH]; intros cur H.
  - cbn. by rewrite append_empty_r.
  - apply dashless_cons in H as [Hc Hs].
    rewrite (split_from_other c s cur Hc), (IH _ Hs). cbn.
    rewrite (rev_string_app (String c "") cur). by rewrite append_assoc.
Qed.

Lemma split_at_separator d p cur :
  dashless d = true → dashless p = true →
  split_from "-W" 0 cur (d ++ "-W" ++ p) = [rev_string "" cur ++ d; p].
Proof.
  revert cur. induction d as [|c d IH]; intros cur Hd Hp.
  - cbn. rewrite append_empty_r. f_equal. rewrite (split_dashless p "" Hp). reflexivity.
  - apply dashless_cons in Hd as [Hc Hd].
    change (String c d ++ "-W" ++ p) with (String c (d ++ "-W" ++ p)).
    rewrite (split_from_other c _ cur Hc), (IH _ Hd Hp). cbn.
    rewrite (rev_string_app (String c "") cur). by rewrite append_assoc.
Qed.

End StringFacts.

(** ** Digits *)

Module DigitFacts.
Import JS Notions.

(** *** Normal forms *)

Lemma norm_stable m e : m ≠ 0%Z → (m mod 10 ≠ 0)%Z → norm m e = Dec m e.
Proof.
  intros Hm Hd. unfold norm.
  rewrite (proj2 (Z.eqb_neq m 0) Hm). cbn [strip10].
  by rewrite (proj2 (Z.eqb_neq _ 0) Hd).
Qed.

Lemma strip10_spec fuel m e :
  (0 < m < 2 ^ Z.of_nat fuel)%Z →
  let d := strip10 fuel m e in
  (0 < dmant d ∧ dmant d mod 10 ≠ 0 ∧ e <= dexp d
   ∧ dmant d * 10 ^ (dexp d - e) = m)%Z.
Proof.
  revert m e. induction fuel as [|f IH]; intros m e Hm.
  - cbn in Hm. lia.
  - cbn [strip10]. destruct (Z.eqb_spec (m mod 10) 0) as [H0|H0].
    + assert (m = 10 * (m / 10))%Z as Hdiv by (apply Z.div_exact; lia).
      assert (0 < m / 10 < 2 ^ Z.of_nat f)%Z as Hq.
      { rewrite Nat2Z.inj_succ, Z.pow_succ_r in Hm by lia. lia. }
      specialize (IH (m / 10)%Z (e + 1)%Z Hq). cbn zeta in IH.
      destruct IH as (Hp & Hn & He & Hv). repeat split; [done | done | lia |].
      replace (dexp (strip10 f (m / 10) (e + 1)) - e)%Z
        with (Z.succ (dexp (strip10 f (m / 10) (e + 1)) - (e + 1)))%Z by lia.
      rewrite Z.pow_succ_r by lia. lia.
    + cbn. repeat split; [lia | done | lia |].
      rewrite Z.sub_diag. cbn. lia.
Qed.

Lemma norm_positive m e :
  (0 < m)%Z →
  let d := norm m e in
  (0 < dmant d ∧ dmant d mod 10 ≠ 0 ∧ e <= dexp d
   ∧ dmant d * 10 ^ (dexp d - e) = m)%Z.
Proof.
  intros Hm. unfold norm. rewrite (proj2 (Z.eqb_neq m 0)) by lia.
  apply strip10_spec. split; [done|].
  rewrite Nat2Z.inj_succ, Z2Nat.id by apply Z.log2_nonneg.
  rewrite Z.abs_eq by lia. apply Z.log2_spec. done.
Qed.

(** *** Decimal digits *)

Lemma digit_cases (k : N) :
  (k < 10)%N →
  k = 0%N ∨ k = 1%N ∨ k = 2%N ∨ k = 3%N ∨ k = 4%N ∨ k = 5%N ∨ k = 6%N
  ∨ k = 7%N ∨ k = 8%N ∨ k = 9%N.
Proof. lia. Qed.

Lemma digit_char_val k : (k < 10)%N → digit_val (digit_char k) = Z.of_N k.
Proof. intros H. destruct (digit_cases k H) as [->|[->|[->|[->|[->|[->|[->|[->|[->| ->]]]]]]]]]; reflexivity. Qed.

Lemma digit_char_is_digit k : (k < 10)%N → is_digit (digit_char k) = true.
Proof. intros H. destruct (digit_cases k H) as [->|[->|[->|[->|[->|[->|[->|[->|[->| ->]]]]]]]]]; reflexivity. Qed.

Lemma digit_char_nonzero k : (0 < k < 10)%N → digit_char k ≠ "0"%char.
Proof.
  intros [H0 H]. destruct (digit_cases k H) as [->|[->|[->|[->|[->|[->|[->|[->|[->| ->]]]]]]]]];
    [lia | discriminate ..].
Qed.

Lemma digits_val_snoc ds c :
  digits_val (ds ++ [c]) = (10 * digits_val ds + digit_val c)%Z.
Proof. unfold digits_val. by rewrite fold_left_app. Qed.

Lemma digits_val_zeros ds n :
  digits_val (ds ++ repeat "0"%char n) = (digits_val ds * 10 ^ Z.of_nat n)%Z.
Proof.
  revert ds. induction n as [|n IH]; intros ds.
  - cbn. rewrite app_nil_r. lia.
  - cbn [repeat]. rewrite (cons_middle "0"%char), app_assoc, IH, digits_val_snoc.
    rewrite Nat2Z.inj_succ, Z.pow_succ_r by lia.
    change (digit_val "0") with 0%Z. lia.
Qed.

Lemma digits_fuel_S f n acc :
  digits_fuel (S f) n acc
  = if (n / 10 =? 0)%N then digit_char (n mod 10) :: acc
    else digits_fuel f (n / 10)%N (digit_char (n mod 10) :: acc).
Proof. reflexivity. Qed.

(** The digits of [n]: what [digits_fuel] puts in front of [acc]. *)
Lemma digits_fuel_spec f n (acc : list ascii) :
  (n < 2 ^ N.of_nat (S f))%N →
  ∃ ds : list ascii,
    digits_fuel (S f) n acc = (ds ++ acc)%list
    ∧ ds ≠ [] ∧ forallb is_digit ds = true
    ∧ digits_val ds = Z.of_N n
    ∧ ((0 < n)%N → head ds ≠ Some "0"%char).
Proof.
  revert n acc. induction f as [|f IH]; intros n acc Hn.
  - assert (n / 10 = 0)%N as Hq by (apply N.div_small; cbn in Hn; lia).
    assert (n mod 10 = n)%N as Hr by (apply N.mod_small; cbn in Hn; lia).
    rewrite digits_fuel_S, Hq, Hr. cbn [N.eqb].
    exists [digit_char n]. cbn in Hn.
    repeat split; [done | | | ].
    + cbn. rewrite digit_char_is_digit by lia. done.
    + unfold digits_val. cbn. rewrite digit_char_val by lia. lia.
    + intros H0 [= E]. apply (digit_char_nonzero n); [lia | done].
  - rewrite digits_fuel_S.
    pose proof (N.mod_lt n 10 ltac:(lia)) as Hd.
    pose proof (N.div_mod n 10 ltac:(lia)) as Hdm.
    destruct (N.eqb_spec (n / 10) 0) as [Hq|Hq].
    + exists [digit_char (n mod 10)].
      repeat split; [done | | | ].
      * cbn. rewrite digit_char_is_digit by lia. done.
      * unfold digits_val. cbn. rewrite digit_char_val by lia.
        revert Hdm Hq. generalize (n / 10)%N (n mod 10)%N. lia.
      * intros H0 [= E]. apply (digit_char_nonzero (n mod 10)); [lia | done].
    + assert (n / 10 < 2 ^ N.of_nat (S f))%N as Hlt.
      { rewrite (Nat2N.inj_succ (S f)), N.pow_succ_r' in Hn.
        revert Hn Hdm Hd.
        generalize (n / 10)%N (n mod 10)%N (2 ^ N.of_nat (S f))%N. lia. }
      destruct (IH (n / 10)%N (digit_char (n mod 10) :: acc) Hlt)
        as (ds & E & Hne & Hall & Hval & Hhd).
      exists (ds ++ [digit_char (n mod 10)])%list.
      repeat split.
      * rewrite E, <- app_assoc. done.
      * destruct ds; done.
      * rewrite forallb_app, Hall. cbn. rewrite digit_char_is_digit by lia. done.
      * rewrite digits_val_snoc, Hval, digit_char_val by lia.
        revert Hdm. generalize (n / 10)%N (n mod 10)%N. lia.
      * intros _. destruct ds as [|c ds]; [done|]. cbn. apply Hhd. lia.
Qed.

Lemma digits_of_N_spec n :
  let ds := digits_of_N n in
  ds ≠ [] ∧ forallb is_digit ds = true ∧ digits_val ds = Z.of_N n
  ∧ ((0 < n)%N → head ds ≠ Some "0"%char).
Proof.
  unfold digits_of_N.
  destruct (digits_fuel_spec (N.to_nat (N.log2 n)) n []) as (ds & E & H).
  - rewrite Nat2N.inj_succ, N2Nat.id.
    destruct (N.eq_dec n 0%N) as [->|Hn]; [done|].
    apply N.log2_spec. lia.
  - cbn zeta. rewrite E, app_nil_r. done.
Qed.

End DigitFacts.

(** ** Numeric literals *)

Module LiteralFacts.
Import JS Notions StringFacts DigitFacts.

#[local] Open Scope list_scope.

Lemma digit_not_ws c : is_digit c = true → is_ws c = false.
Proof. destruct c as [[] [] [] [] [] [] [] []]; cbn; done. Qed.

Lemma digit_not_dash c : is_digit c = true → c ≠ "-"%char.
Proof. intros H ->. done. Qed.

Lemma span_digits_stop (r : list ascii) :
  match r with [] => True | c :: _ => is_digit c = false end →
  span_digits r = ([], r).
Proof. destruct r as [|c r]; cbn; [done|]. by intros ->. Qed.

Lemma span_digits_app (ds r : list ascii) :
  forallb is_digit ds = true →
  span_digits r = ([], r) →
  span_digits (ds ++ r) = (ds, r).
Proof.
  intros Hds Hr. induction ds as [|c ds IH]; cbn; [done|].
  cbn in Hds. apply andb_true_iff in Hds as [-> Hds]. by rewrite (IH Hds).
Qed.

Lemma span_digits_all (ds : list ascii) :
  forallb is_digit ds = true → span_digits ds = (ds, []).
Proof.
  intros H. rewrite <- (app_nil_r ds) at 1. by apply span_digits_app.
Qed.

Lemma trim_start_id c (l : list ascii) :
  is_ws c = false → trim_start (c :: l) = c :: l.
Proof. cbn. by intros ->. Qed.

Lemma trim_list_id c (l : list ascii) c' :
  is_ws c = false → is_ws c' = false →
  trim_list (c :: l ++ [c']) = c :: l ++ [c'].
Proof.
  intros Hc Hc'. unfold trim_list. rewrite (trim_start_id c _ Hc).
  change (c :: l ++ [c']) with ((c :: l) ++ [c']).
  rewrite rev_unit, (trim_start_id c' _ Hc').
  change (c' :: rev (c :: l)) with ([c'] ++ rev (c :: l)).
  by rewrite rev_app_distr, rev_involutive.
Qed.

Lemma trim_list_single c : is_digit c = true → trim_list [c] = [c].
Proof.
  intros H. unfold trim_list. cbn. rewrite (digit_not_ws c H). cbn.
  by rewrite (digit_not_ws c H).
Qed.

Lemma not_Infinity (ds : list ascii) c :
  is_digit c = true → c :: ds ≠ Infinity_lit.
Proof. intros H [= -> _]. done. Qed.

Lemma parse_unsigned_plain (ds : list ascii) :
  ds ≠ [] → forallb is_digit ds = true →
  parse_unsigned ds = Some (Fin (norm (digits_val ds) 0)).
Proof.
  intros Hne Hds. unfold parse_unsigned.
  destruct ds as [|c ds]; [done|].
  rewrite decide_False by (apply not_Infinity; cbn in Hds; by destruct (is_digit c)).
  rewrite (span_digits_all _ Hds). cbn. by rewrite app_nil_r.
Qed.

Lemma parse_exponent_plus (es : list ascii) :
  es ≠ [] → forallb is_digit es = true →
  parse_exponent ("e"%char :: "+"%char :: es) = Some (digits_val es).
Proof.
  intros Hne Hes. cbn. rewrite (span_digits_all _ Hes). by destruct es.
Qed.

Lemma parse_unsigned_exp1 d (es : list ascii) :
  is_digit d = true → es ≠ [] → forallb is_digit es = true →
  parse_unsigned (d :: "e"%char :: "+"%char :: es)
  = Some (Fin (norm (digit_val d) (digits_val es))).
Proof.
  intros Hd Hne Hes. unfold parse_unsigned.
  rewrite decide_False by (by apply not_Infinity).
  change (d :: "e"%char :: "+"%char :: es) with ([d] ++ "e"%char :: "+"%char :: es).
  rewrite span_digits_app; [| by cbn; rewrite Hd | done].
  cbn [bool_decide negb andb]. rewrite parse_exponent_plus by done.
  cbn. by rewrite Z.sub_0_r.
Qed.

Lemma parse_unsigned_exp_frac d (rest es : list ascii) :
  is_digit d = true → forallb is_digit rest = true →
  es ≠ [] → forallb is_digit es = true →
  parse_unsigned (d :: "."%char :: rest ++ "e"%char :: "+"%char :: es)
  = Some (Fin (norm (digits_val (d :: rest))
                    (digits_val es - Z.of_nat (length rest)))).
Proof.
  intros Hd Hrest Hne Hes. unfold parse_unsigned.
  rewrite decide_False by (by apply not_Infinity).
  change (d :: "."%char :: rest ++ "e"%char :: "+"%char :: es)
    with ([d] ++ "."%char :: rest ++ "e"%char :: "+"%char :: es).
  rewrite span_digits_app; [| by cbn; rewrite Hd | done].
  rewrite span_digits_app; [| done | done].
  cbn [bool_decide negb andb]. rewrite parse_exponent_plus by done.
  done.
Qed.

(** A literal that starts with a digit other than 0 is decimal. *)
Lemma StringToNumber_decimal (l : list ascii) c (m : list ascii) n :
  l = c :: m → is_digit c = true → c ≠ "0"%char →
  trim_list l = l → parse_unsigned l = Some n →
  StringToNumber (string_of_list_ascii l) = n.
Proof.
  intros -> Hc Hz Ht Hp. unfold StringToNumber.
  rewrite list_ascii_of_string_of_list_ascii, Ht.
  assert (parse_nondecimal (c :: m) = None) as ->.
  { destruct c as [[] [] [] [] [] [] [] []]; try done. }
  assert (parse_decimal (c :: m) = parse_unsigned (c :: m)) as ->.
  { destruct c as [[] [] [] [] [] [] [] []]; try done. }
  by rewrite Hp.
Qed.

Lemma trim_list_all_digits (l : list ascii) :
  l ≠ [] → forallb is_digit l = true → trim_list l = l.
Proof.
  intros Hne Hl. destruct l as [|c l]; [done|]. cbn in Hl.
  apply andb_true_iff in Hl as [Hc Hl].
  destruct l as [|c0 l0] eqn:El; [by apply trim_list_single|]. rewrite <- El in *.
  destruct (exists_last (l := l)) as (l' & a & ->); [by rewrite El|].
  rewrite forallb_app in Hl. apply andb_true_iff in Hl as [_ Ha].
  cbn in Ha. rewrite andb_true_r in Ha.
  apply trim_list_id; by apply digit_not_ws.
Qed.

Lemma dashless_of_list l : dashless (string_of_list_ascii l) = dashless_list l.
Proof. induction l as [|c l IH]; cbn; [done | by rewrite IH]. Qed.

Lemma digits_dashless l : forallb is_digit l = true → dashless_list l = true.
Proof.
  unfold dashless_list. induction l as [|c l IH]; cbn; [done|].
  intros [Hc Hl]%andb_true_iff. rewrite (IH Hl), andb_true_r.
  apply negb_true_iff, Ascii.eqb_neq. by apply digit_not_dash.
Qed.

Lemma repeat_zero_digits n : forallb is_digit (repeat "0"%char n) = true.
Proof. induction n; cbn; done. Qed.

(** Printing a positive integer and reading the digits back. *)
Lemma Number_String_positive (y : N) :
  (0 < y)%N →
  StringToNumber (NumberToString (of_N y)) = of_N y
  ∧ dashless (NumberToString (of_N y)) = true.
Proof.
  intros Hy. unfold of_N, of_Z.
  destruct (norm_positive (Z.of_N y) 0 ltac:(lia)) as (Hm & Hmod & He & Hval).
  rewrite Z.sub_0_r in Hval.
  destruct (norm (Z.of_N y) 0) as [m e] eqn:En. cbn [dmant dexp] in *.
  unfold NumberToString. cbn [dmant dexp].
  rewrite (proj2 (Z.eqb_neq m 0)) by lia.
  rewrite (proj2 (Z.ltb_ge m 0)) by lia.
  pose proof (digits_of_N_spec (Z.to_N (Z.abs m))) as Hspec. cbn zeta in Hspec.
  set (ds := digits_of_N (Z.to_N (Z.abs m))) in *. clearbody ds.
  destruct Hspec as (Hne & Hds & Hdv & Hhd).
  rewrite Z2N.id, Z.abs_eq in Hdv by lia.
  specialize (Hhd ltac:(lia)).
  destruct ds as [|d0 rest]; [done|]. clear Hne.
  cbn in Hhd. assert (d0 ≠ "0"%char) as Hd0 by congruence. clear Hhd.
  pose proof Hds as Hall. cbn in Hds. apply andb_true_iff in Hds as [Hd Hrest].
  unfold positive_to_list.
  set (k := Z.of_nat (length (d0 :: rest))).
  assert (1 <= k)%Z as Hk by (unfold k; cbn [length]; lia).
  rewrite (proj2 (Z.leb_le k (k + e))) by lia. cbn [andb].
  destruct (Z.leb_spec (k + e) 21) as [Hn|Hn].
  - (* plain digits *)
    replace (k + e - k)%Z with e by lia.
    set (body := (d0 :: rest) ++ repeat "0"%char (Z.to_nat e)).
    assert (forallb is_digit body = true) as Hbody.
    { unfold body. by rewrite forallb_app, Hall, repeat_zero_digits. }
    split.
    + apply (StringToNumber_decimal body d0 (rest ++ repeat "0"%char (Z.to_nat e)));
        [done | done | done | by apply trim_list_all_digits |].
      rewrite parse_unsigned_plain by done.
      unfold body. rewrite digits_val_zeros, Hdv, Z2Nat.id, Hval by lia.
      by rewrite En.
    + rewrite dashless_of_list. by apply digits_dashless.
  - (* exponent notation *)
    rewrite andb_false_r.
    assert (((-6 <? k + e) && (k + e <=? 0))%Z = false) as ->.
    { apply andb_false_iff. right. apply Z.leb_gt. lia. }
    unfold exponent_suffix.
    rewrite (proj2 (Z.ltb_ge (k + e - 1) 0)) by lia.
    pose proof (digits_of_N_spec (Z.to_N (Z.abs (k + e - 1)))) as Hspec.
    cbn zeta in Hspec.
    set (es := digits_of_N (Z.to_N (Z.abs (k + e - 1)))) in *. clearbody es.
    destruct Hspec as (Hne' & Hes & Hev & _).
    rewrite Z2N.id, Z.abs_eq in Hev by lia.
    destruct (exists_last Hne') as (es' & a & ->).
    pose proof Hes as Hes0.
    rewrite forallb_app in Hes. apply andb_true_iff in Hes as [Hes' Ha].
    cbn in Ha. rewrite andb_true_r in Ha.
    destruct rest as [|d1 rest'].
    + (* one digit *)
      assert (e = k + e - 1)%Z as Hek by (unfold k; cbn; lia).
      split.
      * apply (StringToNumber_decimal _ d0 ("e"%char :: "+"%char :: es' ++ [a]));
          [done | done | done | |].
        -- apply (trim_list_id d0 ("e"%char :: "+"%char :: es') a);
             by apply digit_not_ws.
        -- rewrite parse_unsigned_exp1; [|done|done|done].
           change (digit_val d0 = m) in Hdv.
           rewrite Hev, <- Hek, Hdv. by rewrite norm_stable by lia.
      * rewrite dashless_of_list. cbn.
        apply andb_true_iff. split; [by apply negb_true_iff, Ascii.eqb_neq, digit_not_dash|].
        by apply digits_dashless.
    + (* several digits *)
      assert (k + e - 1 - Z.of_nat (length (d1 :: rest')) = e)%Z as Hek
        by (unfold k; cbn [length]; lia).
      split.
      * apply (StringToNumber_decimal _ d0
                 ("."%char :: (d1 :: rest') ++ "e"%char :: "+"%char :: es' ++ [a]));
          [done | done | done | |].
        -- replace (d0 :: "."%char :: (d1 :: rest') ++ "e"%char :: "+"%char :: es' ++ [a])
             with (d0 :: ("."%char :: (d1 :: rest') ++ "e"%char :: "+"%char :: es') ++ [a]).
           ++ apply trim_list_id; by apply digit_not_ws.
           ++ cbn. f_equal. f_equal. f_equal. rewrite <- app_assoc. done.
        -- rewrite parse_unsigned_exp_frac; [|done|done|done|done].
           rewrite Hev, Hek, Hdv. by rewrite norm_stable by lia.
      * rewrite dashless_of_list. unfold dashless_list.
        change (d0 :: "."%char :: (d1 :: rest') ++ "e"%char :: "+"%char :: es' ++ [a])
          with ((d0 :: "."%char :: d1 :: rest') ++ "e"%char :: "+"%char :: es' ++ [a]).
        rewrite forallb_app. apply andb_true_iff. split.
        -- cbn. cbn in Hrest.
           rewrite (proj2 (Ascii.eqb_neq d0 "-")) by (by apply digit_not_dash).
           apply andb_true_iff in Hrest as [Hd1 Hr].
           rewrite (proj2 (Ascii.eqb_neq d1 "-")) by (by apply digit_not_dash).
           cbn. by apply digits_dashless.
        -- cbn. by apply digits_dashless.
Qed.

Lemma Number_String_N (y : N) :
  StringToNumber (NumberToString (of_N y)) = of_N y
  ∧ dashless (NumberToString (of_N y)) = true.
Proof.
  destruct (N.eq_dec y 0%N) as [->|Hy]; [done|].
  apply Number_String_positive. lia.
Qed.

Lemma weeks_read_back :
  forallb week_reads_back (N.of_nat <$> seq 1 99) = true.
Proof. vm_compute. reflexivity. Qed.

Lemma week_reads_back_spec (w : N) :
  (1 <= w <= 99)%N →
  let p := padStart0 (NumberToString (of_N w)) 2 in
  dashless p = true ∧ StringToNumber p = of_N w.
Proof.
  intros Hw. pose proof weeks_read_back as H.
  rewrite forallb_forall in H. specialize (H w).
  assert (week_reads_back w = true) as Hok.
  { apply H. apply in_map_iff. exists (N.to_nat w). split; [lia|].
    apply in_seq. lia. }
  unfold week_reads_back in Hok. cbn zeta in *.
  apply andb_true_iff in Hok as [H1 H2]. by apply bool_decide_eq_true in H2.
Qed.

End LiteralFacts.

(** ** The model at work *)

Module ModelSamples.
Import JS PerformanceMetrics.

Example Number_leading_zero : StringToNumber "07" = of_Z 7.
Proof. reflexivity. Qed.

Example Number_blank : StringToNumber "  " = of_Z 0.
Proof. reflexivity. Qed.

Example Number_fraction : StringToNumber " 12.50 " = Fin (Dec 125 (-1)).
Proof. reflexivity. Qed.

Example Number_exponent : StringToNumber "1e3" = of_Z 1000.
Proof. reflexivity. Qed.

Example Number_hexadecimal : StringToNumber "0x1F" = of_Z 31.
Proof. reflexivity. Qed.

Example Number_no_literal :
  StringToNumber "abc" = NaN ∧ StringToNumber "1e" = NaN
  ∧ StringToNumber "." = NaN ∧ StringToNumber "+0x10" = NaN.
Proof. repeat split; reflexivity. Qed.

Example Number_infinity : StringToNumber "-Infinity" = Inf true.
Proof. reflexivity. Qed.

Example String_integers :
  NumberToString (of_Z 1200) = "1200"
  ∧ NumberToString (StringToNumber "1e21") = "1e+21"
  ∧ NumberToString (StringToNumber "1e20") = "100000000000000000000".
Proof. repeat split; reflexivity. Qed.

Example String_fractions :
  NumberToString (StringToNumber "0.000001") = "0.000001"
  ∧ NumberToString (StringToNumber "0.0000001") = "1e-7"
  ∧ NumberToString (StringToNumber "-12.50") = "-12.5".
Proof. repeat split; reflexivity. Qed.

Example String_array :
  ToString (JArr [JNum (of_Z 1); JNull; JStr "a"; JArr [JBool true]]) = "1,,a,true".
Proof. reflexivity. Qed.

Example split_week : split "2025-W48" "-W" = ["2025"; "48"].
Proof. reflexivity. Qed.

Example split_edges :
  split "" "-W" = [""] ∧ split "-W" "-W" = [""; ""] ∧ split "a-W" "-W" = ["a"; ""].
Proof. repeat split; reflexivity. Qed.

Example lower_case : toLowerCase "Admin" = "admin".
Proof. reflexivity. Qed.

Example metric_keys :
  metric_key "Team Work!" = "team_work" ∧ metric_key "  Quality  " = "quality".
Proof. split; reflexivity. Qed.

Example dezero_samples :
  dezero "007" = "7" ∧ dezero "00" = "0" ∧ dezero "0.5" = ".5" ∧ dezero "10" = "10".
Proof. repeat split; reflexivity. Qed.

Example week_value : formatWeekValue (JNum (of_Z 2025)) (JNum (of_Z 7)) = "2025-W07".
Proof. reflexivity. Qed.

End ModelSamples.

(** * The weekly-evaluation form *)

(** ** Typing a score *)

Module ScoreEntry.
Import JS PerformanceMetrics Notions FormSamples.


Lemma dezero_strip v : v ≠ "" → v ≠ "0" → dezero v = strip_zeros v.
Proof.
  intros H1 H2. unfold dezero, strip_zeros.
  destruct v as [|c v]; [done|]. cbn [String.get String.length].
  destruct (decide (c = "0"%char)) as [->|Hc].
  - destruct v as [|c' v]; [done|]. cbn. done.
  - rewrite (bool_decide_eq_false_2 (Some c = Some "0"%char)) by congruence.
    rewrite andb_false_r.
    assert (strip_leading_zeros (String c v) = String c v) as ->.
    { cbn. destruct c as [[] [] [] [] [] [] [] []]; try reflexivity. done. }
    done.
Qed.

Lemma accepted_range v : accepted v ↔ between_0_100 (numeric_value v).
Proof.
  unfold accepted. split; [|tauto].
  intros [->|[->|H]]; [| |done]; apply NumberFacts.zero_in_range.
Qed.

Lemma accepted_or_refused v : accepted v ∨ refused v.
Proof.
  rewrite accepted_range. unfold refused. apply NumberFacts.trichotomy.
Qed.

Lemma accepted_not_refused v : accepted v → ¬ refused v.
Proof. rewrite accepted_range. apply NumberFacts.range_excludes. Qed.

(** An accepted value is committed to the array, zeros stripped. *)
Lemma handleScoreChange_commits st i v :
  accepted v →
  handleScoreChange st i v
  = setScores st (array_set (spread (scores st)) i (JStr (entry_of v))).
Proof.
  intros Ha. unfold handleScoreChange, entry_of.
  destruct (decide (v = "")) as [->|H1]; [done|].
  rewrite (bool_decide_eq_false_2 _ H1).
  destruct (decide (v = "0")) as [->|H2]; [done|].
  rewrite (bool_decide_eq_false_2 _ H2), (dezero_strip v H1 H2).
  fold (numeric_value v).
  apply accepted_range, NumberFacts.in_range_tests in Ha as (-> & -> & ->).
  done.
Qed.

(** A refused value opens the modal and commits nothing else. *)
Lemma handleScoreChange_refuses st i v :
  refused v →
  ∃ msg, handleScoreChange st i v = setValidationModal st (warn msg).
Proof.
  intros Hr. unfold handleScoreChange.
  destruct (decide (v = "")) as [->|H1].
  { destruct (accepted_not_refused ""); [by left|done]. }
  rewrite (bool_decide_eq_false_2 _ H1).
  destruct (decide (v = "0")) as [->|H2].
  { destruct (accepted_not_refused "0"); [right; by left|done]. }
  rewrite (bool_decide_eq_false_2 _ H2), (dezero_strip v H1 H2).
  fold (numeric_value v).
  destruct (is_nan (numeric_value v) || ltb (numeric_value v) (of_Z 0)) eqn:E1; [eauto|].
  destruct (gtb (numeric_value v) (of_Z 100)) eqn:E2; [eauto|].
  apply orb_false_iff in E1 as [E0 E1].
  destruct (accepted_not_refused v); [|done].
  apply accepted_range, NumberFacts.in_range_tests. done.
Qed.



End ScoreEntry.

(** ** Submitting an evaluation *)

Module Submission.
Import JS PerformanceMetrics Notions FormSamples.

Lemma third_row_only_scores :
  scores third_row_only = [None; None; Some (JStr "5")].
Proof. reflexivity. Qed.

Lemma present_In (a : jsarray) s : In s (present a) ↔ In (Some s) a.
Proof.
  unfold present. induction a as [|[x|] a IH]; cbn; [tauto | | ].
  - rewrite IH. split; intros [H|H]; auto; [left; congruence | left; congruence].
  - rewrite IH. split; [tauto | intros [H|H]; [done | tauto]].
Qed.

Lemma every_spec p (a : jsarray) :
  every p a = true ↔ ∀ s, In s (present a) → p s = true.
Proof.
  unfold every. rewrite forallb_forall. split.
  - intros H s Hs. apply present_In in Hs. apply (H _ Hs).
  - intros H [s|] Hs; [|done]. apply H. by apply present_In.
Qed.

Lemma some_false p (a : jsarray) :
  some p a = false ↔ ∀ s, In s (present a) → p s = false.
Proof.
  unfold some. rewrite <- not_true_iff_false, existsb_exists. split.
  - intros H s Hs. apply not_true_iff_false. intros Hp. apply H.
    exists (Some s). split; [by apply present_In | done].
  - intros H ([s|] & Hs & Hp); [|done].
    apply present_In in Hs. rewrite (H s Hs) in Hp. done.
Qed.

Lemma present_length (a : jsarray) : (length (present a) <= length a)%nat.
Proof. unfold present. induction a as [|[x|] a IH]; cbn; lia. Qed.

Lemma filled_test s :
  negb (is_str s "") && negb (is_undefined s) = true ↔ filled s.
Proof.
  unfold filled. destruct s as [| | | | x | |]; cbn; try (intuition congruence).
  rewrite andb_true_r, negb_true_iff, bool_decide_eq_false.
  split; [intros H; split; congruence | intros [H _] ->; done].
Qed.

Lemma to_Q_zero_mantissa d : dmant d = 0%Z → (to_Q d == 0)%Q.
Proof.
  destruct d as [m e]. cbn. intros ->. unfold to_Q. cbn [dmant dexp].
  destruct (0 <=? e)%Z; reflexivity.
Qed.

(** A running sum of finite terms is exact, whatever the accumulator. *)
Lemma running_sum (g : jsval → jsnum) (l : list jsval) (a : dec) :
  (∀ s, In s l → ∃ d, g s = Fin d ∧ (to_Q d == score_value s)%Q) →
  ∃ t, fold_left (fun sum val => add sum (g val)) l (Fin a) = Fin t
       ∧ (to_Q t == to_Q a + sum_of_scores l)%Q.
Proof.
  revert a. induction l as [|s l IH]; intros a Hl.
  - exists a. split; [done|]. cbn. ring.
  - cbn [fold_left].
    destruct (Hl s (or_introl eq_refl)) as (d & Hg & Hd). rewrite Hg.
    unfold sum_of_scores. cbn [fold_right]. fold (sum_of_scores l).
    destruct (add (Fin a) (Fin d)) as [| |a'] eqn:Ea; [done | done |].
    destruct (IH a') as (t & Ht & Hq).
    { intros s' Hs'. apply Hl. by right. }
    exists t. split; [done|].
    rewrite Hq, (ArithFacts.to_Q_add a d a' Ea), Hd. ring.
Qed.

(** The total of the payload: [Number(val) || 0] changes no term. *)
Lemma running_total (l : list jsval) (a : dec) :
  (∀ s, In s l → between_0_100 (ToNumber s)) →
  ∃ t, fold_left (fun sum val =>
                    let n := ToNumber val in
                    add sum (if truthy (JNum n) then n else of_Z 0)) l (Fin a)
       = Fin t
       ∧ (to_Q t == to_Q a + sum_of_scores l)%Q.
Proof.
  intros Hl.
  apply (running_sum
           (fun val => let n := ToNumber val in
                       if truthy (JNum n) then n else of_Z 0)).
  intros s Hs. specialize (Hl s Hs). cbn zeta. unfold score_value.
  destruct (ToNumber s) as [| |d] eqn:En; [done | done |].
  cbn [truthy is_nan is_zero orb].
  destruct (Z.eqb_spec (dmant d) 0) as [H0|H0]; cbn [negb].
  - exists (norm 0 0). split; [done|].
    rewrite (to_Q_zero_mantissa d H0). reflexivity.
  - exists d. split; [done | reflexivity].
Qed.

Lemma filter_all {A} (p : A → bool) (l : list A) :
  (∀ x, In x l → p x = true) → List.filter p l = l.
Proof.
  induction l as [|x l IH]; intros H; cbn; [done|].
  rewrite (H x (or_introl eq_refl)), IH; [done|].
  intros y Hy. apply H. by right.
Qed.

(** The total the form displays is the sum of the scores as well. *)
Lemma totalScore_is_sum (a : jsarray) :
  (∀ s, In s (present a) → filled s ∧ between_0_100 (ToNumber s)) →
  ∃ t, totalScore a = Fin t ∧ (to_Q t == sum_of_scores (present a))%Q.
Proof.
  intros Ha. unfold totalScore. rewrite filter_all.
  - destruct (running_sum ToNumber (present a) (norm 0 0)) as (t & Ht & Hq).
    + intros s Hs. destruct (Ha s Hs) as [_ Hb]. unfold score_value.
      destruct (ToNumber s) as [| |d]; [done | done |].
      exists d. split; [done | reflexivity].
    + exists t. split; [done|]. rewrite Hq.
      change (to_Q (norm 0 0)) with 0%Q. ring.
  - intros s Hs. destruct (Ha s Hs) as [[Hne _] _].
    destruct s as [| | | | x | |]; try done.
    apply negb_true_iff, bool_decide_eq_false. congruence.
Qed.

Lemma sum_of_scores_bounds (l : list jsval) :
  (∀ s, In s l → between_0_100 (ToNumber s)) →
  (0 <= sum_of_scores l)%Q ∧ (sum_of_scores l <= 100 * inject_Z (Z.of_nat (length l)))%Q.
Proof.
  induction l as [|s l IH]; intros Hl.
  - cbn. split; [apply Qle_refl | discriminate].
  - destruct IH as [IH0 IH1]; [intros s' Hs'; apply Hl; by right|].
    pose proof (Hl s (or_introl eq_refl)) as Hs.
    unfold sum_of_scores. cbn [fold_right length]. fold (sum_of_scores l).
    assert (0 <= score_value s ∧ score_value s <= 100)%Q as [H0 H1].
    { unfold score_value. by destruct (ToNumber s). }
    rewrite Nat2Z.inj_succ, <- Z.add_1_r, inject_Z_plus.
    change (inject_Z 1) with 1%Q.
    revert IH1. generalize (inject_Z (Z.of_nat (length l))). intros q IH1.
    split; lra.
Qed.

Section Parser.

Variable JSON_parse : string → option jsval.

Lemma manager_role :
  JSON_parse "null" = Some JNull →
  getUserRole JSON_parse manager_editing = Some "manager".
Proof.
  intros Hnull. unfold getUserRole.
  change (Storage.getItem (localStorage manager_editing) "user") with JNull.
  change (Storage.getItem (localStorage manager_editing) "role") with (JStr "Manager").
  cbn [ToString]. rewrite Hnull. reflexivity.
Qed.

(** C2 fails on the code: with a score typed in the third row only, the
    array has three slots of which two are holes; [every] and [some] pass
    the holes over, so the request is sent although two measurements have
    no score, and their metrics are NaN. *)
Theorem handleSubmit_sends_unfilled_rows :
  JSON_parse "null" = Some JNull →
  ∃ body,
    handleSubmit JSON_parse third_row_only manager_editing
    = Sent (PUT "performance/evaluations/12/" body)
    ∧ ¬ one_entry_each third_row_only manager_editing
    ∧ array_get (scores third_row_only) 0 = JUndefined
    ∧ array_get (scores third_row_only) 1 = JUndefined
    ∧ metrics body !! "quality" = Some (JNum NaN)
    ∧ metrics body !! "teamwork" = Some (JNum NaN)
    ∧ metrics body !! "delivery" = Some (JNum (of_Z 5))
    ∧ total_score body = of_Z 5.
Proof.
  intros Hnull. eexists. split.
  - unfold handleSubmit.
    change (negb (truthy (JStr (employeeId third_row_only)))) with false.
    change (negb (truthy (JStr (employeeName third_row_only)))) with false.
    change (negb (allFilled third_row_only manager_editing)) with false.
    change (invalid third_row_only) with false.
    cbn iota. rewrite (manager_role Hnull).
    change (negb (bool_decide ("manager" = "admin") || bool_decide ("manager" = "manager")))
      with false.
    change (negb (truthy (JStr (selectedWeek third_row_only)))) with false.
    change (truthy (evaluationId third_row_only) && is_str (mode manager_editing) "edit")
      with true.
    cbn iota. reflexivity.
  - cbn [metrics total_score].
    split; [discriminate|]. repeat split; vm_compute; reflexivity.
Qed.

(** What a request that is sent guarantees. *)
Lemma handleSubmit_sent st env req :
  handleSubmit JSON_parse st env = Sent req →
  ∃ role,
    getUserRole JSON_parse env = Some role
    ∧ guards_pass st env role
    ∧ (is_put req ↔ edits_existing st env)
    ∧ ∃ t, total_score (body_of req) = Fin t
           ∧ (to_Q t == sum_of_scores (present (scores st)))%Q
           ∧ (0 <= to_Q t)%Q
           ∧ (to_Q t <= 100 * inject_Z (Z.of_nat (length (measurements env))))%Q.
Proof.
  unfold handleSubmit.
  destruct (truthy (JStr (employeeId st))) eqn:Eid; [|done].
  destruct (truthy (JStr (employeeName st))) eqn:Ename; [|done].
  destruct (allFilled st env) eqn:Efill; [|done].
  destruct (invalid st) eqn:Einv; [done|].
  cbn [negb]. destruct (getUserRole JSON_parse env) as [role|]; [|done].
  destruct (bool_decide (role = "admin") || bool_decide (role = "manager")) eqn:Erole;
    [|done].
  destruct (truthy (JStr (selectedWeek st))) eqn:Eweek; [|done].
  cbn [negb]. intros Hreq. exists role. split; [done|].
  apply andb_true_iff in Efill as [Hlen Hevery].
  apply bool_decide_eq_true in Hlen.
  rewrite every_spec in Hevery. unfold invalid in Einv. rewrite some_false in Einv.
  assert (∀ s, In s (present (scores st)) → between_0_100 (ToNumber s)) as Hrange.
  { intros s Hs. apply NumberFacts.in_range_tests.
    specialize (Einv s Hs). apply orb_false_iff in Einv as [Einv ?].
    apply orb_false_iff in Einv as [? ?]. done. }
  split; [|split].
  - cbn in Eid, Ename, Eweek.
    apply negb_true_iff, bool_decide_eq_false in Eid, Ename, Eweek.
    split; [done|]. split; [done|]. split; [done|]. split; [|split; [|done]].
    + intros s Hs; split; [by apply filled_test, Hevery | by apply Hrange].
    + apply orb_true_iff in Erole as [H|H]; apply bool_decide_eq_true in H; tauto.
  - unfold edits_existing.
    destruct (truthy (evaluationId st)); cbn [andb] in Hreq.
    + destruct (mode env) as [| | | | m | |]; cbn in Hreq;
        try (injection Hreq as <-; cbn; intuition congruence).
      destruct (decide (m = "edit")) as [->|Hm].
      * rewrite bool_decide_eq_true_2 in Hreq by done.
        injection Hreq as <-. cbn. tauto.
      * rewrite bool_decide_eq_false_2 in Hreq by done.
        injection Hreq as <-. cbn. intuition congruence.
    + injection Hreq as <-. cbn. intuition congruence.
  - assert (total_score (body_of req) = payload_total (scores st)) as ->.
    { destruct (truthy (evaluationId st) && is_str (mode env) "edit");
        injection Hreq as <-; done. }
    unfold payload_total, reduce.
    destruct (running_total (present (scores st)) (norm 0 0) Hrange) as (t & Ht & Hq).
    exists t. split; [done|].
    destruct (sum_of_scores_bounds (present (scores st)) Hrange) as [H0 H1].
    assert (to_Q t == sum_of_scores (present (scores st)))%Q as Hsum.
    { rewrite Hq. change (to_Q (norm 0 0)) with 0%Q. ring. }
    split; [done|]. rewrite Hsum. split; [done|].
    eapply Qle_trans; [apply H1|].
    apply Qmult_le_l; [done|]. rewrite <- Zle_Qle.
    pose proof (present_length (scores st)). lia.
Qed.

(** When the guards pass a request is sent. *)
Lemma handleSubmit_passes st env role :
  getUserRole JSON_parse env = Some role →
  guards_pass st env role →
  ∃ req, handleSubmit JSON_parse st env = Sent req.
Proof.
  intros Hrole (Hid & Hname & Hlen & Hscores & Hr & Hweek).
  unfold handleSubmit.
  cbn [truthy]. rewrite !bool_decide_eq_false_2 by done. cbn [negb].
  assert (allFilled st env = true) as ->.
  { unfold allFilled. rewrite bool_decide_eq_true_2 by done. cbn [andb].
    apply every_spec. intros s Hs. apply filled_test, Hscores, Hs. }
  assert (invalid st = false) as ->.
  { unfold invalid. apply some_false. intros s Hs.
    destruct (Hscores s Hs) as [_ Hb].
    apply NumberFacts.in_range_tests in Hb as (-> & -> & ->). done. }
  cbn [negb]. rewrite Hrole.
  assert (bool_decide (role = "admin") || bool_decide (role = "manager") = true) as ->.
  { destruct Hr as [-> | ->]; done. }
  cbn [negb]. destruct (_ && _); eauto.
Qed.

(** When a guard fails the modal is shown and nothing is sent. *)
Lemma handleSubmit_blocks st env role :
  getUserRole JSON_parse env = Some role →
  ¬ guards_pass st env role →
  ∃ modal, handleSubmit JSON_parse st env = Rejected modal ∧ show modal = true.
Proof.
  intros Hrole Hno.
  destruct (handleSubmit JSON_parse st env) as [modal|req|] eqn:E.
  - exists modal. split; [done|].
    unfold handleSubmit in E. rewrite Hrole in E.
    repeat match type of E with
           | (if ?c then _ else _) = _ => destruct c
           end; try discriminate E; by injection E as <-.
  - destruct (handleSubmit_sent st env req E) as (role' & Hrole' & Hg & _).
    rewrite Hrole in Hrole'. injection Hrole' as <-. done.
  - unfold handleSubmit in E. rewrite Hrole in E.
    repeat match type of E with
           | (if ?c then _ else _) = _ => destruct c
           end; done.
Qed.

End Parser.

(** A form filled in on every row is posted, with the sum of its scores. *)
Example all_rows_posted :
  ∃ body,
    handleSubmit JSON_parse_null all_rows manager_adding
    = Sent (POST "performance/evaluations/" body)
    ∧ total_score body = StringToNumber "187.5"
    ∧ totalScore (scores all_rows) = StringToNumber "187.5".
Proof. eexists. split; [reflexivity | split; vm_compute; reflexivity]. Qed.

Lemma handleSubmit_unfilled_witness :
  ∃ body,
    handleSubmit JSON_parse_null third_row_only manager_editing
    = Sent (PUT "performance/evaluations/12/" body)
    ∧ ¬ one_entry_each third_row_only manager_editing
    ∧ array_get (scores third_row_only) 0 = JUndefined
    ∧ array_get (scores third_row_only) 1 = JUndefined
    ∧ metrics body !! "quality" = Some (JNum NaN)
    ∧ metrics body !! "teamwork" = Some (JNum NaN)
    ∧ metrics body !! "delivery" = Some (JNum (of_Z 5))
    ∧ total_score body = of_Z 5.
Proof.
  apply (handleSubmit_sends_unfilled_rows JSON_parse_null). reflexivity.
Defined.

End Submission.

(** ** Week strings *)

Module WeekStrings.
Import JS PerformanceMetrics Notions.

#[local] Arguments String.append !_ _ / : simpl nomatch.

(** C3: formatting a year and a week number from 1 to 99 and parsing the
    result gives the year and the week back; a string without "-W" parses
    to a null year and a null week. *)
Theorem parseWeek_formatWeekValue :
  (∀ y w : N, (1 <= w <= 99)%N →
     parseWeek (formatWeekValue (JNum (of_N y)) (JNum (of_N w)))
     = {| year := JNum (of_N y); week := JNum (of_N w) |})
  ∧ (∀ s : string, ¬ substring_of "-W" s →
     parseWeek s = {| year := JNull; week := JNull |}).
Proof.
  split.
  - intros y w Hw. unfold formatWeekValue. cbn [ToString].
    destruct (LiteralFacts.Number_String_N y) as [Hy Hdy].
    destruct (LiteralFacts.week_reads_back_spec w Hw) as [Hdw Hpw].
    set (d := NumberToString (of_N y)) in *.
    set (p := padStart0 (NumberToString (of_N w)) 2) in *.
    clearbody d p.
    unfold parseWeek.
    assert (truthy (JStr (d ++ "-W" ++ p)) = true) as ->.
    { cbn. apply negb_true_iff, bool_decide_eq_false. by destruct d. }
    assert (includes (d ++ "-W" ++ p) "-W" = true) as ->.
    { apply StringFacts.includes_spec. by exists d, p. }
    cbn [negb orb]. unfold split.
    rewrite (StringFacts.split_at_separator d p "" Hdy Hdw).
    cbn. by rewrite Hy, Hpw.
  - intros s Hs. unfold parseWeek.
    assert (includes s "-W" = false) as ->.
    { apply not_true_iff_false. by rewrite StringFacts.includes_spec. }
    by rewrite orb_true_r.
Qed.

Lemma parseWeek_formatWeekValue_witness :
  parseWeek (formatWeekValue (JNum (of_N 2025)) (JNum (of_N 7)))
  = {| year := JNum (of_N 2025); week := JNum (of_N 7) |}
  ∧ parseWeek "2025W07" = {| year := JNull; week := JNull |}.
Proof.
  split.
  - apply (proj1 parseWeek_formatWeekValue). lia.
  - apply (proj2 parseWeek_formatWeekValue).
    intros H. apply StringFacts.includes_spec in H. discriminate.
Defined.

End WeekStrings.

(** ** Messages of the error modal *)

Module ErrorMessages.
Import JS PerformanceMetrics Notions FormSamples.

Lemma opt_get_field data k :
  k = "errors" ∨ k = "detail" ∨ k = "message" → opt_get data k = field data k.
Proof.
  intros [->|[->| ->]]; by destruct data.
Qed.

Lemma get_field data k :
  k = "errors" ∨ k = "detail" ∨ k = "message" →
  truthy (field data k) = true → get data k = Some (field data k).
Proof.
  intros [->|[->| ->]]; by destruct data.
Qed.

Lemma first_key_value (errors : jsval) :
  is_object errors = true →
  get errors (ToString (default JUndefined (JStr <$> Object_keys errors !! 0)))
  = Some (first_field errors).
Proof.
  destruct errors as [| | | | s | l | props]; try done; intros _.
  - destruct l as [|x l]; reflexivity.
  - destruct props as [|[k x] props]; [reflexivity|].
    cbn. by rewrite bool_decide_eq_true_2.
Qed.

(** C4, as the code has it: [extractBackendError] returns, in this order
    of precedence, the first field of [data.errors] when that is an object
    (undefined when it has no field), [data.detail] when it is not empty,
    [data.message] when it is not empty, the body itself when it is a
    string, and the fixed fallback otherwise. It never throws. *)
Theorem extractBackendError_precedence (err : jsval) :
  extractBackendError err = Some (modal_message err).
Proof.
  unfold extractBackendError, modal_message. fold (response_data err).
  set (data := response_data err).
  rewrite !opt_get_field by tauto.
  destruct (is_object (field data "errors")) eqn:Eo.
  - assert (truthy (field data "errors") = true) as Ht
      by (destruct (field data "errors"); done).
    rewrite Ht, (get_field data "errors") by tauto. cbn [andb].
    assert (typeof_object (field data "errors") = true) as ->
      by (destruct (field data "errors"); done).
    cbn [mbind option_bind]. by apply first_key_value.
  - assert (truthy (field data "errors")
            && match get data "errors" with
               | Some e => typeof_object e
               | None => false
               end = false) as ->.
    { destruct (truthy (field data "errors")) eqn:Ht; [|done].
      rewrite (get_field data "errors") by tauto.
      destruct (field data "errors"); done. }
    unfold is_present.
    destruct (truthy (field data "detail")) eqn:Ed.
    { by rewrite (get_field data "detail") by tauto. }
    destruct (truthy (field data "message")) eqn:Em.
    { by rewrite (get_field data "message") by tauto. }
    by destruct data.
Qed.

(** C4, as stated, fails: a [detail] that is there but empty is passed
    over, and the message is returned in its place. *)
Lemma empty_detail_is_passed_over :
  extractBackendError empty_detail = Some (JStr "Quota exceeded")
  ∧ message_when_there empty_detail = JStr ""
  ∧ ¬ (∀ err, extractBackendError err = Some (message_when_there err)).
Proof.
  split; [reflexivity | split; [reflexivity|]].
  intros H. discriminate (H empty_detail).
Qed.

End ErrorMessages.

(** * The master-data context *)

Module MasterDataFacts.
Import JS MasterDataContext Notions ServerSamples.

Lemma to_master_object props : to_master (JObj props) = Some (mapped_item props).
Proof. reflexivity. Qed.

(** A response that is an array of objects maps item by item. *)
Lemma to_masters_objects (items : list (list (string * jsval))) :
  to_masters (JArr (JObj <$> items)) = Some (mapped_item <$> items).
Proof.
  unfold to_masters.
  change (opt_get (JArr (JObj <$> items)) "results") with JUndefined.
  cbn [coalesce is_nullish].
  induction items as [|props items IH]; [done|].
  rewrite !fmap_cons. cbn [mapM]. rewrite IH. done.
Qed.

Lemma loadMasters_skips server st :
  loadedOnce st = true → loadMasters server st false = ([], st).
Proof. unfold loadMasters. by intros ->. Qed.

Lemma loadMasters_runs server st force :
  loadedOnce st = false ∨ force = true →
  loadMasters server st force
  = match (responses ← all_fulfilled (server <$> (dropdown <$> types));
           fill types responses ∅) with
    | Some newMasters =>
        ([SetLoading true; Get (dropdown "ROLE"); Get (dropdown "DEPARTMENT");
          Get (dropdown "PROJECT"); Get (dropdown "MEASUREMENT");
          SetMasters newMasters; SetLoading false],
         {| masters := newMasters; loadedOnce := true; loading := false |})
    | None =>
        ([SetLoading true; Get (dropdown "ROLE"); Get (dropdown "DEPARTMENT");
          Get (dropdown "PROJECT"); Get (dropdown "MEASUREMENT");
          ConsoleError; SetLoading false],
         {| masters := masters st; loadedOnce := loadedOnce st; loading := false |})
    end.
Proof.
  intros H. unfold loadMasters.
  assert (loadedOnce st && negb force = false) as ->
    by (destruct H as [-> | ->]; [done | apply andb_false_r]).
  cbn zeta.
  by destruct (_ ≫= _).
Qed.

Lemma built_success server lr ld lp lm :
  answers server "ROLE" lr → answers server "DEPARTMENT" ld →
  answers server "PROJECT" lp → answers server "MEASUREMENT" lm →
  (responses ← all_fulfilled (server <$> (dropdown <$> types));
   fill types responses ∅) = Some (four_lists lr ld lp lm).
Proof.
  intros (dr & Hr & Er) (dd & Hd & Ed) (dp & Hp & Ep) (dm & Hm & Em).
  unfold types, all_fulfilled. cbn. rewrite Hr, Hd, Hp, Hm. cbn.
  rewrite Er. cbn. rewrite Ed. cbn. rewrite Ep. cbn. rewrite Em. done.
Qed.

Lemma built_failure server type :
  In type types → fails server type →
  (responses ← all_fulfilled (server <$> (dropdown <$> types));
   fill types responses ∅) = None.
Proof.
  intros Hin [err Herr]. unfold types, all_fulfilled in *. cbn.
  destruct Hin as [<-|[<-|[<-|[<-|[]]]]]; rewrite Herr; cbn;
    repeat (destruct (server (dropdown _)); cbn; try done).
Qed.

(** C5, as the code has it: once the data is loaded a call that is not
    forced does nothing; any other call issues exactly the four dropdown
    requests and commits the masters at most once; when the four requests
    are answered with well-formed lists the one commit holds the four mapped
    lists and the loaded-once flag is set; when a request fails nothing is
    committed, and the masters and the flag keep their values. *)
Theorem loadMasters_commits_all_or_nothing
    (server : DropdownRequest → Settled) (st : ProviderState) (force : bool) :
  let run := loadMasters server st force in
  (* already loaded and not forced: nothing happens *)
  (loadedOnce st = true → force = false → run = ([], st))
  ∧ (loadedOnce st = false ∨ force = true →
     (* the four requests, and at most one commit *)
     requests_of run.1 = four_requests
     ∧ (length (commits_of run.1) ≤ 1)%nat
     (* all four lists at once *)
     ∧ (∀ lr ld lp lm,
          answers server "ROLE" lr → answers server "DEPARTMENT" ld →
          answers server "PROJECT" lp → answers server "MEASUREMENT" lm →
          commits_of run.1 = [four_lists lr ld lp lm]
          ∧ masters run.2 = four_lists lr ld lp lm
          ∧ loadedOnce run.2 = true)
     (* or none *)
     ∧ (∀ type, In type types → fails server type →
          commits_of run.1 = []
          ∧ masters run.2 = masters st
          ∧ loadedOnce run.2 = loadedOnce st)).
Proof.
  cbn zeta. split.
  - intros H ->. by apply loadMasters_skips.
  - intros H. rewrite (loadMasters_runs server st force H).
    split; [|split; [|split]].
    + by destruct (_ ≫= _).
    + destruct (_ ≫= _); cbn; lia.
    + intros lr ld lp lm Hr Hd Hp Hm.
      by rewrite (built_success server lr ld lp lm Hr Hd Hp Hm).
    + intros type Hin Hf. by rewrite (built_failure server type Hin Hf).
Qed.

(** C5, as stated, fails: once the data is loaded, a call that is not
    forced issues no request at all. *)
Lemma loadMasters_loaded_issues_nothing :
  ¬ (∀ (server : DropdownRequest → Settled) (st : ProviderState) (force : bool),
       requests_of (loadMasters server st force).1 = four_requests).
Proof. intros H. discriminate (H one_department loaded false). Qed.

Lemma loadMasters_witness :
  masters (loadMasters one_department initial false).2
  = four_lists [] [mapped_item [("value", JNum (of_Z 3)); ("label", JStr "Design")]] [] []
  ∧ masters (loadMasters projects_down initial false).2 = masters initial
  ∧ loadMasters one_department loaded false = ([], loaded).
Proof.
  split; [|split].
  - apply (loadMasters_commits_all_or_nothing one_department initial false);
      [by left | by exists (JArr []) | | by exists (JArr []) | by exists (JArr [])].
    eexists. split; reflexivity.
  - apply (proj2 (loadMasters_commits_all_or_nothing projects_down initial false)
             (or_introl eq_refl)) with (type := "PROJECT").
    + cbn. tauto.
    + by eexists.
  - by apply (loadMasters_commits_all_or_nothing one_department loaded false).
Defined.

End MasterDataFacts.

(** * Routing *)

(** ** The history route *)

Module RouteFacts.
Import JS Routes Notions.

Lemma stored_role_admin ls :
  is_str (stored_role_lower ls) "admin" = true ↔ role_lowercases_to ls "admin".
Proof.
  unfold stored_role_lower, Storage.getItem, role_lowercases_to.
  destruct (ls !! "role") as [r|] eqn:E; cbn.
  - rewrite bool_decide_eq_true. split; [eauto | by intros (? & [= <-] & ?)].
  - split; [done | by intros (? & ? & _)].
Qed.

(** C6: the history route renders the history view exactly when the stored
    role lowercases to "admin"; for any other role, or none, it redirects
    to /dashboard. *)
Theorem history_route_is_admin_only (ls : Storage.t) :
  (history_element ls = View "EmployeeLifecycleHistory"
   ↔ role_lowercases_to ls "admin")
  ∧ (history_element ls = Navigate "/dashboard"
     ↔ ¬ role_lowercases_to ls "admin").
Proof.
  unfold history_element. rewrite <- stored_role_admin.
  destruct (is_str (stored_role_lower ls) "admin"); intuition congruence.
Qed.

End RouteFacts.

(** ** The index route *)

Module IndexRoute.
Import JS Routes AppContent Notions TokenSamples.

Section Decoders.

Variable atob : string → option string.
Variable JSON_parse : string → option jsval.

Lemma getDefaultRoute_cases (ls : Storage.t) :
  let route := getDefaultRoute (Storage.getItem ls "role") in
  (route = "/employee-dashboard" ↔ role_lowercases_to ls "employee")
  ∧ (route = "/login" ↔ ls !! "role" = None ∨ ls !! "role" = Some "")
  ∧ (route = "/dashboard"
     ↔ ∃ r, ls !! "role" = Some r ∧ r ≠ "" ∧ toLowerCase r ≠ "employee").
Proof.
  cbn zeta. unfold getDefaultRoute, Storage.getItem, role_lowercases_to.
  destruct (ls !! "role") as [r|] eqn:E.
  - cbn [truthy]. destruct (decide (r = "")) as [->|Hr].
    + cbn. split; [|split]; split; try done.
      * by intros (? & [= <-] & ?).
      * auto.
      * by intros (? & [= <-] & ? & ?).
    + rewrite (bool_decide_eq_false_2 _ Hr). cbn [negb].
      destruct (decide (toLowerCase r = "employee")) as [Hl|Hl].
      * rewrite (bool_decide_eq_true_2 _ Hl).
        split; [|split]; split; try done.
        -- eauto.
        -- intros [?|[= ?]]; done.
        -- by intros (? & [= <-] & ? & ?).
      * rewrite (bool_decide_eq_false_2 _ Hl).
        split; [|split]; split; try done.
        -- by intros (? & [= <-] & ?).
        -- intros [?|[= ?]]; done.
        -- eauto.
  - split; [|split]; split; try done.
    + by intros (? & ? & _).
    + auto.
    + by intros (? & ? & _).
Qed.

(** Without a stored token the index route is the login page; local
    storage stays as it is. *)
Lemma index_route_without_token ls now :
  ls !! "access_token" = None ∨ ls !! "access_token" = Some "" →
  index_element atob JSON_parse ls now = (Navigate "/login", ls).
Proof.
  unfold index_element, Storage.getItem. by intros [-> | ->].
Qed.

(** A token that cannot be decoded clears the session. *)
Lemma index_route_undecodable ls now token :
  ls !! "access_token" = Some token → token ≠ "" →
  token_expiry atob JSON_parse token = None →
  index_element atob JSON_parse ls now = (Navigate "/login", ∅).
Proof.
  intros Ht Hne He. unfold index_element, Storage.getItem. rewrite Ht.
  cbn [truthy]. rewrite (bool_decide_eq_false_2 _ Hne). cbn [negb].
  by rewrite He.
Qed.

(** With a numeric [exp] the session is cleared exactly when the expiry is
    not strictly in the future. *)
Lemma index_route_with_expiry ls token payload (x t : dec) :
  ls !! "access_token" = Some token → token ≠ "" →
  atob (ToString (default JUndefined (JStr <$> split token "." !! 1)))
    ≫= JSON_parse = Some payload →
  get payload "exp" = Some (JNum (Fin x)) →
  ((to_Q x * 1000 <= to_Q t)%Q →
     index_element atob JSON_parse ls (Fin t) = (Navigate "/login", ∅))
  ∧ ((to_Q t < to_Q x * 1000)%Q →
     index_element atob JSON_parse ls (Fin t)
     = (Navigate (getDefaultRoute (Storage.getItem ls "role")), ls)).
Proof.
  intros Ht Hne Hdec Hexp.
  assert (∃ e, token_expiry atob JSON_parse token = Some (Fin e)
               ∧ (to_Q e == to_Q x * 1000)%Q) as (e & He & Hq).
  { unfold token_expiry.
    destruct (atob _) as [decoded|]; [|done]. cbn in Hdec |- *.
    rewrite Hdec. cbn. rewrite Hexp. cbn [mbind option_bind ToNumber].
    destruct (mul (Fin x) (of_Z 1000)) as [| |e] eqn:Em; [done | done |].
    exists e. split; [done|].
    rewrite (ArithFacts.to_Q_mul x (norm 1000 0) e Em), ArithFacts.to_Q_1000.
    reflexivity. }
  unfold index_element, Storage.getItem. rewrite Ht.
  cbn [truthy]. rewrite (bool_decide_eq_false_2 _ Hne). cbn [negb].
  rewrite He. cbn [geb ltb]. split; intros H.
  - rewrite (proj2 (NumberFacts.Qlt_bool_false (to_Q t) (to_Q e))); [done|].
    by rewrite Hq.
  - rewrite (proj2 (NumberFacts.Qlt_bool_iff (to_Q t) (to_Q e))); [done|].
    by rewrite Hq.
Qed.



End Decoders.


End IndexRoute.

(** * The master-data page *)

Module MasterModuleFacts.
Import JS MasterModule Notions.

Lemma cell_text_stringified r c : cell_text r c = toLowerCase (stringified r c).
Proof.
  unfold cell_text, stringified, coalesce. cbn [get_prop].
  destruct (assoc (key c) r) as [v|]; cbn; [|done].
  by destruct (is_nullish v).
Qed.

Lemma existsb_matches columns query r :
  existsb (fun c => includes (cell_text r c) (toLowerCase query)) columns = true
  ↔ row_matches columns query r.
Proof.
  unfold row_matches. rewrite existsb_exists.
  split; intros (c & Hc & H); exists c; (split; [done|]).
  - apply StringFacts.includes_spec in H. by rewrite <- cell_text_stringified.
  - apply StringFacts.includes_spec. by rewrite cell_text_stringified.
Qed.

(** C9: with an empty search box the table shows the loaded rows as they
    are; with a query it shows, in their order, exactly the rows in which
    some configured column contains the query, letter case apart. *)
Theorem filtered_rows (data : list Row) (columns : list Column) (search : string) :
  (search = "" → filtered data columns search = data)
  ∧ (search ≠ "" →
     ∃ keep : Row → bool,
       (∀ r, keep r = true ↔ row_matches columns search r)
       ∧ filtered data columns search = List.filter keep data).
Proof.
  unfold filtered. split.
  - by intros ->.
  - intros Hs. cbn [truthy]. rewrite (bool_decide_eq_false_2 _ Hs). cbn [negb].
    eexists. split; [|reflexivity].
    intros r. apply existsb_matches.
Qed.

Lemma filtered_rows_witness :
  filtered [[("name", JStr "Design")]; [("name", JStr "Sales")]]
           [{| key := "name"; label := "Name" |}] ""
  = [[("name", JStr "Design")]; [("name", JStr "Sales")]]
  ∧ ∃ keep : Row → bool,
      (∀ r, keep r = true
            ↔ row_matches [{| key := "name"; label := "Name" |}] "SAL" r)
      ∧ filtered [[("name", JStr "Design")]; [("name", JStr "Sales")]]
                 [{| key := "name"; label := "Name" |}] "SAL"
        = List.filter keep [[("name", JStr "Design")]; [("name", JStr "Sales")]].
Proof.
  split.
  - by apply (filtered_rows _ _ "").
  - by apply (filtered_rows _ _ "SAL").
Defined.

(** C8: choosing a department empties [managers] and sets [department_id],
    every other field staying as it was; a change of any other field, in a
    select or in a text input, touches that field alone. *)
Theorem onChange_frame (form : Form) (has_callback : bool) (v : string) :
  (let form' := form_set (select_onChange form has_callback "department_id" v) in
   form' !! "managers" = Some (JArr [])
   ∧ form' !! "department_id" = Some (JNum (StringToNumber v))
   ∧ ∀ k, k ≠ "department_id" → k ≠ "managers" → form' !! k = form !! k)
  ∧ (∀ fkey k, fkey ≠ "department_id" → k ≠ fkey →
       form_set (select_onChange form has_callback fkey v) !! k = form !! k
       ∧ form_set (input_onChange form fkey v) !! k = form !! k).
Proof.
  split.
  - cbn zeta. unfold select_onChange.
    rewrite (bool_decide_eq_true_2 ("department_id" = "department_id")) by done.
    cbn [form_set]. split; [|split].
    + by rewrite lookup_insert_eq.
    + rewrite lookup_insert_ne by done. by rewrite lookup_insert_eq.
    + intros k H1 H2. by rewrite !lookup_insert_ne.
  - intros fkey k Hf Hk. unfold select_onChange, input_onChange.
    rewrite (bool_decide_eq_false_2 _ Hf). cbn [form_set].
    by rewrite !lookup_insert_ne.
Qed.

Lemma onChange_frame_witness :
  form_set (select_onChange {[ "name" := JStr "Apollo" ]} true "department_id" "3")
    !! "name" = Some (JStr "Apollo")
  ∧ form_set (select_onChange {[ "name" := JStr "Apollo" ]} true "managers" "7")
    !! "name" = Some (JStr "Apollo").
Proof.
  split.
  - rewrite (proj2 (proj2 (proj1 (onChange_frame {[ "name" := JStr "Apollo" ]} true "3")))
               "name"); done.
  - rewrite (proj1 (proj2 (onChange_frame {[ "name" := JStr "Apollo" ]} true "7")
                      "managers" "name" ltac:(done) ltac:(done))); done.
Defined.

(** *** The Deactivate button *)

Lemma resolve_confirmed p s : resolve (scope p s) "confirmed" = ReferenceError "confirmed".
Proof. reflexivity. Qed.

Lemma resolve_reason p s :
  resolve (scope p s) "reason" = Normal (Data (JStr (reason s))).
Proof. reflexivity. Qed.

Lemma resolve_loading p s :
  resolve (scope p s) "loading" = Normal (Data (JBool (loading p))).
Proof. reflexivity. Qed.

Lemma resolve_previewLoading p s :
  resolve (scope p s) "previewLoading" = Normal (Data (JBool (previewLoading s))).
Proof. reflexivity. Qed.

Lemma disabled_attr_cases p s :
  disabled_attr (scope p s)
  = if bool_decide (reason s = "") then Normal true
    else if loading p then Normal true
    else if previewLoading s then Normal true
    else ReferenceError "confirmed".
Proof.
  unfold disabled_attr.
  rewrite resolve_reason, resolve_loading, resolve_previewLoading, resolve_confirmed.
  cbn.
  destruct (bool_decide (reason s = "")); cbn; [done|].
  destruct (loading p); cbn; [done|].
  destruct (previewLoading s); cbn; done.
Qed.

(** C10, as the code has it: the render of the modal fails on the unbound
    identifier [confirmed] exactly when a reason is typed and neither
    [loading] nor [previewLoading] is set; whenever it succeeds the button
    is disabled; so no click ever reaches [onConfirm]. *)
Theorem deactivate_button_never_confirms (p : ModalProps) (s : ModalState) :
  (DeactivateDepartmentModal p s = ReferenceError "confirmed"
   ↔ reason s ≠ "" ∧ loading p = false ∧ previewLoading s = false)
  ∧ (∀ b, DeactivateDepartmentModal p s = Normal b → disabled b = true)
  ∧ click p s = None.
Proof.
  unfold click, DeactivateDepartmentModal. rewrite disabled_attr_cases.
  destruct (decide (reason s = "")) as [E|E].
  - rewrite (bool_decide_eq_true_2 _ E). cbn.
    split; [|split]; [| by intros b [= <-] | done].
    split; [done | by intros [? _]].
  - rewrite (bool_decide_eq_false_2 _ E).
    destruct (loading p), (previewLoading s); cbn;
      (split; [|split]); try done; try (by intros b [= <-]);
      split; try done; by intros (_ & ? & ?).
Qed.

(** C10, as stated, fails: before any reason is typed the modal renders,
    with its button disabled. *)
Lemma deactivate_modal_renders_untyped :
  ¬ (∀ (p : ModalProps) (s : ModalState), ∃ x, DeactivateDepartmentModal p s = ReferenceError x).
Proof.
  intros H.
  destruct (H {| department := JObj [("id", JNum (of_Z 4)); ("status", JStr "Active")];
                 loading := false |}
              {| preview := JNull; previewLoading := false; reason := "" |})
    as [x Hx].
  discriminate Hx.
Qed.

Lemma deactivate_button_witness :
  DeactivateDepartmentModal {| department := JObj [("id", JNum (of_Z 4))]; loading := false |}
         {| preview := JNull; previewLoading := false; reason := "merged" |}
  = ReferenceError "confirmed".
Proof.
  apply (deactivate_button_never_confirms
           {| department := JObj [("id", JNum (of_Z 4))]; loading := false |}
           {| preview := JNull; previewLoading := false; reason := "merged" |}).
  repeat split; done.
Defined.

End MasterModuleFacts.

(** * Further properties of the weekly-evaluation form *)

(** ** Metric keys *)

Module MetricKeys.
Import JS PerformanceMetrics Notions Terms.

#[local] Arguments String.append !_ _ / : simpl nomatch.

Lemma underscore_runs_single b t : single_runs b (underscore_runs b t) = true.
Proof.
  revert b. induction t as [|c t IH]; intros b; cbn [underscore_runs]; [done|].
  destruct (is_key_char c) eqn:Ec.
  - cbn [single_runs]. rewrite Ec. apply IH.
  - destruct b; [apply IH|]. cbn [single_runs].
    change (is_key_char "_") with false. cbn. apply IH.
Qed.

Lemma drop_last_single b s :
  single_runs b s = true → single_runs b (drop_last_underscore s) = true.
Proof.
  revert b. induction s as [|c s IH]; intros b H; [done|].
  destruct s as [|c' s'].
  - cbn [drop_last_underscore]. destruct (Ascii.eqb c "_"); done.
  - change (drop_last_underscore (String c (String c' s')))
      with (String c (drop_last_underscore (String c' s'))).
    cbn [single_runs] in H |- *. destruct (is_key_char c); [by apply IH|].
    apply andb_true_iff in H as [H1 H2]. rewrite H1. by apply IH.
Qed.

Lemma drop_last_no_trail b s r :
  single_runs b s = true → drop_last_underscore s ≠ r ++ "_".
Proof.
  revert b r. induction s as [|c s IH]; intros b r H.
  - cbn. destruct r; done.
  - destruct s as [|c' s'].
    + cbn [drop_last_underscore]. destruct (Ascii.eqb_spec c "_") as [->|Hc].
      * destruct r; done.
      * destruct r as [|x [|y r]]; cbn; congruence.
    + change (drop_last_underscore (String c (String c' s')))
        with (String c (drop_last_underscore (String c' s'))).
      cbn [single_runs] in H.
      destruct r as [|x r]; cbn [String.append].
      * intros [= Hx Hd]. subst c. change (is_key_char "_") with false in H. cbn in H.
        apply andb_true_iff in H as [_ H].
        destruct s' as [|c'' s'']; cbn in Hd.
        -- destruct (Ascii.eqb_spec c' "_") as [->|]; [|done].
           cbn in H. done.
        -- done.
      * intros [= Hx Hd]. subst c. revert Hd.
        destruct (is_key_char x); [by apply (IH false)|].
        apply andb_true_iff in H as [_ H]. by apply (IH true).
Qed.

Lemma single_runs_chars b s c :
  single_runs b s = true → In c (list_ascii_of_string s) →
  is_key_char c = true ∨ c = "_"%char.
Proof.
  revert b. induction s as [|x s IH]; intros b H Hc; [done|].
  cbn [single_runs] in H. cbn in Hc. destruct Hc as [->|Hc].
  - destruct (is_key_char c); [by left|]. right.
    apply andb_true_iff in H as [H _]. apply andb_true_iff in H as [H _].
    by apply Ascii.eqb_eq in H.
  - destruct (is_key_char x); [by apply (IH false)|].
    apply andb_true_iff in H as [_ H]. by apply (IH true).
Qed.

Lemma single_runs_no_pair b s : single_runs b s = true → ¬ substring_of "__" s.
Proof.
  intros H (pre & post & ->). revert b H.
  induction pre as [|x pre IH]; intros b H.
  - cbn in H. rewrite andb_false_r in H. done.
  - cbn [String.append single_runs] in H.
    destruct (is_key_char x); [by apply (IH false)|].
    apply andb_true_iff in H as [_ H]. by apply (IH true).
Qed.

Lemma single_runs_shaped s :
  single_runs true s = true → (∀ r, s ≠ r ++ "_") → key_shaped s.
Proof.
  intros H Ht. split; [|split; [|split]].
  - intros c. by apply (single_runs_chars true).
  - intros r ->. cbn in H. done.
  - done.
  - by apply (single_runs_no_pair true).
Qed.

Lemma shaped_single_runs b s :
  (∀ c, In c (list_ascii_of_string s) → is_key_char c = true ∨ c = "_"%char) →
  ¬ substring_of "__" s →
  (b = true → ∀ r, s ≠ String "_" r) →
  single_runs b s = true.
Proof.
  revert b. induction s as [|x s IH]; intros b Hc Hp Hl; [done|].
  cbn [single_runs].
  assert (∀ c, In c (list_ascii_of_string s) → is_key_char c = true ∨ c = "_"%char)
    as Hc' by (intros c Hin; apply Hc; by right).
  assert (¬ substring_of "__" s) as Hp'.
  { intros (pre & post & ->). apply Hp. by exists (String x pre), post. }
  destruct (is_key_char x) eqn:Ex.
  - by apply IH.
  - destruct (Hc x) as [H | ->]; [by left | congruence |].
    destruct b; [by destruct (Hl eq_refl s)|]. cbn.
    apply IH; [done | done |]. intros _ r ->. apply Hp. by exists "", r.
Qed.

Lemma lower_key_char c :
  is_key_char c = true ∨ c = "_"%char → lower_char c = c.
Proof.
  intros [H | ->]; [|done].
  destruct c as [[] [] [] [] [] [] [] []]; vm_compute in H |- *; congruence.
Qed.

Lemma toLowerCase_shaped s :
  (∀ c, In c (list_ascii_of_string s) → is_key_char c = true ∨ c = "_"%char) →
  toLowerCase s = s.
Proof.
  induction s as [|x s IH]; intros Hc; [done|]. cbn.
  rewrite lower_key_char by (apply Hc; by left).
  rewrite IH; [done|]. intros c Hin. apply Hc. by right.
Qed.

Lemma underscore_runs_id b s : single_runs b s = true → underscore_runs b s = s.
Proof.
  revert b. induction s as [|x s IH]; intros b H; [done|].
  cbn [single_runs underscore_runs] in *.
  destruct (is_key_char x); [by rewrite (IH false)|].
  apply andb_true_iff in H as [H1 H2]. apply andb_true_iff in H1 as [H0 H1].
  apply Ascii.eqb_eq in H0 as ->. destruct b; [done|]. by rewrite (IH true).
Qed.

Lemma drop_last_id s : (∀ r, s ≠ r ++ "_") → drop_last_underscore s = s.
Proof.
  induction s as [|x s IH]; intros H; [done|].
  destruct s as [|c' s'].
  - cbn. destruct (Ascii.eqb_spec x "_") as [->|]; [|done]. by destruct (H "").
  - change (drop_last_underscore (String x (String c' s')))
      with (String x (drop_last_underscore (String c' s'))).
    rewrite IH; [done|]. intros r Hr. apply (H (String x r)). cbn. by rewrite Hr.
Qed.

(** X1: the key [handleSubmit] and [loadEmployeeEvaluation] derive from a
    measurement name is made of lower-case letters and digits in groups
    joined by single underscores, with no underscore first or last; the
    names that are their own key are exactly the strings of that shape, so
    deriving the key of a key changes nothing. *)
Theorem metric_key_shape (name : string) :
  key_shaped (metric_key name)
  ∧ (key_shaped name ↔ metric_key name = name)
  ∧ metric_key (metric_key name) = metric_key name.
Proof.
  assert (∀ n, key_shaped (metric_key n)) as Hshape.
  { intros n. unfold metric_key, trim_underscores.
    pose proof (underscore_runs_single false (toLowerCase n)) as Hu.
    destruct (underscore_runs false (toLowerCase n)) as [|c u] eqn:Eu.
    - apply single_runs_shaped; [done|]. intros r. by destruct r.
    - assert (∀ s, single_runs true s = true → key_shaped (drop_last_underscore s)) as Hd.
      { intros s Hs. apply single_runs_shaped; [by apply drop_last_single|].
        intros r. by apply (drop_last_no_trail true). }
      destruct (Ascii.eqb_spec c "_") as [->|Hc].
      + apply Hd. cbn in Hu. done.
      + assert (single_runs true (String c u) = true) as Hs.
        { cbn [single_runs] in Hu |- *. destruct (is_key_char c); [done|].
          apply andb_true_iff in Hu as [Hu _]. apply andb_true_iff in Hu as [Hu _].
          by apply Ascii.eqb_eq in Hu. }
        destruct c as [[] [] [] [] [] [] [] []]; try (by apply Hd); done. }
  assert (∀ n, key_shaped n → metric_key n = n) as Hfix.
  { intros n (Hc & Hl & Ht & Hp). unfold metric_key.
    rewrite (toLowerCase_shaped n Hc).
    rewrite (underscore_runs_id false n) by (by apply shaped_single_runs).
    unfold trim_underscores.
    assert (drop_last_underscore n = n) as Hn by (by apply drop_last_id).
    destruct n as [|c n]; [done|].
    destruct (Ascii.eqb_spec c "_") as [->|Hne]; [by destruct (Hl n)|].
    destruct c as [[] [] [] [] [] [] [] []]; try done. }
  split; [apply Hshape|]. split; [|apply Hfix, Hshape].
  split; [apply Hfix|]. intros <-. apply Hshape.
Qed.

End MetricKeys.
(** ** Rows of the score table *)

Module ScoreRows.
Import JS PerformanceMetrics Notions FormSamples.

Lemma array_get_spread (a : jsarray) j : array_get (spread a) j = array_get a j.
Proof.
  unfold array_get, spread. rewrite list_lookup_fmap.
  by destruct (a !! j) as [[v|]|].
Qed.

Lemma length_spread (a : jsarray) : length (spread a) = length a.
Proof. unfold spread. by rewrite length_fmap. Qed.

Lemma array_get_set_other (a : jsarray) i j v :
  j ≠ i → array_get (array_set a i v) j = array_get a j.
Proof.
  intros Hj. unfold array_get, array_set. case_decide as Hi.
  - by rewrite list_lookup_insert_ne.
  - destruct (decide (j < length a)) as [Hlt|Hge].
    + by rewrite lookup_app_l.
    + rewrite lookup_app_r by lia.
      rewrite (lookup_ge_None_2 a j) by lia.
      destruct (decide (j - length a < i - length a)) as [Hin|Hout].
      * rewrite lookup_app_l by (rewrite length_replicate; lia).
        by rewrite lookup_replicate_2.
      * rewrite lookup_app_r by (rewrite length_replicate; lia).
        rewrite length_replicate.
        destruct (j - length a - (i - length a)) as [|k] eqn:E; [lia | done].
Qed.

Lemma length_array_set (a : jsarray) i v :
  length (array_set a i v) = max (length a) (S i).
Proof.
  unfold array_set. case_decide.
  - rewrite length_insert. lia.
  - rewrite !length_app, length_replicate. cbn. lia.
Qed.

Lemma spread_no_hole (a : jsarray) : Forall is_Some (spread a).
Proof. unfold spread. apply Forall_fmap, Forall_true. intros o. by eexists. Qed.

Lemma array_set_no_hole (a : jsarray) i v :
  (i < length a)%nat → Forall is_Some a → Forall is_Some (array_set a i v).
Proof.
  intros Hi Ha. unfold array_set. rewrite decide_True by done.
  apply Forall_insert; [done | by eexists].
Qed.

Lemma array_set_holes (a : jsarray) i j v :
  (length a ≤ j < i)%nat → array_set a i v !! j = Some None.
Proof.
  intros Hj. unfold array_set. rewrite decide_False by lia.
  rewrite lookup_app_r by lia.
  rewrite lookup_app_l by (rewrite length_replicate; lia).
  apply lookup_replicate_2. lia.
Qed.

(** X2: typing in row [i] never touches another row, and no other part of
    the form but the scores and the modal; when row [i] exists the number
    of rows stays, and a value that is taken leaves an array without
    holes; a value taken for a row beyond the end lengthens the array to
    that row, the rows in between being holes. *)
Theorem handleScoreChange_frame (st : State) (i : nat) (v : string) :
  let st' := handleScoreChange st i v in
  (∀ j, j ≠ i → array_get (scores st') j = array_get (scores st) j)
  ∧ ((i < length (scores st))%nat → length (scores st') = length (scores st))
  ∧ (accepted v → (i < length (scores st))%nat → Forall is_Some (scores st'))
  ∧ (accepted v → (length (scores st) ≤ i)%nat →
       length (scores st') = S i
       ∧ ∀ j, (length (scores st) ≤ j < i)%nat → scores st' !! j = Some None)
  ∧ comments st' = comments st
  ∧ employeeId st' = employeeId st
  ∧ employeeName st' = employeeName st
  ∧ evaluationId st' = evaluationId st
  ∧ selectedWeek st' = selectedWeek st.
Proof.
  cbn zeta.
  destruct (ScoreEntry.accepted_or_refused v) as [Ha|Hr].
  - rewrite (ScoreEntry.handleScoreChange_commits st i v Ha). cbn [scores setScores].
    split; [|split; [|split; [|split]]]; [| | | |done].
    + intros j Hj. by rewrite array_get_set_other, array_get_spread.
    + intros Hi. rewrite length_array_set, length_spread. lia.
    + intros _ Hi. apply array_set_no_hole; [by rewrite length_spread|].
      apply spread_no_hole.
    + intros _ Hi. split.
      * rewrite length_array_set, length_spread. lia.
      * intros j Hj. apply array_set_holes. by rewrite length_spread.
  - destruct (ScoreEntry.handleScoreChange_refuses st i v Hr) as [msg ->].
    cbn [scores setValidationModal].
    split; [done|]. split; [done|].
    split; [intros Ha; by destruct (ScoreEntry.accepted_not_refused v)|].
    split; [intros Ha; by destruct (ScoreEntry.accepted_not_refused v)|]. done.
Qed.

Lemma handleScoreChange_frame_witness :
  array_get (scores (handleScoreChange blank_form 1 "42")) 2 = JStr ""
  ∧ length (scores (handleScoreChange blank_form 1 "42")) = 3
  ∧ scores (handleScoreChange unsized 2 "5") !! 1 = Some None.
Proof.
  split; [|split].
  - rewrite (proj1 (handleScoreChange_frame blank_form 1 "42") 2); [reflexivity | lia].
  - apply (handleScoreChange_frame blank_form 1 "42"). cbn. lia.
  - apply (handleScoreChange_frame unsized 2 "5").
    + right; right. vm_compute. split; intro; discriminate.
    + cbn. lia.
    + cbn. lia.
Defined.

End ScoreRows.
(** ** Normal forms of numbers *)

Module NormalForms.
Import JS Notions Terms.

#[local] Open Scope Z_scope.

Lemma to_Q_sign d : (0 <= to_Q d)%Q ↔ 0 <= dmant d.
Proof.
  destruct d as [m e]. unfold to_Q. cbn [dmant dexp].
  destruct (Z.leb_spec 0 e) as [He|He].
  - assert (0 < 10 ^ e) by (apply Z.pow_pos_nonneg; lia).
    unfold Qle. cbn. nia.
  - unfold Qle. cbn. lia.
Qed.

Lemma to_Q_zero d : (to_Q d == 0)%Q ↔ dmant d = 0.
Proof.
  destruct d as [m e]. unfold to_Q. cbn [dmant dexp].
  destruct (Z.leb_spec 0 e) as [He|He].
  - assert (0 < 10 ^ e) by (apply Z.pow_pos_nonneg; lia).
    unfold Qeq. cbn. nia.
  - unfold Qeq. cbn. lia.
Qed.

Lemma norm_normal m e : 0 <= m → normal (norm m e).
Proof.
  intros Hm. destruct (decide (m = 0)) as [->|Hne].
  - left. done.
  - right. destruct (DigitFacts.norm_positive m e) as (H1 & H2 & _); [lia|]. done.
Qed.

Lemma normal_unique a b : normal a → normal b → (to_Q a == to_Q b)%Q → a = b.
Proof.
  intros Ha Hb Hq.
  destruct Ha as [[Ha1 Ha2]|[Ha1 Ha2]].
  { assert (dmant b = 0) as Hb0.
    { apply to_Q_zero. rewrite <- Hq. by apply to_Q_zero. }
    destruct Hb as [[_ Hb2]|[Hb1 _]]; [|lia].
    destruct a, b. cbn in *. congruence. }
  destruct Hb as [[Hb1 Hb2]|[Hb1 Hb2]].
  { assert (dmant a = 0) as Ha0; [|lia].
    apply to_Q_zero. rewrite Hq. by apply to_Q_zero. }
  set (k := Z.min (Z.min (dexp a) (dexp b)) 0).
  rewrite (ArithFacts.to_Q_scaled a k), (ArithFacts.to_Q_scaled b k) in Hq by lia.
  unfold Qeq in Hq. cbn [Qnum Qden] in Hq.
  assert (0 < 10 ^ (- k)) as Hp by (apply Z.pow_pos_nonneg; lia).
  rewrite Z2Pos.id in Hq by done.
  apply Z.mul_cancel_r in Hq; [|lia].
  destruct a as [ma ea], b as [mb eb]. cbn [dmant dexp] in *.
  assert (∀ m m' e e', e < e' → m mod 10 ≠ 0 → k <= e →
            m * 10 ^ (e - k) = m' * 10 ^ (e' - k) → False) as Hlt.
  { intros m m' e e' He Hm Hk H.
    replace (e' - k) with (Z.succ (e' - e - 1) + (e - k)) in H by lia.
    rewrite Z.pow_add_r, Z.pow_succ_r in H by lia.
    assert (0 < 10 ^ (e - k)) by (apply Z.pow_pos_nonneg; lia).
    assert (m = 10 * (m' * 10 ^ (e' - e - 1))) as Hm' by nia.
    apply Hm. rewrite Hm'. rewrite Z.mul_comm. apply Z.mod_mul. lia. }
  destruct (Z.lt_trichotomy ea eb) as [H|[H|H]].
  - destruct (Hlt ma mb ea eb); [done | done | lia | done].
  - subst eb. f_equal.
    assert (0 < 10 ^ (ea - k)) by (apply Z.pow_pos_nonneg; lia). nia.
  - destruct (Hlt mb ma eb ea); [done | done | lia | done].
Qed.

Lemma add_normal x y s :
  add (Fin x) (Fin y) = Fin s → 0 <= dmant x → 0 <= dmant y → normal s.
Proof.
  intros [= <-] Hx Hy. apply norm_normal.
  assert (0 <= 10 ^ (dexp x - Z.min (dexp x) (dexp y))) by (apply Z.pow_nonneg; lia).
  assert (0 <= 10 ^ (dexp y - Z.min (dexp x) (dexp y))) by (apply Z.pow_nonneg; lia).
  nia.
Qed.

Lemma normal_sign d : normal d → 0 <= dmant d.
Proof. intros [[? ?]|[? ?]]; lia. Qed.

(** A running sum of terms from 0 on stays in normal form. *)
Lemma running_sum_normal (g : jsval → jsnum) (l : list jsval) (a : dec) :
  normal a →
  (∀ s, In s l → ∃ d, g s = Fin d ∧ 0 <= dmant d) →
  ∃ t, fold_left (fun sum val => add sum (g val)) l (Fin a) = Fin t ∧ normal t.
Proof.
  revert a. induction l as [|s l IH]; intros a Ha Hl; [by exists a|].
  cbn [fold_left].
  destruct (Hl s (or_introl eq_refl)) as (d & Hg & Hd). rewrite Hg.
  destruct (add (Fin a) (Fin d)) as [| |a'] eqn:Ea; [done | done |].
  apply (IH a').
  - apply (add_normal a d a' Ea); [by apply normal_sign | done].
  - intros s' Hs'. apply Hl. by right.
Qed.

End NormalForms.

(** ** The total of the scores *)

Module Totals.
Import JS PerformanceMetrics EvaluationForm Notions Terms FormSamples.

Lemma guarded_scores st env :
  allFilled st env = true → invalid st = false →
  length (scores st) = length (measurements env)
  ∧ ∀ s, In s (present (scores st)) → filled s ∧ between_0_100 (ToNumber s).
Proof.
  intros Hf Hi. apply andb_true_iff in Hf as [Hlen Hevery].
  apply bool_decide_eq_true in Hlen. split; [done|].
  rewrite Submission.every_spec in Hevery.
  unfold invalid in Hi. rewrite Submission.some_false in Hi.
  intros s Hs. split; [by apply Submission.filled_test, Hevery|].
  apply NumberFacts.in_range_tests.
  specialize (Hi s Hs). apply orb_false_iff in Hi as [Hi ?].
  apply orb_false_iff in Hi as [? ?]. done.
Qed.

(** X3: when the guards of [handleSubmit] on the scores pass, the total
    the form displays is the [total_score] it submits, and it lies between
    0 and [maxPossibleScore]. *)
Theorem total_shown_is_total_sent (st : State) (env : Env) :
  allFilled st env = true → invalid st = false →
  totalScore (scores st) = payload_total (scores st)
  ∧ is_nan (totalScore (scores st)) = false
  ∧ ltb (totalScore (scores st)) (of_Z 0) = false
  ∧ gtb (totalScore (scores st)) (maxPossibleScore env) = false.
Proof.
  intros Hf Hi. destruct (guarded_scores st env Hf Hi) as [Hlen Hs].
  assert (∀ s, In s (present (scores st)) → between_0_100 (ToNumber s)) as Hrange
    by (intros s H; by apply Hs).
  destruct (Submission.totalScore_is_sum (scores st) Hs) as (t & Ht & Hqt).
  destruct (Submission.running_total (present (scores st)) (norm 0 0) Hrange)
    as (u & Hu & Hqu).
  change (payload_total (scores st) = Fin u) in Hu.
  assert (normal t) as Hnt.
  { unfold totalScore in Ht. rewrite Submission.filter_all in Ht.
    - destruct (NormalForms.running_sum_normal ToNumber (present (scores st)) (norm 0 0))
        as (t' & Ht' & Hn); [by left | |].
      + intros s H. specialize (Hrange s H).
        destruct (ToNumber s) as [| |d]; [done | done |].
        exists d. split; [done|]. apply NormalForms.to_Q_sign, Hrange.
      + pose proof (eq_trans (eq_sym Ht') Ht) as [= <-]. done.
    - intros s H. destruct (Hs s H) as [[Hne _] _].
      destruct s as [| | | | x | |]; try done.
      apply negb_true_iff, bool_decide_eq_false. congruence. }
  assert (normal u) as Hnu.
  { unfold payload_total, reduce in Hu.
    destruct (NormalForms.running_sum_normal
                (fun val => let n := ToNumber val in
                            if truthy (JNum n) then n else of_Z 0)
                (present (scores st)) (norm 0 0)) as (u' & Hu' & Hn); [by left | |].
    + intros s H. specialize (Hrange s H). cbn zeta.
      destruct (ToNumber s) as [| |d]; [done | done |].
      destruct (truthy (JNum (Fin d))).
      * exists d. split; [done|]. apply NormalForms.to_Q_sign, Hrange.
      * exists (norm 0 0). done.
    + pose proof (eq_trans (eq_sym Hu') Hu) as [= <-]. done. }
  assert (t = u) as <-.
  { apply NormalForms.normal_unique; [done | done |].
    rewrite Hqt, Hqu. change (to_Q (norm 0 0)) with 0%Q. ring. }
  rewrite Ht, Hu. split; [done|]. split; [done|].
  destruct (Submission.sum_of_scores_bounds (present (scores st)) Hrange) as [H0 H1].
  split.
  - change (Qlt_bool (to_Q t) 0 = false). apply NumberFacts.Qlt_bool_false.
    by rewrite Hqt.
  - unfold maxPossibleScore, gtb.
    destruct (mul (of_nat (length (measurements env))) (of_Z 100)) as [| |m] eqn:Em;
      [done | done |].
    change (Qlt_bool (to_Q m) (to_Q t) = false). apply NumberFacts.Qlt_bool_false.
    rewrite (ArithFacts.to_Q_mul _ _ m Em), ArithFacts.to_Q_norm, Hqt.
    change (to_Q (norm 100 0)) with 100%Q.
    eapply Qle_trans; [apply H1|].
    rewrite Qmult_comm. apply Qmult_le_compat_r; [|done].
    unfold to_Q. cbn [dmant dexp]. rewrite Z.pow_0_r, Z.mul_1_r.
    change (0 <=? 0)%Z with true. cbn iota.
    rewrite <- Zle_Qle, <- Hlen.
    pose proof (Submission.present_length (scores st)). lia.
Qed.

Lemma total_shown_witness :
  totalScore (scores all_rows) = payload_total (scores all_rows)
  ∧ is_nan (totalScore (scores all_rows)) = false
  ∧ ltb (totalScore (scores all_rows)) (of_Z 0) = false
  ∧ gtb (totalScore (scores all_rows)) (maxPossibleScore manager_adding) = false.
Proof.
  apply (total_shown_is_total_sent all_rows manager_adding); reflexivity.
Defined.

End Totals.
(** * Further properties of the master-data context *)

Module MasterDataShape.
Import JS MasterDataContext Notions Terms MoreSamples.

Lemma to_masters_missing_item data x :
  In x (listed data) → is_nullish x = true → to_masters data = None.
Proof.
  intros Hin Hx.
  assert (∀ items, In x items → mapM to_master items = None) as Hmap.
  { intros items Hi. destruct (mapM to_master items) as [l|] eqn:E; [|done].
    assert (is_Some (mapM to_master items)) as Hs by (by eexists).
    apply mapM_is_Some in Hs. rewrite Forall_forall in Hs.
    apply list_elem_of_In in Hi. destruct (Hs x Hi) as [m Hm].
    unfold to_master, get in Hm. rewrite Hx in Hm. done. }
  unfold to_masters. destruct data as [| | | | |items|props]; try done.
  - change (opt_get (JArr items) "results") with JUndefined. cbn. by apply Hmap.
  - cbn [listed] in Hin. cbn [opt_get is_nullish get_prop].
    destruct (assoc "results" props) as [[| | | | |items|]|]; try done.
    cbn. by apply Hmap.
Qed.

Lemma all_fulfilled_length l rs : all_fulfilled l = Some rs → length rs = length l.
Proof. intros H. symmetry. by apply (length_mapM _ _ _ H). Qed.

Lemma fill_dom tys rs acc m :
  length tys = length rs → fill tys rs acc = Some m →
  dom m = list_to_set tys ∪ dom acc.
Proof.
  revert rs acc. induction tys as [|ty tys IH]; intros rs acc Hlen H.
  - destruct rs; [|done]. cbn in H. injection H as <-. cbn.
    by rewrite (left_id_L ∅ (∪)).
  - destruct rs as [|r rs]; [done|]. cbn [fill] in H.
    destruct (to_masters r) as [l|]; [|done]. cbn in H.
    rewrite (IH rs _ ltac:(cbn in Hlen; lia) H), dom_insert_L. cbn.
    rewrite (assoc_L (∪)), (comm_L (∪) (list_to_set tys) {[ty]}). done.
Qed.

(** X4: a null or undefined item in any of the four lists makes the whole
    load fail: the error is logged, nothing is committed, and the masters
    and the loaded-once flag keep their values. *)
Theorem loadMasters_rejects_missing_item
    (server : DropdownRequest → Settled) (st : ProviderState) (force : bool)
    (type : string) (data x : jsval) :
  loadedOnce st = false ∨ force = true →
  In type types → server (dropdown type) = Fulfilled data →
  In x (listed data) → is_nullish x = true →
  let run := loadMasters server st force in
  commits_of run.1 = [] ∧ In ConsoleError run.1
  ∧ masters run.2 = masters st ∧ loadedOnce run.2 = loadedOnce st.
Proof.
  intros Hrun Hin Hdata Hx Hnull. cbn zeta.
  rewrite (MasterDataFacts.loadMasters_runs server st force Hrun).
  assert ((responses ← all_fulfilled (server <$> (dropdown <$> types));
           fill types responses ∅) = None) as ->; [|cbn; tauto].
  pose proof (to_masters_missing_item data x Hx Hnull) as Hnone.
  unfold types, all_fulfilled in *. cbn.
  destruct Hin as [<-|[<-|[<-|[<-|[]]]]]; rewrite Hdata; cbn;
    repeat (destruct (server (dropdown _)); cbn; try done);
    rewrite ?Hnone; cbn; try done;
    repeat (destruct (to_masters _); cbn; try done; rewrite ?Hnone; cbn; try done).
Qed.

Lemma loadMasters_missing_item_witness :
  commits_of (loadMasters null_department initial false).1 = []
  ∧ In ConsoleError (loadMasters null_department initial false).1
  ∧ masters (loadMasters null_department initial false).2 = masters initial
  ∧ loadedOnce (loadMasters null_department initial false).2 = false.
Proof.
  apply (loadMasters_rejects_missing_item null_department initial false "DEPARTMENT"
           (JArr [JObj [("value", JNum (of_Z 3)); ("label", JStr "Design")]; JNull]) JNull);
    [by left | cbn; tauto | reflexivity | cbn; tauto | done].
Defined.

(** X5: whatever the server answers, a run of [loadMasters] leaves the
    masters with the four lists ROLE, DEPARTMENT, PROJECT and MEASUREMENT
    and no other when it had them before; it never unsets the loaded-once
    flag; and a run that issues requests sets the loading flag first and
    clears it last, on success and on failure alike. *)
Theorem loadMasters_keeps_shape
    (server : DropdownRequest → Settled) (st : ProviderState) (force : bool) :
  let run := loadMasters server st force in
  (dom (masters st) = list_to_set types → dom (masters run.2) = list_to_set types)
  ∧ (loadedOnce st = true → loadedOnce run.2 = true)
  ∧ (loadedOnce st = false ∨ force = true →
       head run.1 = Some (SetLoading true)
       ∧ last run.1 = Some (SetLoading false)
       ∧ loading run.2 = false).
Proof.
  cbn zeta. destruct (loadedOnce st && negb force) eqn:Eskip.
  - unfold loadMasters. rewrite Eskip. cbn. split; [done|]. split; [done|].
    intros [H | ->]; [|by rewrite andb_false_r in Eskip].
    rewrite H in Eskip. done.
  - assert (loadedOnce st = false ∨ force = true) as Hrun.
    { destruct (loadedOnce st); [|by left]. destruct force; [by right | done]. }
    rewrite (MasterDataFacts.loadMasters_runs server st force Hrun).
    destruct (all_fulfilled (server <$> (dropdown <$> types))) as [rs|] eqn:Ers;
      cbn [mbind option_bind]; [|cbn; tauto].
    destruct (fill types rs ∅) as [m|] eqn:Em; cbn; [|tauto].
    split; [|tauto]. intros _.
    rewrite (fill_dom types rs ∅ m); [by rewrite dom_empty_L, (right_id_L ∅ (∪)) | | done].
    rewrite (all_fulfilled_length _ _ Ers), !length_fmap. done.
Qed.

Lemma loadMasters_keeps_shape_witness :
  dom (masters (loadMasters ServerSamples.one_department initial false).2) = list_to_set types
  ∧ last (loadMasters null_department initial false).1 = Some (SetLoading false).
Proof.
  split.
  - apply (loadMasters_keeps_shape ServerSamples.one_department initial false). reflexivity.
  - apply (loadMasters_keeps_shape null_department initial false). by left.
Defined.

End MasterDataShape.
(** * Further properties of the routing *)

(** ** Sessions and guarded routes *)

Module Sessions.
Import JS Routes AppContent App Notions Terms MoreSamples.

Lemma segment_text token :
  ToString (or_else (default JUndefined (JStr <$> split token "." !! 1)) (JStr ""))
  = payload_segment token.
Proof.
  unfold payload_segment. destruct (split token ".") as [|a [|s l]]; try done.
  cbn. unfold or_else. cbn [truthy].
  destruct (decide (s = "")) as [->|Hs]; [done|].
  by rewrite (bool_decide_eq_false_2 _ Hs).
Qed.

Lemma ltb_expires (t : dec) (exp : jsnum) :
  ltb (Fin t) (mul exp (of_Z 1000)) = true ↔ expires_after exp t.
Proof.
  destruct exp as [|[]|x]; [done | done | done |].
  cbn [expires_after].
  destruct (mul (Fin x) (of_Z 1000)) as [| |e] eqn:Em; [done | done |].
  change (Qlt_bool (to_Q t) (to_Q e) = true ↔ (to_Q t < to_Q x * 1000)%Q).
  rewrite NumberFacts.Qlt_bool_iff.
  rewrite (ArithFacts.to_Q_mul x (norm 1000 0) e Em), ArithFacts.to_Q_1000.
  reflexivity.
Qed.

Section Decoders.

Variable atob : string → option string.
Variable JSON_parse : string → option jsval.

(** X6: [isTokenValid] accepts a session exactly when it holds a
    non-empty token whose payload segment decodes to a value with an [exp]
    that converts to a number of seconds lying strictly after now; a token
    without [exp], or with one that is no number, is never valid. *)
Theorem isTokenValid_needs_future_exp (ls : Storage.t) (t : dec) :
  isTokenValid atob JSON_parse ls (Fin t) = true
  ↔ ∃ token decoded payload exp,
      ls !! "access_token" = Some token ∧ token ≠ ""
      ∧ atob (payload_segment token) = Some decoded
      ∧ JSON_parse decoded = Some payload
      ∧ get payload "exp" = Some exp
      ∧ expires_after (ToNumber exp) t.
Proof.
  unfold isTokenValid, Storage.getItem.
  destruct (ls !! "access_token") as [token|] eqn:Et.
  2:{ split; [done | by intros (? & ? & ? & ? & ? & _)]. }
  cbn [truthy]. destruct (decide (token = "")) as [->|Hne].
  { split; [done | by intros (? & ? & ? & ? & [= <-] & ? & _)]. }
  rewrite (bool_decide_eq_false_2 _ Hne). cbn [negb].
  rewrite segment_text.
  destruct (atob (payload_segment token)) as [decoded|] eqn:Ea; cbn [mbind option_bind].
  2:{ split; [done|]. intros (? & ? & ? & ? & [= <-] & ? & ? & _). congruence. }
  destruct (JSON_parse decoded) as [payload|] eqn:Ej; cbn [mbind option_bind].
  2:{ split; [done|]. intros (? & ? & ? & ? & [= <-] & ? & ? & ? & _). congruence. }
  destruct (get payload "exp") as [exp|] eqn:Ee; cbn [mbind option_bind].
  2:{ split; [done|]. intros (? & ? & ? & ? & [= <-] & ? & ? & ? & ? & _). congruence. }
  rewrite ltb_expires. split.
  - intros H. by exists token, decoded, payload, exp.
  - intros (? & ? & ? & ? & [= <-] & _ & ? & ? & ? & H). congruence.
Qed.

(** X7: [ProtectedRoute] renders its children exactly for a session with
    a valid token whose stored role, lower-cased and trimmed, is not empty
    and among the allowed roles; every other session is sent to /login. It
    clears local storage exactly when the token is valid and no role is
    stored, or a blank one. A session it admits is one the root route
    sends to /dashboard. *)
Theorem ProtectedRoute_admits (allowedRoles : list string) (ls : Storage.t)
    (now : jsnum) :
  let r := ProtectedRoute atob JSON_parse (Some allowedRoles) ls now in
  (r.1 = Children
   ↔ isTokenValid atob JSON_parse ls now = true
     ∧ ∃ role, role_reads ls role ∧ role ≠ "" ∧ In role allowedRoles)
  ∧ (r.1 ≠ Children → r.1 = Redirect "/login")
  ∧ (isTokenValid atob JSON_parse ls now = true
     ∧ (∀ role, role_reads ls role → role = "") → r.2 = ∅)
  ∧ (isTokenValid atob JSON_parse ls now = false
     ∨ (∃ role, role_reads ls role ∧ role ≠ "") → r.2 = ls)
  ∧ (r.1 = Children → root_element atob JSON_parse ls now = Navigate "/dashboard").
Proof.
  cbn zeta.
  unfold ProtectedRoute, root_element, stored_role, role_reads, Storage.getItem.
  destruct (isTokenValid atob JSON_parse ls now); cbn [negb].
  2:{ cbn. split; [split; [done | by intros [? _]]|]. split; [done|].
      split; [by intros [? _] | done]. }
  destruct (ls !! "role") as [r|] eqn:Er.
  2:{ cbn. split; [split; [done | by intros (_ & ? & (? & ? & _) & _)]|].
      split; [done|]. split; [done|].
      split; [|done]. intros [?|(? & (? & ? & _) & _)]; done. }
  cbn [truthy]. destruct (decide (trim (toLowerCase r) = "")) as [Hb|Hb].
  { rewrite Hb. cbn [bool_decide decide_rel negb fst snd].
    change (bool_decide ("" = "")) with true. cbn [negb fst snd].
    split; [split; [done|]|].
    { intros (_ & role & (? & [= <-] & <-) & Hne & _). done. }
    split; [done|]. split; [done|]. split; [|done].
    intros [?|(role & (? & [= <-] & <-) & Hne)]; done. }
  rewrite (bool_decide_eq_false_2 _ Hb). cbn [negb].
  assert (includes_role allowedRoles (JStr (trim (toLowerCase r))) = true
          ↔ In (trim (toLowerCase r)) allowedRoles) as Hin.
  { unfold includes_role. rewrite existsb_exists. split.
    - intros (x & Hx & Heq). cbn in Heq. apply bool_decide_eq_true in Heq. by subst.
    - intros H. exists (trim (toLowerCase r)). split; [done|]. cbn.
      by apply bool_decide_eq_true. }
  assert (r ≠ "") as Hr by (intros ->; by apply Hb).
  rewrite (bool_decide_eq_false_2 _ Hr). cbn [negb andb].
  destruct (includes_role allowedRoles (JStr (trim (toLowerCase r)))); cbn [negb fst snd].
  - split; [split; [|done]|].
    { intros _. split; [done|]. exists (trim (toLowerCase r)).
      split; [by exists r|]. split; [done | by apply Hin]. }
    split; [done|]. split; [|done].
    intros [_ H]. destruct Hb. apply H. by exists r.
  - split; [split; [done|]|].
    { intros (_ & role & (? & [= <-] & <-) & _ & Hr'). apply Hin in Hr'. done. }
    split; [done|]. split; [|split; [done|done]].
    intros [_ H]. destruct Hb. apply H. by exists r.
Qed.

(** X8: a session the protected routes accept is kept by the index route
    of [AppContent]: with the same clock it navigates by role and leaves
    local storage as it is. The empty string is taken to decode to nothing
    that parses, as it does. *)
Theorem valid_session_survives_index (ls : Storage.t) (now : jsnum) :
  (∀ d, atob "" = Some d → JSON_parse d = None) →
  isTokenValid atob JSON_parse ls now = true →
  index_element atob JSON_parse ls now
  = (Navigate (getDefaultRoute (Storage.getItem ls "role")), ls).
Proof.
  intros Hempty. unfold isTokenValid, index_element, token_expiry.
  destruct (Storage.getItem ls "access_token") as [| | | |token| |]; try done.
  destruct (negb (truthy (JStr token))); [done|].
  destruct (split token "." !! 1) as [s|] eqn:Es; cbn [fmap option_fmap option_map default]; unfold id.
  - assert (ToString (or_else (JStr s) (JStr "")) = s) as ->.
    { unfold or_else. cbn [truthy ToString].
      destruct (decide (s = "")) as [->|Hs]; [done|].
      by rewrite (bool_decide_eq_false_2 _ Hs). }
    cbn [ToString].
    destruct (atob s ≫= _) as [e|]; [|done].
    intros Hlt. unfold geb.
    destruct now as [|n|t], e as [|m|e]; try done; by rewrite Hlt.
  - cbn [or_else truthy ToString]. cbn.
    destruct (atob "") as [d|] eqn:Ea; [|done]. cbn.
    by rewrite (Hempty d eq_refl).
Qed.

End Decoders.

Lemma isTokenValid_witness :
  isTokenValid atob_exp JSON_parse_exp exp_session (Fin (Dec 1767225600000 0)) = true.
Proof.
  apply (isTokenValid_needs_future_exp atob_exp JSON_parse_exp exp_session).
  exists "h.eyJleHAiOjIwMDAwMDAwMDB9.s", exp_text,
    (JObj [("exp", JNum (of_Z 2000000000))]), (JNum (of_Z 2000000000)).
  repeat split; reflexivity || done.
Defined.

Lemma ProtectedRoute_witness :
  (ProtectedRoute atob_exp JSON_parse_exp (Some ["admin"; "manager"; "employee"])
     exp_session (of_Z 1767225600000)).1 = Children.
Proof.
  apply (ProtectedRoute_admits atob_exp JSON_parse_exp ["admin"; "manager"; "employee"]
           exp_session (of_Z 1767225600000)).
  split; [reflexivity|]. exists "manager". split; [by exists " Manager "|].
  split; [done | cbn; tauto].
Defined.

Lemma valid_session_witness :
  index_element atob_exp JSON_parse_exp exp_session (of_Z 1767225600000)
  = (Navigate "/dashboard", exp_session).
Proof.
  apply (valid_session_survives_index atob_exp JSON_parse_exp exp_session
           (of_Z 1767225600000)); [|reflexivity].
  intros d H. discriminate H.
Defined.

End Sessions.
(** ** Rows kept by the handlers *)

Module FormRows.
Import JS ES PerformanceMetrics EvaluationForm Notions Terms FormSamples.

Lemma one_per_row_blank n : one_per_row (blank n) n.
Proof.
  split; [apply length_replicate|]. apply Forall_replicate. by eexists.
Qed.






Section Parser.

Variable JSON_parse : string → option jsval.


(** X10: after Cancel a submit is refused as long as there is a
    measurement: for a chosen employee with the message that asks to fill
    all metrics. With no measurement at all nothing is left to fill in,
    and the submit of an admin or manager sends an evaluation without
    metrics whose total is 0. *)
Theorem cancel_then_submit (st : State) (env : Env) :
  let st' := handleCancel st env in
  (measurements env ≠ [] →
     (∃ modal, handleSubmit JSON_parse st' env = Rejected modal ∧ show modal = true)
     ∧ (employeeId st ≠ "" → employeeName st ≠ "" →
          handleSubmit JSON_parse st' env
          = Rejected (warn "Please fill all performance metrics before submitting.")))
  ∧ (measurements env = [] →
     employeeId st ≠ "" → employeeName st ≠ "" → selectedWeek st ≠ "" →
     getUserRole JSON_parse env = Some "admin"
     ∨ getUserRole JSON_parse env = Some "manager" →
     ∃ req, handleSubmit JSON_parse st' env = Sent req
            ∧ metrics (body_of req) = ∅
            ∧ total_score (body_of req) = of_Z 0).
Proof.
  cbn zeta. split.
  - intros Hm.
    assert (allFilled (handleCancel st env) env = false) as Hfill.
    { unfold allFilled, handleCancel. cbn [scores setComments setScores].
      destruct (measurements env) as [|m l]; [done|].
      cbn. by rewrite andb_false_r. }
    unfold handleSubmit.
    change (employeeId (handleCancel st env)) with (employeeId st).
    change (employeeName (handleCancel st env)) with (employeeName st).
    rewrite Hfill. cbn [truthy negb]. split.
    + destruct (bool_decide (employeeId st = "")); cbn [negb]; [by eexists|].
      destruct (bool_decide (employeeName st = "")); cbn [negb]; by eexists.
    + intros Hid Hname. by rewrite !bool_decide_eq_false_2 by done.
  - intros Hm Hid Hname Hweek Hrole.
    unfold handleSubmit.
    change (employeeId (handleCancel st env)) with (employeeId st).
    change (employeeName (handleCancel st env)) with (employeeName st).
    change (selectedWeek (handleCancel st env)) with (selectedWeek st).
    change (evaluationId (handleCancel st env)) with (evaluationId st).
    cbn [truthy]. rewrite !bool_decide_eq_false_2 by done. cbn [negb].
    assert (scores (handleCancel st env) = []) as Hsc.
    { unfold handleCancel. cbn. by rewrite Hm. }
    unfold allFilled, invalid, payload_total, build_metrics. rewrite Hsc, Hm. cbn.
    change (bool_decide (0 = 0)) with true. cbn [andb negb].
    destruct Hrole as [-> | ->].
    + change (bool_decide ("admin" = "admin") || bool_decide ("admin" = "manager"))
        with true.
      cbn [negb]. destruct (_ && _); eexists; split; done.
    + change (bool_decide ("manager" = "admin") || bool_decide ("manager" = "manager"))
        with true.
      cbn [negb]. destruct (_ && _); eexists; split; done.
Qed.

End Parser.


Lemma cancel_then_submit_witness :
  handleSubmit JSON_parse_null (handleCancel all_rows manager_adding) manager_adding
  = Rejected (warn "Please fill all performance metrics before submitting.").
Proof.
  apply (cancel_then_submit JSON_parse_null all_rows manager_adding); done.
Defined.

End FormRows.
(** ** Loading an evaluation *)

Module EvaluationLoad.
Import JS ES PerformanceMetrics EvaluationForm Notions Terms FormSamples MoreSamples.

#[local] Arguments String.append !_ _ / : simpl nomatch.

(** What [build_metrics] does for one more measurement. *)
Lemma build_metrics_snoc names name scores comments :
  build_metrics (names ++ [name]) scores comments
  = <[(metric_key name ++ "_comment") :=
        or_else (array_get comments (length names)) (JStr "")]>
      (<[metric_key name := JNum (ToNumber (array_get scores (length names)))]>
         (build_metrics names scores comments)).
Proof.
  unfold build_metrics. rewrite imap_app, fold_left_app. cbn.
  by rewrite Nat.add_0_r.
Qed.

Lemma metric_keys_snoc names name :
  NoDup (metric_keys (names ++ [name])) →
  NoDup (metric_keys names)
  ∧ (metric_key name ∉ metric_keys names)
  ∧ ((metric_key name ++ "_comment") ∉ metric_keys names)
  ∧ metric_key name ≠ (metric_key name ++ "_comment").
Proof.
  unfold metric_keys. rewrite !fmap_app. cbn [fmap list_fmap].
  rewrite <- (assoc_L (++)). intros H.
  apply NoDup_app in H as (H1 & H2 & H3).
  apply NoDup_app in H3 as (H3 & H4 & H5).
  apply NoDup_app in H5 as (H5 & H6 & _).
  split; [|split; [|split]].
  - apply NoDup_app. split; [done|]. split; [|done].
    intros k Hk Hk'. apply (H2 k Hk). set_unfold. tauto.
  - intros Hin. apply elem_of_app in Hin as [Hin|Hin].
    + apply (H2 _ Hin). set_unfold. tauto.
    + apply (H4 (metric_key name)); [set_unfold; tauto|]. set_unfold. tauto.
  - intros Hin. apply elem_of_app in Hin as [Hin|Hin].
    + apply (H2 _ Hin). set_unfold. tauto.
    + apply (H6 _ Hin). set_unfold. tauto.
  - intros Heq. apply (H4 (metric_key name)); [set_unfold; tauto|].
    rewrite Heq at 1. set_unfold. tauto.
Qed.

(** Under keys that are all different, each measurement finds its own
    score and comment in the metrics. *)
Lemma build_metrics_lookup names scores comments i name :
  NoDup (metric_keys names) → names !! i = Some name →
  build_metrics names scores comments !! metric_key name
  = Some (JNum (ToNumber (array_get scores i)))
  ∧ build_metrics names scores comments !! (metric_key name ++ "_comment")
    = Some (or_else (array_get comments i) (JStr "")).
Proof.
  revert i name. induction names as [|x names IH] using rev_ind; intros i name Hk Hi.
  - done.
  - apply metric_keys_snoc in Hk as (Hk & Hx & Hcx & Hne).
    rewrite build_metrics_snoc.
    destruct (decide (i < length names)) as [Hlt|Hge].
    + rewrite lookup_app_l in Hi by done.
      assert (metric_key name ∈ metric_keys names) as H1.
      { unfold metric_keys. apply elem_of_app. left.
        apply list_elem_of_fmap. exists name. split; [done|].
        by eapply list_elem_of_lookup_2. }
      assert (metric_key name ++ "_comment" ∈ metric_keys names) as H2.
      { unfold metric_keys. apply elem_of_app. right.
        apply (list_elem_of_fmap_2 (fun n => metric_key n ++ "_comment")).
        by eapply list_elem_of_lookup_2. }
      rewrite !lookup_insert_ne by congruence.
      by apply IH.
    + rewrite lookup_app_r in Hi by lia.
      destruct (i - length names) as [|k] eqn:E; [|by destruct k].
      injection Hi as <-. assert (i = length names) as -> by lia.
      rewrite lookup_insert_ne by congruence.
      by rewrite !lookup_insert_eq.
Qed.

(** X11: what [handleSubmit] stores, [loadEmployeeEvaluation] finds: when
    the keys of the measurements and of their comments are all different
    and the response carries the metrics as they were sent, each row reads
    back the number of its score and its comment, in the order of the
    measurements. *)
Theorem submitted_metrics_load_back
    (names : list string) (scores comments : jsarray) (props : list (string * jsval)) :
  NoDup (metric_keys names) →
  echoes props (build_metrics names scores comments) →
  loaded_scores names (JObj props)
  = (fun i => Some (JNum (ToNumber (array_get scores i)))) <$> seq 0 (length names)
  ∧ loaded_comments names (JObj props)
    = (fun i => Some (or_else (array_get comments i) (JStr ""))) <$> seq 0 (length names).
Proof.
  intros Hk He. unfold loaded_scores, loaded_comments, metric_entry.
  split; apply list_eq; intros i; rewrite !list_lookup_fmap;
    destruct (names !! i) as [name|] eqn:Hi; cbn.
  - rewrite lookup_seq_lt by (by eapply lookup_lt_Some). cbn. f_equal.
    destruct (build_metrics_lookup names scores comments i name Hk Hi) as [H _].
    rewrite (He (metric_key name)), H. reflexivity.
  - rewrite lookup_seq_ge; [done|]. by apply lookup_ge_None.
  - rewrite lookup_seq_lt by (by eapply lookup_lt_Some). cbn. f_equal.
    destruct (build_metrics_lookup names scores comments i name Hk Hi) as [_ H].
    rewrite (He (metric_key name ++ "_comment")), H. cbn [default].
    generalize (array_get comments i). intros c. unfold or_else.
    destruct (truthy c) eqn:E; [by destruct c | done].
  - rewrite lookup_seq_ge; [done|]. by apply lookup_ge_None.
Qed.

Lemma one_per_row_loaded names metrics :
  one_per_row (loaded_scores names metrics) (length names)
  ∧ one_per_row (loaded_comments names metrics) (length names).
Proof.
  unfold loaded_scores, loaded_comments.
  split; (split; [apply length_fmap | apply Forall_fmap, Forall_true; by eexists]).
Qed.

Lemma resolveDepartment_defined masters data :
  is_nullish data = false → is_Some (resolveDepartment masters data).
Proof.
  intros Hd. unfold resolveDepartment.
  assert (is_nullish (if is_undefined data then JObj [] else data) = false) as Hd'
    by (by destruct data).
  destruct (masters !! "DEPARTMENT") as [l|]; [|by eexists].
  unfold get. rewrite Hd'. cbn [mbind option_bind].
  induction l as [|d l IH]; cbn; [by eexists|].
  destruct (strict_eq _ _); cbn; [by eexists|].
  destruct (strict_eq _ _); cbn; [by eexists | done].
Qed.

Lemma truthy_not_nullish v : truthy v = true → is_nullish v = false.
Proof. by destruct v. Qed.

Lemma evaluation_employee_defined masters evalData :
  truthy evalData = true → is_Some (evaluation_employee masters evalData).
Proof.
  intros He. unfold evaluation_employee.
  destruct (resolveDepartment_defined masters
              (or_else (get_prop evalData "employee") evalData)) as [d ->].
  - apply truthy_not_nullish. unfold or_else. by destruct (truthy (get_prop _ _)) eqn:E.
  - by eexists.
Qed.

(** X12: whatever the server answers, [loadEmployeeEvaluation] issues at
    most one request; every array of scores or comments it sets has one
    entry per measurement and no hole; once it has set the page-loading
    flag it clears it last. A request that fails, or a response without an
    evaluation, shows a modal and leaves blank rows; a response with an
    evaluation sets its id and the employee data and shows no modal. *)
Theorem loadEmployeeEvaluation_outcomes
    (masters : gmap string (list MasterDataContext.Master))
    (employee mode : jsval) (selectedWeek : string) (names : list string)
    (server : string → MasterDataContext.Settled) :
  let effects :=
    loadEmployeeEvaluation masters employee mode selectedWeek names server in
  (length (evaluation_requests effects) ≤ 1)%nat
  ∧ (∀ a, In (SetScores a) effects ∨ In (SetComments a) effects →
          one_per_row a (length names))
  ∧ (effects ≠ [] →
       head effects = Some (SetLoadingPage true)
       ∧ last effects = Some (SetLoadingPage false))
  ∧ (∀ url, In (GetEvaluations url) effects →
       match server url with
       | MasterDataContext.Failed _ =>
           modals_shown effects = [warn "Failed to load evaluation data."]
           ∧ In (SetScores (blank (length names))) effects
           ∧ ∀ v, ¬ In (SetEvaluationId v) effects
       | MasterDataContext.Fulfilled data =>
           if truthy (evaluation_of data)
           then modals_shown effects = []
                ∧ In (SetEvaluationId (get_prop (evaluation_of data) "id")) effects
                ∧ ∃ d, In (SetEmployeeData d) effects
           else (∃ m, modals_shown effects = [m] ∧ show m = true)
                ∧ In (SetScores (blank (length names))) effects
                ∧ ∀ v, ¬ In (SetEvaluationId v) effects
       end).
Proof.
  cbn zeta. unfold loadEmployeeEvaluation.
  destruct (negb (truthy employee)); [cbn; intuition (done || lia)|].
  destruct (negb (is_str mode "edit") && negb (is_str mode "view"));
    [cbn; intuition (done || lia)|].
  destruct (negb (truthy (JStr selectedWeek))); [cbn; intuition (done || lia)|].
  set (w := parseWeek selectedWeek).
  destruct (negb (truthy (year w)) || negb (truthy (week w))).
  { cbn. split; [lia|]. split; [intros a [H|H]; intuition congruence|].
    split; [done|]. intros url H. intuition congruence. }
  set (url := _ ++ _ ++ _ ++ _ ++ _ ++ _). clearbody url.
  pose proof (FormRows.one_per_row_blank (length names)) as Hb.
  destruct (one_per_row_loaded names
              (or_else (get_prop (evaluation_of
                 match server url with
                 | MasterDataContext.Fulfilled d => d
                 | MasterDataContext.Failed _ => JNull
                 end) "metrics") (JObj []))) as [Hls Hlc].
  destruct (server url) as [data|err] eqn:Es.
  - destruct (truthy (evaluation_of data)) eqn:Ev; cbn [negb].
    + destruct (evaluation_employee_defined masters _ Ev) as [d Hd]. rewrite Hd.
      cbn. split; [lia|]. split.
      { intros a [H|H]; repeat (destruct H as [H|H]; try discriminate H);
          try done; by injection H as <-. }
      split; [done|]. intros u Hu.
      destruct Hu as [Hu|Hu]; [discriminate Hu|].
      destruct Hu as [[= <-]|Hu].
      2:{ repeat (destruct Hu as [Hu|Hu]; try discriminate Hu). done. }
      rewrite Es, Ev. split; [done|]. split; [tauto|]. exists d. tauto.
    + cbn. split; [lia|]. split.
      { intros a [H|H]; repeat (destruct H as [H|H]; try discriminate H);
          try done; by injection H as <-. }
      split; [done|]. intros u Hu.
      destruct Hu as [Hu|Hu]; [discriminate Hu|].
      destruct Hu as [[= <-]|Hu].
      2:{ repeat (destruct Hu as [Hu|Hu]; try discriminate Hu). done. }
      rewrite Es, Ev. split; [by eexists|]. split; [tauto|].
      intros v Hv. repeat (destruct Hv as [Hv|Hv]; try discriminate Hv). done.
  - cbn. split; [lia|]. split.
    { intros a [H|H]; repeat (destruct H as [H|H]; try discriminate H);
        try done; by injection H as <-. }
    split; [done|]. intros u Hu.
    destruct Hu as [Hu|Hu]; [discriminate Hu|].
    destruct Hu as [[= <-]|Hu].
    2:{ repeat (destruct Hu as [Hu|Hu]; try discriminate Hu). done. }
    rewrite Es. split; [done|]. split; [tauto|].
    intros v Hv. repeat (destruct Hv as [Hv|Hv]; try discriminate Hv). done.
Qed.

Lemma submitted_metrics_witness :
  loaded_scores ["Quality"; "Teamwork"; "Delivery"]
    (JObj [("quality", JNum (of_Z 80)); ("quality_comment", JStr "");
           ("teamwork", JNum (StringToNumber "7.5")); ("teamwork_comment", JStr "");
           ("delivery", JNum (of_Z 100)); ("delivery_comment", JStr "")])
  = [Some (JNum (of_Z 80)); Some (JNum (StringToNumber "7.5")); Some (JNum (of_Z 100))].
Proof.
  apply (submitted_metrics_load_back ["Quality"; "Teamwork"; "Delivery"]
           (scores all_rows) (comments all_rows)).
  - change (NoDup ["quality"; "teamwork"; "delivery";
                   "quality_comment"; "teamwork_comment"; "delivery_comment"]).
    repeat (apply NoDup_cons_2;
            [rewrite ?elem_of_cons, elem_of_nil; intuition discriminate|]).
    apply NoDup_nil_2.
  - intros k.
    assert (build_metrics ["Quality"; "Teamwork"; "Delivery"]
              (scores all_rows) (comments all_rows)
            = <["delivery_comment" := JStr ""]> (<["delivery" := JNum (of_Z 100)]>
                (<["teamwork_comment" := JStr ""]>
                   (<["teamwork" := JNum (StringToNumber "7.5")]>
                      (<["quality_comment" := JStr ""]>
                         (<["quality" := JNum (of_Z 80)]> ∅)))))) as -> by reflexivity.
    destruct (decide (k = "quality")) as [->|H1]; [reflexivity|].
    destruct (decide (k = "quality_comment")) as [->|H2]; [reflexivity|].
    destruct (decide (k = "teamwork")) as [->|H3]; [reflexivity|].
    destruct (decide (k = "teamwork_comment")) as [->|H4]; [reflexivity|].
    destruct (decide (k = "delivery")) as [->|H5]; [reflexivity|].
    destruct (decide (k = "delivery_comment")) as [->|H6]; [reflexivity|].
    rewrite !lookup_insert_ne by congruence. rewrite lookup_empty. cbn [assoc].
    rewrite !bool_decide_eq_false_2 by congruence. reflexivity.
Defined.

Lemma loadEmployeeEvaluation_witness :
  last (loadEmployeeEvaluation MasterDataContext.initial.(MasterDataContext.masters)
          clicked_employee (JStr "edit") "2025-W48" ["Quality"; "Teamwork"]
          evaluations_down)
  = Some (SetLoadingPage false)
  ∧ one_per_row (blank 2) 2.
Proof.
  split.
  - apply (loadEmployeeEvaluation_outcomes
             MasterDataContext.initial.(MasterDataContext.masters)
             clicked_employee (JStr "edit") "2025-W48" ["Quality"; "Teamwork"]
             evaluations_down).
    discriminate.
  - apply (loadEmployeeEvaluation_outcomes
             MasterDataContext.initial.(MasterDataContext.masters)
             clicked_employee (JStr "edit") "2025-W48" ["Quality"; "Teamwork"]
             no_evaluation).
    left. vm_compute. tauto.
Defined.

End EvaluationLoad.
(** * Further properties of the master-data page *)

Module MasterPagesFacts.
Import JS ES MasterModule MasterPages Notions Terms MoreSamples.


Lemma form_get_insert form k v : form_get (<[k := v]> form) k = v.
Proof. unfold form_get. by rewrite lookup_insert_eq. Qed.

Lemma form_get_insert_ne form k k' v :
  k ≠ k' → form_get (<[k := v]> form) k' = form_get form k'.
Proof. intros H. unfold form_get. by rewrite lookup_insert_ne. Qed.




(** X14: a project is never saved without a department: [saveItem]
    answers the choice of the placeholder, of 0 or of a value that is no
    number in the Department select with the alert "Department is
    required" and no request. What it creates carries the status Active,
    the type of the page unless the form has a type of its own, and the
    other fields of the form unchanged. *)
Theorem saveItem_requires_department (masterType : string) (editItem : jsval)
    (data form : Form) (has_callback : bool) (v : string) :
  (saveItem "PROJECT" editItem
     (form_set (select_onChange form has_callback "department_id" v))
   = Alerted "danger" "Department is required"
   ↔ truthy (JNum (StringToNumber v)) = false)
  ∧ (∀ r, saveItem "PROJECT" editItem data = Asked r →
          truthy (form_get data "department_id") = true)
  ∧ (∀ url body, saveItem masterType editItem data = Asked (Post url body) →
       truthy editItem = false
       ∧ url = "/masters/"
       ∧ body !! "status" = Some (JStr "Active")
       ∧ (data !! "master_type" = None → body !! "master_type" = Some (JStr masterType))
       ∧ ∀ k, k ≠ "status" → k ≠ "master_type" → body !! k = data !! k).
Proof.
  split; [|split].
  - unfold saveItem. change (bool_decide ("PROJECT" = "PROJECT")) with true.
    cbn [andb].
    assert (form_get (form_set (select_onChange form has_callback "department_id" v))
              "department_id" = JNum (StringToNumber v)) as ->.
    { unfold select_onChange.
      change (bool_decide ("department_id" = "managers")) with false.
      change (bool_decide ("department_id" = "department_id")) with true.
      cbn iota. cbn [form_set]. rewrite form_get_insert_ne by done.
      apply form_get_insert. }
    destruct (truthy (JNum (StringToNumber v))); cbn [negb].
    + split; [|done]. by destruct (truthy editItem).
    + done.
  - intros r. unfold saveItem. change (bool_decide ("PROJECT" = "PROJECT")) with true.
    cbn [andb]. by destruct (truthy (form_get data "department_id")).
  - intros url body. unfold saveItem.
    destruct (_ && _); [done|]. destruct (truthy editItem); [done|].
    intros [= <- <-]. split; [done|]. split; [done|]. split; [|split].
    + apply lookup_union_Some_l. apply lookup_insert_eq.
    + intros Hn. rewrite lookup_union_r.
      * apply lookup_singleton_eq.
      * by rewrite lookup_insert_ne.
    + intros k H1 H2. rewrite lookup_union_l.
      * by rewrite lookup_insert_ne.
      * by rewrite lookup_singleton_ne.
Qed.

Lemma saveItem_witness :
  saveItem "PROJECT" JNull
    (form_set (select_onChange (<["name" := JStr "Atlas"]> ∅) true "department_id" ""))
  = Alerted "danger" "Department is required".
Proof.
  apply (saveItem_requires_department "PROJECT" JNull ∅
           (<["name" := JStr "Atlas"]> ∅) true "").
  reflexivity.
Defined.

(** X15: the department the managers are filtered by is null or a number
    that is not NaN; after a choice in the Department select it is the
    number of the chosen value, and null when that is 0 or no number. *)
Theorem selected_department_is_a_number (deptId : jsval) :
  (validDeptId deptId = JNull
   ∨ ∃ n, validDeptId deptId = JNum n ∧ n ≠ NaN)
  ∧ ∀ (form : Form) (v : string) (arg : jsval),
      department_call (select_onChange form true "department_id" v) = Some arg →
      validDeptId arg
      = if truthy (JNum (StringToNumber v)) then JNum (StringToNumber v) else JNull.
Proof.
  split.
  - unfold validDeptId. destruct (truthy deptId); [|by left].
    destruct (ToNumber deptId) as [| |d] eqn:E; cbn; [by left | |]; right; eauto.
  - intros form v arg. unfold select_onChange.
    change (bool_decide ("department_id" = "department_id")) with true.
    cbn. intros [= <-]. unfold validDeptId. cbn [ToNumber truthy].
    by destruct (StringToNumber v) as [| |d]; cbn; try destruct (dmant d =? 0)%Z.
Qed.

Lemma selected_department_witness :
  validDeptId (JNum (of_Z 4)) = JNum (of_Z 4).
Proof.
  apply (proj2 (selected_department_is_a_number JNull) ∅ "4").
  reflexivity.
Defined.

Lemma manager_label_truthy m : truthy (manager_label m) = true.
Proof.
  unfold manager_label, or_else.
  destruct (truthy (if truthy (get_prop m "full_name") then _ else _)) eqn:E; done.
Qed.

Lemma manager_option_name m o :
  manager_option m = Some o → truthy (get_prop o "name") = true.
Proof.
  unfold manager_option. destruct (get m "id") as [i|]; [|done].
  intros [= <-]. cbn. apply manager_label_truthy.
Qed.

Lemma mapM_In {A B} (f : A → option B) (l : list A) (k : list B) y :
  mapM f l = Some k → In y k → ∃ x, In x l ∧ f x = Some y.
Proof.
  intros H Hy. apply mapM_Some in H.
  induction H as [|x z l k Hf H IH]; [done|].
  destruct Hy as [<-|Hy]; [exists x; split; [by left | done]|].
  destruct (IH Hy) as (x' & Hx' & Hf'). exists x'. split; [by right | done].
Qed.

Lemma filter_throwing_In {A} (p : A → option bool) (l kept : list A) x :
  filter_throwing p l = Some kept → In x kept → In x l ∧ p x = Some true.
Proof.
  revert kept. induction l as [|y l IH]; intros kept H Hx.
  - injection H as <-. done.
  - cbn in H. destruct (p y) as [b|] eqn:Ep; [|done]. cbn in H.
    destruct (filter_throwing p l) as [kept'|]; [|done]. cbn in H.
    injection H as <-. destruct b.
    + destruct Hx as [<-|Hx]; [split; [by left | done]|].
      destruct (IH kept' eq_refl Hx). split; [by right | done].
    + destruct (IH kept' eq_refl Hx). split; [by right | done].
Qed.

(** X16: the managers offered for a project: with no department selected,
    every manager of the list; with one selected, only managers that
    belong to the department of the masters with the selected id, and
    none when there is no such department. Every option has a name that
    is not empty. *)
Theorem filteredManagers_by_department
    (masters : gmap string (list MasterDataContext.Master))
    (managers selectedDepartment : jsval) (opts : list jsval) :
  filteredManagers masters managers selectedDepartment = Some opts →
  (∀ o, In o opts → truthy (get_prop o "name") = true)
  ∧ (truthy selectedDepartment = false →
       ∃ ms, managers = JArr ms ∧ mapM manager_option ms = Some opts)
  ∧ (truthy selectedDepartment = true →
       ∀ o, In o opts →
         ∃ ms m depts d,
           managers = JArr ms ∧ In m ms ∧ manager_option m = Some o
           ∧ masters !! "DEPARTMENT" = Some depts ∧ In d depts
           ∧ strict_eq (MasterDataContext.id d) selectedDepartment = true
           ∧ belongs_to m d).
Proof.
  unfold filteredManagers. destruct (truthy selectedDepartment); cbn [negb].
  - destruct (masters !! "DEPARTMENT") as [depts|] eqn:Ed; cbn [mbind option_bind].
    2:{ intros [= <-]. split; [done|]. split; done. }
    destruct (List.find _ depts) as [d|] eqn:Ef.
    2:{ intros [= <-]. split; [done|]. split; done. }
    apply find_some in Ef as [Hd Hid].
    destruct (truthy (MasterDataContext.name d)); cbn [negb].
    2:{ intros [= <-]. split; [done|]. split; done. }
    destruct managers as [| | | | |ms|]; try done.
    destruct (filter_throwing _ ms) as [kept|] eqn:Ek; [|done]. cbn [mbind option_bind].
    intros Hopts. split; [|split; [done|]].
    + intros o Ho. destruct (mapM_In _ _ _ o Hopts Ho) as (m & _ & Hm).
      by apply (manager_option_name m).
    + intros _ o Ho. destruct (mapM_In _ _ _ o Hopts Ho) as (m & Hm & Hmo).
      destruct (filter_throwing_In _ _ _ m Ek Hm) as [Hin Hp].
      exists ms, m, depts, d. repeat split; try done.
      unfold belongs_to. unfold get in Hp.
      destruct (is_nullish m) eqn:En; [done|]. cbn in Hp. by injection Hp.
  - unfold map_managers. destruct managers as [| | | | |ms|]; try done.
    intros Hopts. split; [|split; [|done]].
    + intros o Ho. destruct (mapM_In _ _ _ o Hopts Ho) as (m & _ & Hm).
      by apply (manager_option_name m).
    + intros _. by exists ms.
Qed.

Lemma filteredManagers_witness :
  filteredManagers two_departments two_managers (JNum (of_Z 4))
  = Some [JObj [("id", JNum (of_Z 9)); ("name", JStr "Meera Nair")]]
  ∧ truthy (get_prop (JObj [("id", JNum (of_Z 9)); ("name", JStr "Meera Nair")]) "name")
    = true.
Proof.
  split; [reflexivity|].
  apply (proj1 (filteredManagers_by_department two_departments two_managers
                  (JNum (of_Z 4))
                  [JObj [("id", JNum (of_Z 9)); ("name", JStr "Meera Nair")]]
                  eq_refl)).
  by left.
Defined.

(** *** The status dialogs *)

Lemma run_cons masterType disableStatus st ev events :
  run masterType disableStatus st (ev :: events)
  = (match (step masterType disableStatus st ev).1 with
     | Some q => q :: (run masterType disableStatus
                         (step masterType disableStatus st ev).2 events).1
     | None => (run masterType disableStatus
                  (step masterType disableStatus st ev).2 events).1
     end,
     (run masterType disableStatus (step masterType disableStatus st ev).2 events).2).
Proof.
  cbn [run]. destruct (step _ _ _ _) as [r st']. cbn [fst snd].
  by destruct (run _ _ st' events).
Qed.

Lemma department_step st ev :
  is_str (opt_get (deleteTarget st) "status") "Active" = false →
  is_str (opt_get (deleteTarget (step "DEPARTMENT" false st ev).2) "status") "Active"
  = false
  ∧ ∀ url body, (step "DEPARTMENT" false st ev).1 = Some (Patch url body) →
                body = {["status" := JStr "Active"]}.
Proof.
  intros Hinv. destruct ev as [row| | | |reason]; cbn [step].
  - unfold deleteItem, get. destruct (is_nullish row) eqn:En; cbn; [done|].
    change (bool_decide ("DEPARTMENT" = "DEPARTMENT")) with true. cbn [andb].
    destruct (is_str (get_prop row "status") "Active") eqn:Es; cbn; [done|].
    split; [|done]. unfold opt_get. by rewrite En.
  - destruct (_ && _); cbn; done.
  - destruct (_ && _); cbn; [|done]. split; [done|].
    intros url body. rewrite Hinv.
    destruct (get (deleteTarget st) "id"); cbn; [|done]. by intros [= _ <-].
  - destruct (truthy _); cbn; done.
  - destruct (truthy _); cbn; [|done]. split; [done|].
    intros url body. by destruct (get (deptDeactivateTarget st) "id").
Qed.

Lemma department_run st events :
  is_str (opt_get (deleteTarget st) "status") "Active" = false →
  ∀ url body, In (Patch url body) (run "DEPARTMENT" false st events).1 →
              body = {["status" := JStr "Active"]}.
Proof.
  revert st. induction events as [|ev events IH]; intros st Hinv url body; [done|].
  rewrite run_cons. cbn [fst].
  destruct (department_step st ev Hinv) as [Hinv' Hreq].
  destruct (step "DEPARTMENT" false st ev).1 as [q|] eqn:Eq.
  - intros [->|Hin]; [by apply (Hreq url) | by apply (IH _ Hinv' url)].
  - by apply IH.
Qed.

(** X17: on the Departments page the confirm dialog only ever activates:
    whatever is clicked, in whatever order, every status update the page
    sends sets the status Active. The status button of an active
    department opens the deactivation dialog instead, and sends nothing. *)
Theorem department_page_only_activates (events : list PageEvent) :
  (∀ url body, In (Patch url body) (run "DEPARTMENT" false closed events).1 →
               body = {["status" := JStr "Active"]})
  ∧ (∀ row, is_nullish row = false →
            is_str (get_prop row "status") "Active" = true →
            step "DEPARTMENT" false closed (ClickStatus row)
            = (None, {| deleteTarget := JNull; deptDeactivateTarget := row |})).
Proof.
  split.
  - by apply department_run.
  - intros row Hn Hs. cbn [step]. unfold deleteItem, get. rewrite Hn. cbn.
    by rewrite Hs.
Qed.

Lemma department_page_witness :
  {["status" := JStr "Active"]} = ({["status" := JStr "Active"]} : Form)
  ∧ step "DEPARTMENT" false closed (ClickStatus design_row)
    = (None, {| deleteTarget := JNull; deptDeactivateTarget := design_row |}).
Proof.
  split.
  - symmetry.
    apply (proj1 (department_page_only_activates [ClickStatus closed_row; ConfirmDelete])
             "/masters/5/").
    left. reflexivity.
  - apply (department_page_only_activates []); reflexivity.
Defined.

End MasterPagesFacts.
(** ** The employee search box *)

Module SearchBox.
Import JS ES PerformanceMetrics EvaluationForm Notions Terms.

#[local] Arguments String.append !_ _ / : simpl nomatch.

(** *** Trimming *)

Lemma trim_start_head (l : list ascii) c r :
  trim_start l = c :: r → is_ws c = false.
Proof.
  induction l as [|x l IH]; [done|]. cbn.
  destruct (is_ws x) eqn:E; [done|]. by intros [= <- _].
Qed.

Lemma trim_start_suffix (l : list ascii) : ∃ p, l = (p ++ trim_start l)%list.
Proof.
  induction l as [|x l [p IH]]; [by exists []|]. cbn.
  destruct (is_ws x); [|by exists []].
  exists (x :: p). cbn. by rewrite <- IH.
Qed.

Lemma trim_start_unchanged (l : list ascii) :
  (∀ c r, l = c :: r → is_ws c = false) → trim_start l = l.
Proof.
  destruct l as [|c r]; [done|]. intros H. cbn. by rewrite (H c r eq_refl).
Qed.

Lemma trim_list_ends (l : list ascii) :
  (∀ c r, trim_list l = c :: r → is_ws c = false)
  ∧ (∀ c r, trim_list l = (r ++ [c])%list → is_ws c = false).
Proof.
  unfold trim_list.
  set (a := trim_start l). set (b := trim_start (rev a)).
  pose proof (trim_start_head l) as Ha. fold a in Ha.
  pose proof (trim_start_head (rev a)) as Hb. fold b in Hb.
  destruct (trim_start_suffix (rev a)) as [p Hp]. fold b in Hp.
  split.
  - intros c r Hr.
    assert (b = rev r ++ [c])%list as Hbr.
    { rewrite <- (rev_involutive b), Hr. done. }
    assert (a = c :: rev (p ++ rev r))%list as Har.
    { rewrite <- (rev_involutive a), Hp, Hbr.
      rewrite (assoc_L (++)), rev_app_distr. done. }
    by apply (Ha c _ Har).
  - intros c r Hr.
    assert (b = c :: rev r) as Hbr.
    { rewrite <- (rev_involutive b), Hr, rev_app_distr. done. }
    by apply (Hb c _ Hbr).
Qed.

Lemma trim_list_fixed (l : list ascii) :
  (∀ c r, l = c :: r → is_ws c = false) →
  (∀ c r, l = (r ++ [c])%list → is_ws c = false) →
  trim_list l = l.
Proof.
  intros Hh Ht. unfold trim_list. rewrite (trim_start_unchanged l Hh).
  rewrite trim_start_unchanged; [apply rev_involutive|].
  intros c r Hr. apply (Ht c (rev r)).
  rewrite <- (rev_involutive l), Hr. done.
Qed.

Lemma trim_list_idem (l : list ascii) : trim_list (trim_list l) = trim_list l.
Proof. destruct (trim_list_ends l). by apply trim_list_fixed. Qed.

Lemma trim_idem (s : string) : trim (trim s) = trim s.
Proof.
  unfold trim. by rewrite list_ascii_of_string_of_list_ascii, trim_list_idem.
Qed.

Lemma list_of_append (a b : string) :
  list_ascii_of_string (a ++ b)
  = (list_ascii_of_string a ++ list_ascii_of_string b)%list.
Proof. induction a as [|c a IH]; cbn; [done | by rewrite IH]. Qed.

Lemma trim_trimmed (s : string) : trimmed (trim s).
Proof.
  destruct (trim_list_ends (list_ascii_of_string s)) as [Hh Ht].
  unfold trimmed, trim. split; intros c r Hr.
  - apply (Hh c (list_ascii_of_string r)).
    rewrite <- (list_ascii_of_string_of_list_ascii (trim_list _)), Hr. done.
  - apply (Ht c (list_ascii_of_string r)).
    rewrite <- (list_ascii_of_string_of_list_ascii (trim_list _)), Hr.
    by rewrite list_of_append.
Qed.

(** *** Upper case *)

Lemma upper_unit_is n c :
  (n = 69 ∨ n = 77 ∨ n = 80)%nat →
  (∃ u, upper_units c = n :: u)
  ↔ upper_units c = [n] ∧ (code c = n ∨ code c = n + 32)%nat.
Proof.
  intros Hn. split.
  - intros [u Hu].
    destruct c as [[] [] [] [] [] [] [] []]; vm_compute in Hu |- *;
      destruct Hn as [-> | [-> | ->]]; try discriminate Hu; split; (done || lia).
  - intros [-> _]. by eexists.
Qed.

Lemma starts_with_upper c n (s : string) (q : units) :
  (n = 69 ∨ n = 77 ∨ n = 80)%nat →
  starts_with (toUpperCase (String c s)) (n :: q) = true
  ↔ (code c = n ∨ code c = n + 32)%nat ∧ starts_with (toUpperCase s) q = true.
Proof.
  intros Hn. unfold toUpperCase. cbn [list_ascii_of_string flat_map].
  destruct (upper_units c) as [|m u] eqn:Eu.
  { exfalso. destruct c as [[] [] [] [] [] [] [] []]; vm_compute in Eu; discriminate Eu. }
  cbn [app starts_with]. destruct (Nat.eqb_spec n m) as [<-|Hne]; cbn [andb].
  - destruct (proj1 (upper_unit_is n c Hn) (ex_intro _ u Eu)) as [Hu Hc].
    rewrite Eu in Hu. injection Hu as ->. cbn [app]. tauto.
  - split; [done|]. intros [Hc _]. exfalso. apply Hne.
    assert (upper_units c = [n]) as Hu.
    { destruct c as [[] [] [] [] [] [] [] []]; vm_compute in Hc |- *;
        destruct Hn as [-> | [-> | ->]]; destruct Hc as [Hc|Hc];
        try discriminate Hc; reflexivity. }
    congruence.
Qed.

Lemma code_char c n : code c = n → c = ascii_of_nat n.
Proof. intros <-. unfold code. by rewrite ascii_nat_embedding. Qed.

Lemma emp_prefix_test (v : string) :
  starts_with (toUpperCase v) (units_of "EMP") = true ↔ emp_prefixed v.
Proof.
  change (units_of "EMP") with [69; 77; 80]. unfold emp_prefixed. split.
  - destruct v as [|a [|b [|c rest]]].
    + done.
    + intros H. apply starts_with_upper in H as [_ H]; [done | tauto].
    + intros H. apply starts_with_upper in H as [_ H]; [|tauto].
      apply starts_with_upper in H as [_ H]; [done | tauto].
    + intros H. apply starts_with_upper in H as [Ha H]; [|tauto].
      apply starts_with_upper in H as [Hb H]; [|tauto].
      apply starts_with_upper in H as [Hc _]; [|tauto].
      exists a, b, c, rest. split; [done|].
      split; [|split].
      * destruct Ha as [Ha|Ha]; apply code_char in Ha; subst; tauto.
      * destruct Hb as [Hb|Hb]; apply code_char in Hb; subst; tauto.
      * destruct Hc as [Hc|Hc]; apply code_char in Hc; subst; tauto.
  - intros (a & b & c & rest & -> & Ha & Hb & Hc).
    apply starts_with_upper; [tauto|]. split; [destruct Ha as [-> | ->]; [right | left]; reflexivity|].
    apply starts_with_upper; [tauto|]. split; [destruct Hb as [-> | ->]; [right | left]; reflexivity|].
    apply starts_with_upper; [tauto|]. split; [destruct Hc as [-> | ->]; [right | left]; reflexivity|].
    done.
Qed.

Lemma name_unit_test c : is_name_unit (code c) = true ↔ letter_or_space c.
Proof.
  unfold is_name_unit, letter_or_space.
  rewrite !orb_true_iff, !andb_true_iff, !Nat.leb_le, Nat.eqb_eq. tauto.
Qed.

Lemma forallb_false_ex {A} (p : A → bool) (l : list A) :
  forallb p l = false ↔ ∃ x, In x l ∧ p x = false.
Proof.
  induction l as [|y l IH]; cbn.
  - split; [done | by intros (? & [] & _)].
  - rewrite andb_false_iff, IH. split.
    + intros [H|(x & Hx & Hp)]; [exists y; tauto | exists x; tauto].
    + intros (x & [<-|Hx] & Hp); [by left | right; by exists x].
Qed.

Lemma only_letters_test (s : string) :
  only_letters_and_spaces (units_of s) = false
  ↔ s = "" ∨ ∃ c, In c (list_ascii_of_string s) ∧ ¬ letter_or_space c.
Proof.
  unfold only_letters_and_spaces, units_of.
  destruct s as [|x s]; [cbn; tauto|].
  rewrite bool_decide_eq_false_2 by done. cbn [negb andb].
  rewrite forallb_false_ex. split.
  - intros (n & Hn & Hp). right.
    apply in_map_iff in Hn as (c & <- & Hc). exists c. split; [done|].
    rewrite <- name_unit_test. congruence.
  - intros [?|(c & Hc & Hl)]; [done|]. exists (code c). split.
    + apply in_map_iff. by exists c.
    + apply not_true_iff_false. by rewrite name_unit_test.
Qed.

(** X18: the search box calls a text invalid exactly when, once trimmed,
    it is not empty, does not start with EMP in whatever letter case, and
    holds something else than unaccented letters and spaces; an employee
    id is taken for valid exactly when it starts with EMP in whatever
    letter case. The trimmed text has no white space first or last, and
    trimming it again changes nothing. *)
Theorem isInvalidSearchInput_spec (value : string) :
  let v := trim value in
  (isInvalidSearchInput value = true
   ↔ v ≠ "" ∧ ¬ emp_prefixed v
     ∧ ∃ c, In c (list_ascii_of_string v) ∧ ¬ letter_or_space c)
  ∧ (isValidEmpId value = true ↔ emp_prefixed value)
  ∧ trimmed v ∧ trim v = v.
Proof.
  cbn zeta. split; [|split; [apply emp_prefix_test | split; [apply trim_trimmed | apply trim_idem]]].
  unfold isInvalidSearchInput, isValidName. rewrite trim_idem.
  set (v := trim value). cbn [truthy].
  destruct (decide (v = "")) as [Hv|Hv].
  { rewrite Hv. cbn. split; [done | by intros [? _]]. }
  rewrite (bool_decide_eq_false_2 _ Hv). cbn [negb].
  pose proof (emp_prefix_test v) as He.
  destruct (starts_with (toUpperCase v) (units_of "EMP")).
  { split; [done|]. intros (_ & H & _). destruct H. by apply He. }
  pose proof (only_letters_test v) as Hl.
  destruct (only_letters_and_spaces (units_of v)); cbn [negb].
  - split; [done|]. intros (_ & _ & H).
    discriminate (proj2 Hl (or_intror H)).
  - split; [|done]. intros _. split; [done|]. split.
    + intros H. apply He in H. done.
    + destruct (proj1 Hl eq_refl) as [?|H]; done.
Qed.

End SearchBox.
(** ** The rows of the table: measurements *)

Module Measurements.
Import JS ES PerformanceMetrics EvaluationForm Notions Terms MoreSamples.

Lemma to_Q_neg d : (to_Q (Dec (- dmant d) (dexp d)) == - to_Q d)%Q.
Proof.
  destruct d as [m e]. unfold to_Q. cbn [dmant dexp].
  destruct (0 <=? e)%Z.
  - rewrite Z.mul_opp_l. unfold Qeq. cbn. lia.
  - unfold Qeq. cbn. lia.
Qed.

(** [a - b > 0] is [b < a] for numbers. *)
Lemma positive_difference (a b : jsnum) :
  a ≠ NaN → b ≠ NaN → gtb (sub a b) (of_Z 0) = ltb b a.
Proof.
  intros Ha Hb. destruct a as [|[]|x], b as [|[]|y]; try done.
  unfold sub, gtb. cbn [neg_num].
  destruct (add (Fin x) (Fin (Dec (- dmant y) (dexp y)))) as [| |d] eqn:E;
    [done | done |].
  change (Qlt_bool 0 (to_Q d) = Qlt_bool (to_Q y) (to_Q x)).
  pose proof (ArithFacts.to_Q_add _ _ _ E) as Hd. rewrite to_Q_neg in Hd.
  destruct (Qlt_bool (to_Q y) (to_Q x)) eqn:E2.
  - apply NumberFacts.Qlt_bool_iff in E2. apply NumberFacts.Qlt_bool_iff.
    rewrite Hd. lra.
  - apply NumberFacts.Qlt_bool_false in E2. apply NumberFacts.Qlt_bool_false.
    rewrite Hd. lra.
Qed.

Lemma ltb_asym (a b : jsnum) : ltb a b = true → ltb b a = false.
Proof.
  destruct a as [|[]|x], b as [|[]|y]; try done.
  change (Qlt_bool (to_Q x) (to_Q y) = true → Qlt_bool (to_Q y) (to_Q x) = false).
  rewrite NumberFacts.Qlt_bool_iff, NumberFacts.Qlt_bool_false. apply Qlt_le_weak.
Qed.

Lemma id_le_trans (a b c : MasterDataContext.Master) :
  id_number a ≠ NaN → id_number b ≠ NaN → id_number c ≠ NaN →
  id_le a b → id_le b c → id_le a c.
Proof.
  unfold id_le.
  destruct (id_number a) as [|[]|x], (id_number b) as [|[]|y],
    (id_number c) as [|[]|z]; try done.
  intros _ _ _.
  change (Qlt_bool (to_Q y) (to_Q x) = false → Qlt_bool (to_Q z) (to_Q y) = false →
          Qlt_bool (to_Q z) (to_Q x) = false).
  rewrite !NumberFacts.Qlt_bool_false. intros. by eapply Qle_trans.
Qed.

Section Insertion.

Context {A : Type} (after : A → A → bool).

Lemma insert_sorted_perm x (l : list A) : Permutation (insert_sorted after x l) (x :: l).
Proof.
  induction l as [|y l IH]; cbn; [done|].
  destruct (after x y); [|done]. rewrite IH. apply perm_swap.
Qed.

Lemma sort_perm (l : list A) :
  Permutation (fold_right (insert_sorted after) [] l) l.
Proof.
  induction l as [|x l IH]; cbn; [done|]. by rewrite insert_sorted_perm, IH.
Qed.

(** Elements the comparator does not tell apart keep their order. *)
Lemma insert_sorted_filter (p : A → bool) x (l : list A) :
  (∀ y, p x = true → p y = true → after x y = false) →
  List.filter p (insert_sorted after x l) = List.filter p (x :: l).
Proof.
  intros Hp. induction l as [|y l IH]; [done|]. cbn [insert_sorted].
  destruct (after x y) eqn:E; [|done].
  cbn [List.filter] in *. rewrite IH.
  destruct (p x) eqn:Ex, (p y) eqn:Ey; try done.
  by rewrite (Hp y) in E.
Qed.

Lemma sort_filter (p : A → bool) (l : list A) :
  (∀ x y, p x = true → p y = true → after x y = false) →
  List.filter p (fold_right (insert_sorted after) [] l) = List.filter p l.
Proof.
  intros Hp. induction l as [|x l IH]; [done|]. cbn [fold_right].
  rewrite insert_sorted_filter by (intros y; apply Hp).
  cbn [List.filter]. by rewrite IH.
Qed.

End Insertion.

Lemma insert_sorted_ordered (x : MasterDataContext.Master) l :
  id_number x ≠ NaN → Forall (fun m => id_number m ≠ NaN) l →
  StronglySorted id_le l →
  StronglySorted id_le
    (insert_sorted (fun a b => gtb (sub (id_number a) (id_number b)) (of_Z 0)) x l).
Proof.
  intros Hx Hl Hs. induction l as [|y l IH]; cbn [insert_sorted].
  - repeat constructor.
  - apply Forall_cons in Hl as [Hy Hl]. apply StronglySorted_inv in Hs as [Hs Hyl].
    rewrite (positive_difference _ _ Hx Hy).
    destruct (ltb (id_number y) (id_number x)) eqn:E.
    + constructor; [by apply IH|].
      rewrite (insert_sorted_perm _ x l). constructor; [|done].
      unfold id_le. by apply ltb_asym.
    + constructor; [by constructor|]. constructor; [done|].
      rewrite Forall_forall in Hyl, Hl |- *. intros z Hz.
      apply (id_le_trans x y z); try done; [by apply Hl | by apply Hyl].
Qed.

(** X19: the rows of the evaluation table are the measurements the
    masters list as Active, each once, by ascending id, measurements with
    the same id staying in the order of the masters; this for ids that
    are numbers. *)
Theorem measurements_are_sorted
    (masters : gmap string (list MasterDataContext.Master)) :
  Forall (fun m => id_number m ≠ NaN) (active_listed masters) →
  measurement_names masters = MasterDataContext.name <$> active_sorted masters
  ∧ Permutation (active_sorted masters) (active_listed masters)
  ∧ StronglySorted id_le (active_sorted masters)
  ∧ ∀ n, n ≠ NaN →
      List.filter (fun m => num_eq (id_number m) n) (active_sorted masters)
      = List.filter (fun m => num_eq (id_number m) n) (active_listed masters).
Proof.
  intros Hn. split; [done|]. unfold active_sorted. fold (active_listed masters).
  unfold sort. split; [apply sort_perm|]. split.
  - induction (active_listed masters) as [|x l IH]; [constructor|].
    apply Forall_cons in Hn as [Hx Hl]. cbn [fold_right].
    apply (insert_sorted_ordered x); [done | | by apply IH].
    by rewrite (sort_perm _ l).
  - intros n Hnn. apply sort_filter. intros x y Hx Hy.
    fold (id_number x) (id_number y).
    destruct (id_number x) as [|s|a] eqn:Ex, n as [|u|c], (id_number y) as [|t|b] eqn:Ey;
      try done.
    + destruct s, u, t; done.
    + unfold num_eq in Hx, Hy. apply Qeq_bool_iff in Hx, Hy.
      rewrite positive_difference by done.
      change (Qlt_bool (to_Q b) (to_Q a) = false).
      apply NumberFacts.Qlt_bool_false. rewrite Hx, Hy. apply Qle_refl.
Qed.

Lemma measurements_witness :
  measurement_names listed_measurements
  = MasterDataContext.name <$> active_sorted listed_measurements
  ∧ measurement_names listed_measurements
    = [JStr "Quality"; JStr "Teamwork"; JStr "Delivery"].
Proof.
  split; [|vm_compute; reflexivity].
  apply (measurements_are_sorted listed_measurements).
  unfold active_listed.
  change (default [] (listed_measurements !! "MEASUREMENT"))
    with (default [] (Some
      [ {| MasterDataContext.id := JNum (of_Z 3); MasterDataContext.name := JStr "Delivery";
           MasterDataContext.code := JNull; MasterDataContext.status := JStr "Active" |};
        {| MasterDataContext.id := JNum (of_Z 1); MasterDataContext.name := JStr "Quality";
           MasterDataContext.code := JNull; MasterDataContext.status := JStr "Active" |};
        {| MasterDataContext.id := JNum (of_Z 4); MasterDataContext.name := JStr "Punctuality";
           MasterDataContext.code := JNull; MasterDataContext.status := JStr "Inactive" |};
        {| MasterDataContext.id := JNum (of_Z 2); MasterDataContext.name := JStr "Teamwork";
           MasterDataContext.code := JNull; MasterDataContext.status := JStr "Active" |} ])).
  cbn. repeat constructor; discriminate.
Defined.

End Measurements.
(** ** Roles in the shell *)

Module ShellRoles.
Import JS Routes AppContent Nav AppSidebar Dashboard PerformanceMetrics Notions Terms
  MoreSamples.

Lemma lower_char_idem c : lower_char (lower_char c) = lower_char c.
Proof. by destruct c as [[] [] [] [] [] [] [] []]. Qed.

Lemma toLowerCase_idem s : toLowerCase (toLowerCase s) = toLowerCase s.
Proof. induction s as [|c s IH]; cbn; [done|]. by rewrite lower_char_idem, IH. Qed.

Lemma sidebar_role_is ls v :
  v ≠ "" → role ls = v ↔ role_lowercases_to ls v.
Proof.
  intros Hv. unfold role, role_lowercases_to, Storage.getItem, or_else.
  destruct (ls !! "role") as [r|] eqn:E; cbn [truthy].
  - destruct (decide (r = "")) as [->|Hr].
    + cbn. split; [by intros <- | by intros (? & [= <-] & ?)].
    + rewrite (bool_decide_eq_false_2 _ Hr). cbn.
      split; [intros <-; by exists r | by intros (? & [= <-] & ?)].
  - cbn. split; [by intros <- | by intros (? & ? & _)].
Qed.

(** X20: the sidebar shows the link to the lifecycle history exactly to
    the roles admin and manager, in whatever letter case they are stored;
    the route behind the link serves the history to admin alone, and sends
    a manager back to /dashboard. *)
Theorem history_link_and_route (ls : Storage.t) :
  (In "/employee-lifecycle/history" (links (navigation (role ls)))
   ↔ role_lowercases_to ls "admin" ∨ role_lowercases_to ls "manager")
  ∧ (role_lowercases_to ls "manager" →
       history_element ls = Navigate "/dashboard").
Proof.
  split.
  - rewrite <- !sidebar_role_is by done. unfold navigation.
    destruct (decide (role ls = "admin")) as [->|Ha].
    { split; intros _; [by left | vm_compute; repeat (first [by left | right])]. }
    rewrite (bool_decide_eq_false_2 _ Ha).
    destruct (decide (role ls = "manager")) as [->|Hm].
    { split; intros _; [by right | vm_compute; repeat (first [by left | right])]. }
    rewrite (bool_decide_eq_false_2 _ Hm). cbn [orb].
    destruct (bool_decide (role ls = "employee")); cbn; intuition congruence.
  - intros (r & Hr & Hl). unfold history_element, stored_role_lower, Storage.getItem.
    rewrite Hr, Hl. done.
Qed.

Lemma history_link_witness :
  history_element manager_session = Navigate "/dashboard"
  ∧ In "/employee-lifecycle/history" (links (navigation (role manager_session))).
Proof.
  split.
  - apply (history_link_and_route manager_session). by exists "Manager".
  - apply (history_link_and_route manager_session). right. by exists "Manager".
Defined.

(** X21: [Dashboard] and the default route of [AppContent] agree on who
    is an employee: for a session with a token and a role, the default
    route is /employee-dashboard exactly when [Dashboard] navigates
    there, and is otherwise /dashboard, from where [Dashboard] navigates
    to /admin-dashboard. A session without a token or without a role is
    sent to /login by [Dashboard]. *)
Theorem dashboard_agrees_with_default_route (ls : Storage.t) (token r : string) :
  ls !! "access_token" = Some token → token ≠ "" →
  ls !! "role" = Some r → r ≠ "" →
  (getDefaultRoute (Storage.getItem ls "role") = "/employee-dashboard"
   ∧ Dashboard ls = "/employee-dashboard"
   ∧ toLowerCase r = "employee")
  ∨ (getDefaultRoute (Storage.getItem ls "role") = "/dashboard"
     ∧ Dashboard ls = "/admin-dashboard"
     ∧ toLowerCase r ≠ "employee").
Proof.
  intros Ht Hne Hr Hrne.
  unfold getDefaultRoute, Dashboard, stored_role_lower, Storage.getItem.
  rewrite Ht, Hr. cbn [truthy].
  rewrite !(bool_decide_eq_false_2 _ Hne), (bool_decide_eq_false_2 _ Hrne).
  assert (toLowerCase r ≠ "") as Hl by (by destruct r).
  rewrite (bool_decide_eq_false_2 _ Hl). cbn [negb orb is_str].
  destruct (decide (toLowerCase r = "employee")) as [He|He].
  - rewrite !(bool_decide_eq_true_2 _ He). by left.
  - rewrite !(bool_decide_eq_false_2 _ He). by right.
Qed.

Lemma dashboard_witness :
  (getDefaultRoute (Storage.getItem manager_session "role") = "/employee-dashboard"
   ∧ Dashboard manager_session = "/employee-dashboard"
   ∧ toLowerCase "Manager" = "employee")
  ∨ (getDefaultRoute (Storage.getItem manager_session "role") = "/dashboard"
     ∧ Dashboard manager_session = "/admin-dashboard"
     ∧ toLowerCase "Manager" ≠ "employee").
Proof.
  apply (dashboard_agrees_with_default_route manager_session "h.e30=.s" "Manager");
    done.
Defined.

Section Parser.

Variable JSON_parse : string → option jsval.

(** X22: the role the evaluation form works with is in lower case. It
    is the role of the stored user object when that object has one that
    is not empty, whatever role is stored beside it; when no user object
    is stored, or one that does not parse or has no role, it is the
    stored role, or the empty string when there is none. *)
Theorem getUserRole_precedence (env : Env) :
  (∀ r, getUserRole JSON_parse env = Some r → toLowerCase r = r)
  ∧ (∀ user s,
       JSON_parse (ToString (Storage.getItem (localStorage env) "user")) = Some user →
       opt_get user "role" = JStr s → s ≠ "" →
       getUserRole JSON_parse env = Some (toLowerCase s))
  ∧ ((JSON_parse (ToString (Storage.getItem (localStorage env) "user")) = None
      ∨ ∃ user, JSON_parse (ToString (Storage.getItem (localStorage env) "user"))
                = Some user ∧ truthy (opt_get user "role") = false) →
     getUserRole JSON_parse env
     = Some (toLowerCase (default "" (localStorage env !! "role")))).
Proof.
  split; [|split].
  - intros r. unfold getUserRole.
    destruct (or_else _ _) as [| | | |x| |]; try done.
    intros [= <-]. apply toLowerCase_idem.
  - intros user s Hu Hr Hs. unfold getUserRole. rewrite Hu, Hr.
    unfold or_else. cbn [truthy]. rewrite !(bool_decide_eq_false_2 _ Hs).
    cbn [negb truthy]. by rewrite (bool_decide_eq_false_2 _ Hs).
  - intros H. unfold getUserRole.
    set (u := match JSON_parse _ with Some u => u | None => JNull end).
    assert (truthy (opt_get u "role") = false) as Hf.
    { subst u. destruct H as [-> | (user & -> & Hf)]; done. }
    unfold or_else. rewrite Hf. unfold Storage.getItem.
    destruct (localStorage env !! "role") as [r|]; cbn; [|done].
    destruct (decide (r = "")) as [->|Hr]; [done|].
    by rewrite (bool_decide_eq_false_2 _ Hr).
Qed.

End Parser.

Lemma getUserRole_witness :
  getUserRole FormSamples.JSON_parse_null FormSamples.manager_editing = Some "manager".
Proof.
  apply (getUserRole_precedence FormSamples.JSON_parse_null FormSamples.manager_editing).
  right. exists JNull. split; reflexivity.
Defined.

End ShellRoles.
(** ** The employee search box *)

Module Dropdown.
Import JS ES PerformanceMetrics EvaluationForm EmployeeSearch Notions Terms MoreSamples.

Lemma filter_throwing_spec {A} (p : A → option bool) (l k : list A) :
  filter_throwing p l = Some k →
  sublist k l ∧ ∀ x, In x k ↔ In x l ∧ p x = Some true.
Proof.
  revert k. induction l as [|a l IH]; intros k; cbn.
  - intros [= <-]. split; [done|]. intros x. cbn. tauto.
  - destruct (p a) as [b|] eqn:Ea; cbn; [|done].
    destruct (filter_throwing p l) as [kept|]; cbn; [|done].
    destruct (IH kept eq_refl) as [Hs Hi]. intros [= <-]. destruct b.
    + split; [by apply sublist_skip|]. intros x. cbn. rewrite Hi.
      split; [intros [<- | [? ?]]; tauto | intros [[<- | ?] ?]; tauto].
    + split; [by apply sublist_cons|]. intros x. rewrite Hi. cbn.
      split; [tauto | intros [[<- | ?] ?]; [congruence | tauto]].
Qed.

Lemma upper_of_matches test key text emp :
  (u ← upper_of emp key; Some (test u (toUpperCase (trim text)))) = Some true
  ↔ matches test key text emp.
Proof.
  unfold upper_of, matches. destruct (get emp key) as [v|]; cbn.
  - destruct v; cbn; try (split; [done | by intros (? & [= ?] & ?)]).
    split; [intros [= H]; by eexists | by intros (? & [= <-] & ->)].
  - split; [done | by intros (? & ? & ?)].
Qed.

Lemma upper_units_name c :
  is_name_unit (code c) = true → forallb is_name_unit (upper_units c) = true.
Proof. destruct c as [[] [] [] [] [] [] [] []]; vm_compute; congruence. Qed.

Lemma upper_keeps_names (l : list ascii) :
  forallb is_name_unit (code <$> l) = true →
  forallb is_name_unit (flat_map upper_units l) = true.
Proof.
  induction l as [|c l IH]; cbn; [done|].
  intros [Hc Hl]%andb_true_iff. rewrite forallb_app, (upper_units_name c Hc).
  by apply IH.
Qed.

Lemma upper_units_nonempty c : upper_units c ≠ [].
Proof. destruct c as [[] [] [] [] [] [] [] []]; vm_compute; discriminate. Qed.

Lemma upper_nonempty (l : list ascii) : flat_map upper_units l = [] → l = [].
Proof.
  destruct l as [|c l]; [done|]. cbn [flat_map].
  intros [H _]%app_eq_nil. by destruct (upper_units_nonempty c).
Qed.

Lemma name_stays_name (s : string) :
  only_letters_and_spaces (units_of s) = true →
  only_letters_and_spaces (toUpperCase s) = true.
Proof.
  unfold only_letters_and_spaces, units_of, toUpperCase.
  intros [Hn Hl]%andb_true_iff. apply andb_true_iff. split.
  - apply negb_true_iff, bool_decide_eq_false_2. intros He%upper_nonempty.
    rewrite He in Hn. done.
  - by apply upper_keeps_names.
Qed.

Lemma employees_nonempty (emps : list jsval) :
  (0 <? length emps)%nat = true → emps ≠ [].
Proof. by destruct emps. Qed.

(** X23: what typing in the search box shows. A blank text clears the
    list and asks the server nothing. Any other text leaves either the
    eligible employees it asks for, all of them and in their order, or
    exactly one message: for a text that starts with EMP and matches no
    eligible id, one request for that employee decides between
    "evaluated" (it is answered) and "not_found" (it fails); "invalid"
    means that the text is one [isInvalidSearchInput] rejects;
    "no_match" that no eligible name contains it. No more than one
    request is sent. *)
Theorem dropdown_after_typing (eligible : list jsval)
    (server : units → MasterDataContext.Settled) (text : string) (l : list Shown) :
  shown (search_onChange eligible server text) = Some l →
  let typed := search_onChange eligible server text in
  let url := employee_url (toUpperCase (trim text)) in
  (trim text = "" → l = [] ∧ requested typed = [])
  ∧ (trim text ≠ "" →
       (∃ emps, emps ≠ [] ∧ l = Employee <$> emps ∧ requested typed = []
                ∧ sublist emps eligible
                ∧ ∀ emp, In emp emps ↔ In emp eligible ∧ asked_for text emp)
       ∨ (∃ m, l = [Notice m]
               ∧ ((emp_prefixed (trim text) ∧ requested typed = [url]
                   ∧ (∀ emp, In emp eligible → ¬ asked_for text emp)
                   ∧ ((m = "evaluated" ∧ ∃ d, server url = MasterDataContext.Fulfilled d)
                      ∨ (m = "not_found" ∧ ∃ e, server url = MasterDataContext.Failed e)))
                  ∨ (m = "invalid" ∧ requested typed = []
                     ∧ isInvalidSearchInput text = true)
                  ∨ (m = "no_match" ∧ requested typed = []
                     ∧ ¬ emp_prefixed (trim text)
                     ∧ ∀ emp, In emp eligible → ¬ asked_for text emp))))
  ∧ (length (requested typed) ≤ 1)%nat.
Proof.
  intros Hl typed url. subst typed url. revert Hl. unfold search_onChange.
  cbn [truthy]. destruct (decide (trim text = "")) as [He|Hne].
  { rewrite He. rewrite (bool_decide_eq_true_2 ("" = "") eq_refl). cbn. intros [= <-]. split; [done|]. split; [by intros ? | lia]. }
  rewrite (bool_decide_eq_false_2 _ Hne). cbn [negb].
  destruct (starts_with (toUpperCase (trim text)) (units_of "EMP")) eqn:Ep.
  - pose proof (proj1 (SearchBox.emp_prefix_test _) Ep) as Hp.
    destruct (filter_throwing _ eligible) as [filtered|] eqn:Ef; [|done].
    destruct (filter_throwing_spec _ _ _ Ef) as [Hs Hi].
    assert (∀ emp, In emp filtered ↔ In emp eligible ∧ asked_for text emp) as Hi'.
    { intros emp. rewrite Hi, upper_of_matches. unfold asked_for. tauto. }
    destruct (0 <? length filtered)%nat eqn:En; cbn; intros [= <-].
    + split; [done|]. split; [|lia]. intros _. left. exists filtered.
      by pose proof (employees_nonempty _ En).
    + split; [done|]. split; [|lia]. intros _. right.
      assert (filtered = []) as -> by (by destruct filtered).
      eexists. split; [done|]. left. repeat split; try done.
      * intros emp Hin Ha. by apply (proj2 (Hi' emp) (conj Hin Ha)).
      * destruct (server _) as [d|e]; [left | right]; split; by eauto.
  - assert (¬ emp_prefixed (trim text)) as Hp.
    { intros Hp%SearchBox.emp_prefix_test. congruence. }
    destruct (only_letters_and_spaces (toUpperCase (trim text))) eqn:Eo; cbn [negb].
    + destruct (filter_throwing _ eligible) as [filtered|] eqn:Ef; [|done].
      destruct (filter_throwing_spec _ _ _ Ef) as [Hs Hi].
      assert (∀ emp, In emp filtered ↔ In emp eligible ∧ asked_for text emp) as Hi'.
      { intros emp. rewrite Hi, upper_of_matches. unfold asked_for. tauto. }
      destruct (0 <? length filtered)%nat eqn:En;
        cbn; intros [= <-]; (split; [done|]); (split; [|lia]); intros _.
      * left. exists filtered. by pose proof (employees_nonempty _ En).
      * right. assert (filtered = []) as -> by (by destruct filtered).
        eexists. split; [done|]. right. right. repeat split; try done.
        intros emp Hin Ha. by apply (proj2 (Hi' emp) (conj Hin Ha)).
    + cbn. intros [= <-]. split; [done|]. split; [|lia]. intros _. right.
      eexists. split; [done|]. right. left. repeat split; try done.
      unfold isInvalidSearchInput. cbn [truthy].
      rewrite (bool_decide_eq_false_2 _ Hne), Ep. cbn [negb].
      unfold isValidName. rewrite SearchBox.trim_idem.
      destruct (only_letters_and_spaces (units_of (trim text))) eqn:En; [|done].
      apply name_stays_name in En. congruence.
Qed.

Lemma dropdown_witness :
  shown (search_onChange two_eligible no_employee " emp0009") = Some [Notice "not_found"]
  ∧ (length (requested (search_onChange two_eligible no_employee " emp0009")) ≤ 1)%nat.
Proof.
  split; [reflexivity|].
  apply (dropdown_after_typing two_eligible no_employee " emp0009" [Notice "not_found"]).
  reflexivity.
Defined.

(** X24: focusing the search box never shows a message and never hides
    the employees: the list it shows is taken from the eligible
    employees, in their order; it is the whole list when the text is
    blank, and also when no eligible employee matches the text, so it is
    empty only when there is no eligible employee. *)
Theorem focus_shows_employees (eligible : list jsval) (employeeId : string)
    (l : list jsval) :
  search_onFocus eligible employeeId = Some l →
  sublist l eligible
  ∧ (trim employeeId = "" → l = eligible)
  ∧ ((∀ emp, In emp eligible → ¬ asked_for employeeId emp) → l = eligible)
  ∧ (l = [] → eligible = []).
Proof.
  unfold search_onFocus.
  destruct (decide (toUpperCase (trim employeeId) = [])) as [He|Hne].
  { rewrite (bool_decide_eq_true_2 _ He). by intros [= <-]. }
  rewrite (bool_decide_eq_false_2 _ Hne).
  assert (trim employeeId ≠ "") as Ht by (intros E; by rewrite E in Hne).
  destruct (starts_with (toUpperCase (trim employeeId)) (units_of "EMP")) eqn:Ep.
  - pose proof (proj1 (SearchBox.emp_prefix_test _) Ep) as Hp.
    destruct (filter_throwing _ eligible) as [filtered|] eqn:Ef;
      cbn [mbind option_bind]; [|done].
    destruct (filter_throwing_spec _ _ _ Ef) as [Hs Hi].
    destruct (0 <? length filtered)%nat eqn:En; cbn; intros [= <-].
    + pose proof (employees_nonempty _ En) as Hn.
      split; [done|]. split; [by intros ?|]. split; [|by intros ->].
      intros Hno. destruct filtered as [|emp r]; [done|]. exfalso.
      destruct (proj1 (Hi emp) (or_introl eq_refl)) as [Hin Hm].
      apply (Hno emp Hin). left. split; [done|]. by apply upper_of_matches.
    + by repeat split.
  - assert (¬ emp_prefixed (trim employeeId)) as Hp.
    { intros Hp%SearchBox.emp_prefix_test. congruence. }
    destruct (filter_throwing _ eligible) as [filtered|] eqn:Ef;
      cbn [mbind option_bind]; [|done].
    destruct (filter_throwing_spec _ _ _ Ef) as [Hs Hi].
    destruct (0 <? length filtered)%nat eqn:En; cbn; intros [= <-].
    + pose proof (employees_nonempty _ En) as Hn.
      split; [done|]. split; [by intros ?|]. split; [|by intros ->].
      intros Hno. destruct filtered as [|emp r]; [done|]. exfalso.
      destruct (proj1 (Hi emp) (or_introl eq_refl)) as [Hin Hm].
      apply (Hno emp Hin). right. split; [done|]. by apply upper_of_matches.
    + by repeat split.
Qed.

Lemma focus_witness :
  search_onFocus two_eligible "ravi" = Some (drop 1 two_eligible)
  ∧ sublist (drop 1 two_eligible) two_eligible.
Proof.
  split; [reflexivity|].
  apply (focus_shows_employees two_eligible "ravi" (drop 1 two_eligible)).
  reflexivity.
Defined.

End Dropdown.
(** ** The breadcrumb of the master pages *)

Module Breadcrumbs.
Import JS Routes MasterRouter AppBreadcrumb Notions Terms MoreSamples.

#[local] Arguments String.append !_ _ / : simpl nomatch.







End Breadcrumbs.
